(** * Verification of the audit / derivation core of bail-bonds-UI-app

    Shallow embedding of
      - scripts/atlas_categorical_field_audit.py  (flatten, field statistics,
        categorical classification),
      - scripts/atlas_source_audit.py  (numeric and temporal coercion, dotted
        lookups, fact derivation, window counting),
      - scripts/eval_windows.py  (window classifier driven by the wall clock),
      - scripts/atlas_fieldmap_diff.py  (the [--pairs] argument).

    Conventions of the embedding:
      - a Python [dict] is an insertion-ordered association list with unique
        keys ([PyDict]); [dict(items)] keeps the last value of a repeated key;
      - a Python [str] is a [string]; only ASCII text is modelled, so [\d] and
        [str.strip] range over ASCII digits and ASCII white space;
      - a Python [float] is an IEEE-754 binary64 value ([spec_float] with
        precision 53 and maximal exponent 1024, rounding to nearest even);
      - a Python [int] is a [Z];
      - an aware [datetime] is a civil date and time with a fixed UTC offset. *)

From Stdlib Require Import ZArith List String Ascii Bool Lia Floats.
From Stdlib Require Import DecimalString Permutation.
Import ListNotations.

Local Open Scope string_scope.
Local Open Scope Z_scope.
Local Open Scope list_scope.

(* ------------------------------------------------------------------ *)
(** ** Python dictionaries *)

Module PyDict.
Section Dict.
Context {K V : Type}.
Variable eqb : K -> K -> bool.

Definition dict := list (K * V).

Fixpoint get (d : dict) (k : K) : option V :=
  match d with
  | [] => None
  | (k', v) :: rest => if eqb k' k then Some v else get rest k
  end.

Definition mem (d : dict) (k : K) : bool :=
  match get d k with Some _ => true | None => false end.

(** [d[k] = v]: an existing key keeps its position, a new key goes last. *)
Fixpoint set (d : dict) (k : K) (v : V) : dict :=
  match d with
  | [] => [(k, v)]
  | (k', v') :: rest =>
      if eqb k' k then (k', v) :: rest else (k', v') :: set rest k v
  end.

(** [dict(items)] *)
Definition of_items (items : list (K * V)) : dict :=
  fold_left (fun d kv => set d (fst kv) (snd kv)) items [].

Definition len (d : dict) : nat := List.length d.
End Dict.
End PyDict.

Abbreviation dict_get := (PyDict.get String.eqb).
Abbreviation dict_mem := (PyDict.mem String.eqb).
Abbreviation dict_set := (PyDict.set String.eqb).
Abbreviation dict_of_items := (PyDict.of_items String.eqb).

(* ------------------------------------------------------------------ *)
(** ** Numbers and dates carried by documents *)

(** binary64 *)
Definition float64 := spec_float.
Definition prec64 : Z := 53.
Definition emax64 : Z := 1024.

(** [datetime.datetime]; [tzinfo] is the UTC offset in seconds when the value
    is aware. *)
Record datetime := mk_datetime {
  year : Z; month : Z; day : Z;
  hour : Z; minute : Z; second : Z; microsecond : Z;
  tzinfo : option Z
}.

(* ------------------------------------------------------------------ *)
(** ** Documents *)

Unset Elimination Schemes.
Inductive value :=
| VNone
| VBool (b : bool)
| VInt (n : Z)
| VFloat (f : float64)
| VStr (s : string)
| VDatetime (d : datetime)
| VObjectId (hex : string)
| VBytes (b : list ascii)
| VList (l : list value)
| VDict (d : list (string * value)).
Set Elimination Schemes.

Section ValueInd.
Variable P : value -> Prop.
Hypothesis HNone : P VNone.
Hypothesis HBool : forall b, P (VBool b).
Hypothesis HInt : forall n, P (VInt n).
Hypothesis HFloat : forall f, P (VFloat f).
Hypothesis HStr : forall s, P (VStr s).
Hypothesis HDatetime : forall d, P (VDatetime d).
Hypothesis HObjectId : forall h, P (VObjectId h).
Hypothesis HBytes : forall b, P (VBytes b).
Hypothesis HList : forall l, Forall P l -> P (VList l).
Hypothesis HDict : forall d, Forall (fun kv => P (snd kv)) d -> P (VDict d).

Fixpoint value_ind (v : value) : P v :=
  match v with
  | VNone => HNone
  | VBool b => HBool b
  | VInt n => HInt n
  | VFloat f => HFloat f
  | VStr s => HStr s
  | VDatetime d => HDatetime d
  | VObjectId h => HObjectId h
  | VBytes b => HBytes b
  | VList l =>
      HList l ((fix go (l : list value) : Forall P l :=
                  match l with
                  | [] => Forall_nil _
                  | x :: r => Forall_cons x (value_ind x) (go r)
                  end) l)
  | VDict d =>
      HDict d ((fix go (d : list (string * value))
                  : Forall (fun kv => P (snd kv)) d :=
                  match d with
                  | [] => Forall_nil _
                  | kv :: r => Forall_cons kv (value_ind (snd kv)) (go r)
                  end) d)
  end.
End ValueInd.

(* ------------------------------------------------------------------ *)
(** ** Results of Python calls

    [Val a] is a returned value, [Null] is a returned [None], [Raises] is an
    exception that leaves the function. *)

Inductive pyres (A : Type) : Type :=
| Val (a : A)
| Null
| Raises.
Arguments Val {A} a.
Arguments Null {A}.
Arguments Raises {A}.

(** a call wrapped in [try: ... except Exception:] yields [None] on failure *)
Definition of_option {A} (o : option A) : pyres A :=
  match o with Some a => Val a | None => Null end.

(* ------------------------------------------------------------------ *)
(** ** binary64 arithmetic *)

Module Float64.

Definition zero : float64 := S754_zero false.
Definition add : float64 -> float64 -> float64 := SFadd prec64 emax64.
Definition div : float64 -> float64 -> float64 := SFdiv prec64 emax64.
Definition leb : float64 -> float64 -> bool := SFleb.
Definition ltb : float64 -> float64 -> bool := SFltb.
Definition is_nan (f : float64) : bool :=
  match f with S754_nan => true | _ => false end.

(** the integer [n], rounded to nearest even *)
Definition of_Z (n : Z) : float64 := binary_normalize prec64 emax64 n 0 false.

(** [float(n)] for a Python int: [OverflowError] when [n] is beyond the range *)
Definition of_int (n : Z) : option float64 :=
  match of_Z n with
  | S754_infinity _ => None
  | f => Some f
  end.

(** the quotient [p / q] of two positive integers, correctly rounded *)
Definition of_ratio (neg : bool) (p q : positive) : float64 :=
  let '(mz, ez, lz) := SFdiv_core_binary prec64 emax64 (Zpos p) 0 (Zpos q) 0 in
  binary_round_aux prec64 emax64 neg mz ez lz.

(** the decimal [(-1)^neg * m * 10^e], correctly rounded *)
Definition of_decimal (neg : bool) (m : N) (e : Z) : float64 :=
  match m with
  | N0 => S754_zero neg
  | Npos p =>
      match e with
      | Zneg k => of_ratio neg p (Pos.pow 10 k)
      | Z0 => of_ratio neg p 1
      | Zpos k => of_ratio neg (p * Pos.pow 10 k) 1
      end
  end.

(** [sum(xs)] followed by [float(...)]: Python starts from the int [0] *)
Definition sum (xs : list float64) : float64 := fold_left add xs zero.

End Float64.

(* ------------------------------------------------------------------ *)
(** ** Characters and the text of numbers *)

Definition is_digit (c : ascii) : bool :=
  let n := N_of_ascii c in (48 <=? n)%N && (n <=? 57)%N.

Definition digit_val (c : ascii) : N := (N_of_ascii c - 48)%N.

(** [str.isspace] on ASCII *)
Definition is_space (c : ascii) : bool :=
  let n := N_of_ascii c in
  ((9 <=? n)%N && (n <=? 13)%N) || ((28 <=? n)%N && (n <=? 32)%N).

(** [isspace] of the C locale, the white space [float] and [int] skip *)
Definition is_cspace (c : ascii) : bool :=
  let n := N_of_ascii c in
  ((9 <=? n)%N && (n <=? 13)%N) || (n =? 32)%N.

Definition to_lower (c : ascii) : ascii :=
  let n := N_of_ascii c in
  if (65 <=? n)%N && (n <=? 90)%N then ascii_of_N (n + 32) else c.

Definition to_upper (c : ascii) : ascii :=
  let n := N_of_ascii c in
  if (97 <=? n)%N && (n <=? 122)%N then ascii_of_N (n - 32) else c.

Definition chars := list ascii.

Fixpoint drop_while (p : ascii -> bool) (l : chars) : chars :=
  match l with
  | c :: r => if p c then drop_while p r else l
  | [] => []
  end.

Fixpoint span (p : ascii -> bool) (l : chars) : chars * chars :=
  match l with
  | c :: r => if p c then let '(a, b) := span p r in (c :: a, b) else ([], l)
  | [] => ([], [])
  end.

Definition strip_with (p : ascii -> bool) (l : chars) : chars :=
  rev (drop_while p (rev (drop_while p l))).

(** [s.strip()] *)
Definition strip (l : chars) : chars := strip_with is_space l.

Definition chars_eqb (a b : chars) : bool :=
  String.eqb (string_of_list_ascii a) (string_of_list_ascii b).

(** [s.split(sep)] for a one-character separator *)
Fixpoint split_on (sep : ascii) (l : chars) : list chars :=
  match l with
  | [] => [[]]
  | c :: r =>
      if Ascii.eqb c sep then [] :: split_on sep r
      else match split_on sep r with
           | cur :: more => (c :: cur) :: more
           | [] => [[c]]
           end
  end.

(** digits of a [digitpart] after its first digit: [digit (["_"] digit)*] *)
Fixpoint digits_tail (acc : N) (cnt : nat) (l : chars) : N * nat * chars :=
  match l with
  | c :: r =>
      if is_digit c then digits_tail (10 * acc + digit_val c)%N (S cnt) r
      else if Ascii.eqb c "_" then
        match r with
        | d :: r' =>
            if is_digit d then digits_tail (10 * acc + digit_val d)%N (S cnt) r'
            else (acc, cnt, l)
        | [] => (acc, cnt, l)
        end
      else (acc, cnt, l)
  | [] => (acc, cnt, l)
  end.

Definition digitpart (l : chars) : option (N * nat * chars) :=
  match l with
  | c :: r => if is_digit c then Some (digits_tail (digit_val c) 1 r) else None
  | [] => None
  end.

Definition take_sign (l : chars) : bool * chars :=
  match l with
  | c :: r =>
      if Ascii.eqb c "-" then (true, r)
      else if Ascii.eqb c "+" then (false, r)
      else (false, l)
  | [] => (false, l)
  end.

(** [exponent ::= ("e" | "E") [sign] digitpart], then the end of the text *)
Definition float_exponent (l : chars) : option Z :=
  match l with
  | [] => Some 0
  | c :: r =>
      if Ascii.eqb (to_lower c) "e" then
        let '(neg, r1) := take_sign r in
        match digitpart r1 with
        | Some (x, _, []) => Some (if neg then - Z.of_N x else Z.of_N x)
        | _ => None
        end
      else None
  end.

(** [floatnumber ::= ([digitpart] "." digitpart | digitpart ["."]) [exponent]] *)
Definition float_number (neg : bool) (l : chars) : option float64 :=
  match digitpart l with
  | Some (m1, _, r1) =>
      match r1 with
      | c :: r2 =>
          if Ascii.eqb c "." then
            match digitpart r2 with
            | Some (_, n2, r3) =>
                (* the digits of the fraction continue those of the integer part *)
                let '(m, _, _) := digits_tail m1 0 r2 in
                match float_exponent r3 with
                | Some e => Some (Float64.of_decimal neg m (e - Z.of_nat n2))
                | None => None
                end
            | None =>
                match float_exponent r2 with
                | Some e => Some (Float64.of_decimal neg m1 e)
                | None => None
                end
            end
          else
            match float_exponent r1 with
            | Some e => Some (Float64.of_decimal neg m1 e)
            | None => None
            end
      | [] => Some (Float64.of_decimal neg m1 0)
      end
  | None =>
      match l with
      | c :: r2 =>
          if Ascii.eqb c "." then
            match digitpart r2 with
            | Some (m, n2, r3) =>
                match float_exponent r3 with
                | Some e => Some (Float64.of_decimal neg m (e - Z.of_nat n2))
                | None => None
                end
            | None => None
            end
          else None
      | [] => None
      end
  end.

(** [float(s)] for a string: [None] stands for [ValueError] *)
Definition float_of_chars (s : chars) : option float64 :=
  let '(neg, body) := take_sign (strip_with is_cspace s) in
  let low := map to_lower body in
  if chars_eqb low (list_ascii_of_string "inf")
     || chars_eqb low (list_ascii_of_string "infinity")
  then Some (S754_infinity neg)
  else if chars_eqb low (list_ascii_of_string "nan") then Some S754_nan
  else float_number neg body.

(** [int(s)] for a string, base ten: [None] stands for [ValueError] *)
Definition int_of_chars (s : chars) : option Z :=
  let '(neg, body) := take_sign (strip_with is_cspace s) in
  match digitpart body with
  | Some (n, _, []) => Some (if neg then - Z.of_N n else Z.of_N n)
  | _ => None
  end.

(** [str(i)] for a list index *)
Definition str_of_nat (i : nat) : string :=
  NilEmpty.string_of_uint (Nat.to_uint i).


(* ------------------------------------------------------------------ *)
(** ** The [datetime] library *)

Module PyDatetime.

Definition is_leap (y : Z) : bool :=
  ((y mod 4 =? 0) && negb (y mod 100 =? 0)) || (y mod 400 =? 0).

Definition days_in_month (y m : Z) : Z :=
  if m =? 2 then (if is_leap y then 29 else 28)
  else if (m =? 4) || (m =? 6) || (m =? 9) || (m =? 11) then 30
  else 31.

(** the checks of the [datetime(...)] constructor *)
Definition valid_civil (y m d hh mi ss us : Z) : bool :=
  (1 <=? y) && (y <=? 9999) && (1 <=? m) && (m <=? 12)
  && (1 <=? d) && (d <=? days_in_month y m)
  && (0 <=? hh) && (hh <=? 23) && (0 <=? mi) && (mi <=? 59)
  && (0 <=? ss) && (ss <=? 59) && (0 <=? us) && (us <=? 999999).

(** [datetime(y, m, d, hh, mi, ss, us, tzinfo=tz)]: [None] is [ValueError] *)
Definition make (y m d hh mi ss us : Z) (tz : option Z) : option datetime :=
  if valid_civil y m d hh mi ss us
  then Some (mk_datetime y m d hh mi ss us tz)
  else None.

Definition utc : option Z := Some 0.

(** [d.replace(tzinfo=tz)] *)
Definition replace_tzinfo (d : datetime) (tz : option Z) : datetime :=
  mk_datetime (year d) (month d) (day d) (hour d) (minute d) (second d)
              (microsecond d) tz.

(** [x if x.tzinfo else x.replace(tzinfo=dt.timezone.utc)] *)
Definition ensure_aware (d : datetime) : datetime :=
  match tzinfo d with
  | Some _ => d
  | None => replace_tzinfo d utc
  end.

(** days from 1970-01-01 to the civil date, proleptic Gregorian calendar *)
Definition days_from_civil (y m d : Z) : Z :=
  let y' := if m <=? 2 then y - 1 else y in
  let era := y' / 400 in
  let yoe := y' - era * 400 in
  let mp := if m <=? 2 then m + 9 else m - 3 in
  let doy := (153 * mp + 2) / 5 + d - 1 in
  let doe := yoe * 365 + yoe / 4 - yoe / 100 + doy in
  era * 146097 + doe - 719468.

Definition civil_from_days (z : Z) : Z * Z * Z :=
  let z' := z + 719468 in
  let era := z' / 146097 in
  let doe := z' - era * 146097 in
  let yoe := (doe - doe / 1460 + doe / 36524 - doe / 146096) / 365 in
  let doy := doe - (365 * yoe + yoe / 4 - yoe / 100) in
  let mp := (5 * doy + 2) / 153 in
  let d := doy - (153 * mp + 2) / 5 + 1 in
  let m := if mp <? 10 then mp + 3 else mp - 9 in
  let y := yoe + era * 400 + (if m <=? 2 then 1 else 0) in
  (y, m, d).

Definition us_per_second : Z := 1000000.
Definition us_per_hour : Z := 3600 * us_per_second.

(** microseconds from the epoch to the wall-clock reading of [d], the offset
    not yet applied *)
Definition wall_us (d : datetime) : Z :=
  (days_from_civil (year d) (month d) (day d) * 86400
   + hour d * 3600 + minute d * 60 + second d) * us_per_second
  + microsecond d.

(** the instant an aware datetime denotes, in microseconds since the epoch;
    a naive one has none *)
Definition instant (d : datetime) : option Z :=
  match tzinfo d with
  | Some off => Some (wall_us d - off * us_per_second)
  | None => None
  end.

(** the UTC datetime at [us] microseconds after the epoch; [None] when the
    year leaves [1 .. 9999] *)
Definition of_epoch_us (us : Z) : option datetime :=
  let secs := us / us_per_second in
  let days := secs / 86400 in
  let rem := secs mod 86400 in
  let '(y, m, d) := civil_from_days days in
  make y m d (rem / 3600) (rem mod 3600 / 60) (rem mod 60)
       (us mod us_per_second) utc.

(** the value of a finite float as an integer, rounded half to even, and
    truncated toward zero *)
Definition round_half_even (f : float64) : option Z :=
  match f with
  | S754_zero _ => Some 0
  | S754_finite s m e =>
      let v :=
        match e with
        | Zneg k =>
            let den := Z.pow_pos 2 k in
            let q := Zpos m / den in
            let r := Zpos m mod den in
            match 2 * r ?= den with
            | Lt => q
            | Gt => q + 1
            | Eq => if Z.even q then q else q + 1
            end
        | _ => Zpos m * 2 ^ e
        end in
      Some (if s then - v else v)
  | _ => None
  end.

Definition trunc (f : float64) : option Z :=
  match f with
  | S754_zero _ => Some 0
  | S754_finite s m e =>
      let v :=
        match e with
        | Zneg k => Zpos m / Z.pow_pos 2 k
        | _ => Zpos m * 2 ^ e
        end in
      Some (if s then - v else v)
  | _ => None
  end.

(** seconds and microseconds of a float timestamp: [modf], scaling of the
    fraction by [1e6] in binary64, rounding half to even, carry *)
Definition timeval_of_float (f : float64) : option Z :=
  match trunc f with
  | Some intpart =>
      let frac := SFsub prec64 emax64 f (Float64.of_Z intpart) in
      let scaled := SFmul prec64 emax64 frac (Float64.of_Z 1000000) in
      match round_half_even scaled with
      | Some us => Some (intpart * us_per_second + us)
      | None => None
      end
  | None => None
  end.

(** [datetime.fromtimestamp(sec, tz=timezone.utc)]; [None] is the exception *)
Definition fromtimestamp_int (sec : Z) : option datetime :=
  of_epoch_us (sec * us_per_second).

Definition fromtimestamp_float (sec : float64) : option datetime :=
  match timeval_of_float sec with
  | Some us => of_epoch_us us
  | None => None
  end.

(** *** [strptime] for the directives the scripts use *)

Inductive directive := DY | Dm | Dd | DH | DM | DS | DLit (c : ascii).

Definition in_range (lo hi : ascii) (c : ascii) : bool :=
  (N_of_ascii lo <=? N_of_ascii c)%N && (N_of_ascii c <=? N_of_ascii hi)%N.

Definition one (x : ascii) : ascii -> bool := Ascii.eqb x.

(** the alternatives of the regular expression of a directive, in the order
    the [re] module tries them; each alternative is a sequence of character
    classes *)
Definition alternatives (d : directive) : list (list (ascii -> bool)) :=
  match d with
  | DY => [[is_digit; is_digit; is_digit; is_digit]]
  | Dm => [[one "1"; in_range "0" "2"]; [one "0"; in_range "1" "9"];
           [in_range "1" "9"]]
  | Dd => [[one "3"; in_range "0" "1"]; [in_range "1" "2"; is_digit];
           [one "0"; in_range "1" "9"]; [in_range "1" "9"];
           [one " "; in_range "1" "9"]]
  | DH => [[one "2"; in_range "0" "3"]; [in_range "0" "1"; is_digit]; [is_digit]]
  | DM => [[in_range "0" "5"; is_digit]; [is_digit]]
  | DS => [[one "6"; in_range "0" "1"]; [in_range "0" "5"; is_digit]; [is_digit]]
  | DLit c => [[fun x => Ascii.eqb (to_lower x) (to_lower c)]]
  end.

Fixpoint match_classes (cls : list (ascii -> bool)) (l : chars)
  : option (chars * chars) :=
  match cls with
  | [] => Some ([], l)
  | p :: more =>
      match l with
      | c :: r =>
          if p c then
            match match_classes more r with
            | Some (txt, rest) => Some (c :: txt, rest)
            | None => None
            end
          else None
      | [] => None
      end
  end.

(** [int(text)] of a matched group: digits, possibly after a space *)
Definition group_int (txt : chars) : Z :=
  fold_left (fun acc c => if is_digit c then 10 * acc + Z.of_N (digit_val c) else acc)
            txt 0.

Record groups := mk_groups { gY : Z; gm : Z; gd : Z; gH : Z; gM : Z; gS : Z }.

Definition no_groups : groups := mk_groups 1900 1 1 0 0 0.

Definition store (d : directive) (txt : chars) (g : groups) : groups :=
  let n := group_int txt in
  match d with
  | DY => mk_groups n (gm g) (gd g) (gH g) (gM g) (gS g)
  | Dm => mk_groups (gY g) n (gd g) (gH g) (gM g) (gS g)
  | Dd => mk_groups (gY g) (gm g) n (gH g) (gM g) (gS g)
  | DH => mk_groups (gY g) (gm g) (gd g) n (gM g) (gS g)
  | DM => mk_groups (gY g) (gm g) (gd g) (gH g) n (gS g)
  | DS => mk_groups (gY g) (gm g) (gd g) (gH g) (gM g) n
  | DLit _ => g
  end.

(** [format_regex.match(data_string)]: backtracking over the alternatives,
    first success; the text left over is returned *)
Fixpoint regex_match (ds : list directive) (g : groups) (l : chars)
  : option (groups * chars) :=
  match ds with
  | [] => Some (g, l)
  | d :: more =>
      (fix try (alts : list (list (ascii -> bool))) : option (groups * chars) :=
         match alts with
         | [] => None
         | a :: others =>
             match match_classes a l with
             | Some (txt, rest) =>
                 match regex_match more (store d txt g) rest with
                 | Some r => Some r
                 | None => try others
                 end
             | None => try others
             end
         end) (alternatives d)
  end.

(** [datetime.strptime(s, fmt)]: a naive datetime; [None] is [ValueError]
    (no match, unconverted data, or a date the constructor refuses) *)
Definition strptime (s : chars) (fmt : list directive) : option datetime :=
  match regex_match fmt no_groups s with
  | Some (g, []) => make (gY g) (gm g) (gd g) (gH g) (gM g) (gS g) 0 None
  | _ => None
  end.

End PyDatetime.

(* ------------------------------------------------------------------ *)
(** ** atlas_categorical_field_audit.py *)

Module CategoricalAudit.

(** [f"{parent_key}{sep}{k}" if parent_key else k] *)
Definition new_key_dict (parent_key sep k : string) : string :=
  if String.eqb parent_key "" then k else (parent_key ++ sep ++ k)%string.

(** [f"{parent_key}[{i}]"] *)
Definition new_key_list (parent_key : string) (i : nat) : string :=
  (parent_key ++ "[" ++ str_of_nat i ++ "]")%string.

Fixpoint flatten_sep (sep : string) (doc : value) (parent_key : string)
  : list (string * value) :=
  match doc with
  | VDict d =>
      dict_of_items
        ((fix items (d : list (string * value)) : list (string * value) :=
            match d with
            | [] => []
            | (k, v) :: rest =>
                (flatten_sep sep v (new_key_dict parent_key sep k) ++ items rest)%list
            end) d)
  | VList l =>
      dict_of_items
        ((fix items (i : nat) (l : list value) : list (string * value) :=
            match l with
            | [] => []
            | v :: rest =>
                (flatten_sep sep v (new_key_list parent_key i) ++ items (S i) rest)%list
            end) 0%nat l
         ++ [((parent_key ++ "[]")%string, VBool true)])%list
  | _ => dict_of_items [(parent_key, doc)]
  end.

(** [flatten(doc, parent_key="", sep=".")] *)
Definition flatten (doc : value) (parent_key : string) : list (string * value) :=
  flatten_sep "." doc parent_key.

(** *** Field statistics *)

(** [type_name(v)] *)
Definition type_name (v : value) : string :=
  match v with
  | VNone => "null"
  | VBool _ => "bool"
  | VInt _ => "int"
  | VFloat _ => "float"
  | VStr _ => "str"
  | VObjectId _ => "objectid"
  | VBytes _ => "bytes"
  | VList _ => "list"
  | VDict _ => "dict"
  | VDatetime _ => "datetime"
  end.

(** Equality of two scalars as dictionary keys ([==], as [Counter] uses it):
    numbers compare by value across [bool], [int] and [float], a NaN equals
    nothing, aware datetimes compare by instant *)
Definition int_float_eqb (n : Z) (f : float64) : bool :=
  match f with
  | S754_zero _ => n =? 0
  | S754_finite s m e =>
      let v := if s then Zneg m else Zpos m in
      match e with
      | Zneg k => n * Z.pow_pos 2 k =? v
      | _ => n =? v * 2 ^ e
      end
  | _ => false
  end.

Definition int_of_bool (b : bool) : Z := if b then 1 else 0.

Definition datetime_eqb (a b : datetime) : bool :=
  match PyDatetime.instant a, PyDatetime.instant b with
  | Some x, Some y => x =? y
  | None, None => PyDatetime.wall_us a =? PyDatetime.wall_us b
  | _, _ => false
  end.

Definition key_eqb (a b : value) : bool :=
  match a, b with
  | VNone, VNone => true
  | VBool x, VBool y => Bool.eqb x y
  | VBool x, VInt n | VInt n, VBool x => int_of_bool x =? n
  | VBool x, VFloat f | VFloat f, VBool x => int_float_eqb (int_of_bool x) f
  | VInt x, VInt y => x =? y
  | VInt n, VFloat f | VFloat f, VInt n => int_float_eqb n f
  | VFloat x, VFloat y => SFeqb x y
  | VStr x, VStr y => String.eqb x y
  | VDatetime x, VDatetime y => datetime_eqb x y
  | _, _ => false
  end.

(** [counter[k] += 1] *)
Definition counter_incr {K} (eqb : K -> K -> bool) (c : list (K * Z)) (k : K)
  : list (K * Z) :=
  PyDict.set eqb c k (match PyDict.get eqb c k with Some n => n + 1 | None => 1 end).

(** [counter.get(k, 0)] *)
Definition counter_get {K} (eqb : K -> K -> bool) (c : list (K * Z)) (k : K) : Z :=
  match PyDict.get eqb c k with Some n => n | None => 0 end.

Record field_stat := mk_stat {
  types : list (string * Z);
  non_null_count : Z;
  docs_with_field : Z;
  values : list (value * Z);
  too_many_uniques : bool
}.

(** the value of [defaultdict(lambda: {...})] for a new path *)
Definition new_stat : field_stat := mk_stat [] 0 0 [] false.

Definition UNIQUE_CAP : Z := 5000.

(** [isinstance(val, (dict, list, bytes, bytearray))] *)
Definition is_complex (val : value) : bool :=
  match val with
  | VDict _ | VList _ | VBytes _ => true
  | _ => false
  end.

(** [str(val) if isinstance(val, ObjectId) else val] *)
Definition norm_val (val : value) : value :=
  match val with
  | VObjectId hex => VStr hex
  | _ => val
  end.

(** the block under [if not st["too_many_uniques"]] *)
Definition track_value (st : field_stat) (val : value) : field_stat :=
  if too_many_uniques st then st
  else if is_complex val then st
  else
    let vals := counter_incr key_eqb (values st) (norm_val val) in
    if UNIQUE_CAP <? Z.of_nat (List.length vals)
    then mk_stat (types st) (non_null_count st) (docs_with_field st) [] true
    else mk_stat (types st) (non_null_count st) (docs_with_field st) vals
                 (too_many_uniques st).

(** the body of [for path, val in flat.items()] for one field; [first] tells
    whether the path is not yet in [seen_fields_this_doc] *)
Definition observe (st : field_stat) (first : bool) (val : value) : field_stat :=
  let st1 :=
    mk_stat (counter_incr String.eqb (types st) (type_name val))
            (match val with VNone => non_null_count st | _ => non_null_count st + 1 end)
            (if first then docs_with_field st + 1 else docs_with_field st)
            (values st) (too_many_uniques st) in
  track_value st1 val.

Definition stats := list (string * field_stat).

Definition stat_of (fs : stats) (path : string) : field_stat :=
  match dict_get fs path with Some st => st | None => new_stat end.

(** the loop over [flat.items()] of one document *)
Fixpoint fold_items (items : list (string * value)) (seen : list string) (fs : stats)
  : stats :=
  match items with
  | [] => fs
  | (path, val) :: rest =>
      if String.eqb path "" then fold_items rest seen fs
      else
        let first := negb (existsb (String.eqb path) seen) in
        let st := observe (stat_of fs path) first val in
        fold_items rest (if first then path :: seen else seen) (dict_set fs path st)
  end.

(** the loop [for doc in scan_collection(...)] *)
Definition gather (docs : list value) (fs : stats) : stats :=
  fold_left (fun fs doc => fold_items (flatten doc "") [] fs) docs fs.

(** *** Classification *)

Inductive reason :=
| too_many_uniques_to_count
| bool_field
| unique_values_le_max_unique (unique_values max_unique : Z)
| unique_ratio_le_max_unique_ratio (unique_ratio max_unique_ratio : float64)
| small_int_code (small_int_max_unique : Z)
| overridden_by_identifier_name.

Record thresholds := mk_thresholds {
  max_unique : Z;
  max_unique_ratio : float64;
  min_count : Z;
  treat_small_int_as_categorical : bool;
  small_int_max_unique : Z
}.

(** the defaults of the command line *)
Definition default_thresholds : thresholds :=
  mk_thresholds 25 (Float64.of_decimal false 1 (-1)) 25 false 12.

Record row := mk_row {
  field : string;
  row_docs_with_field : Z;
  row_non_null_count : Z;
  row_types : list (string * Z);
  unique_values : option Z;
  unique_ratio : option float64;
  categorical : bool;
  reasons : list reason
}.

(** [a / b] on ints, [b] positive *)
Definition true_div (a b : Z) : float64 :=
  match a with
  | Z0 => Float64.zero
  | Zpos p => Float64.of_ratio false p (Z.to_pos b)
  | Zneg p => Float64.of_ratio true p (Z.to_pos b)
  end.

Fixpoint is_prefix (p l : chars) : bool :=
  match p, l with
  | [], _ => true
  | a :: p', b :: l' => Ascii.eqb a b && is_prefix p' l'
  | _ :: _, [] => false
  end.

(** [needle in hay] on strings *)
Fixpoint contains (needle hay : chars) : bool :=
  is_prefix needle hay
  || match hay with
     | [] => false
     | _ :: rest => contains needle rest
     end.

(** [any(k in path.lower() for k in ("_id", "uuid", "guid"))] *)
Definition identifier_name (path : string) : bool :=
  let low := map to_lower (list_ascii_of_string path) in
  existsb (fun k => contains (list_ascii_of_string k) low) ["_id"; "uuid"; "guid"].

(** the body of [for path, st in field_stats.items()], up to the row *)
Definition decide (th : thresholds) (path : string) (st : field_stat) : row :=
  let non_null := non_null_count st in
  (* distinct counts, unless the cap was hit *)
  let uv := if too_many_uniques st then None
            else Some (Z.of_nat (List.length (values st))) in
  let ur := match uv with
            | Some u => if 0 <? non_null then Some (true_div u (Z.max 1 non_null))
                        else None
            | None => None
            end in
  let r0 := if too_many_uniques st then [too_many_uniques_to_count] else [] in
  (* 1) bools *)
  let '(c1, r1) :=
    if min_count th <=? counter_get String.eqb (types st) "bool"
    then (true, r0 ++ [bool_field]) else (false, r0) in
  (* 2) low unique count, absolute or ratio *)
  let '(c2, r2) :=
    match c1, uv with
    | false, Some u =>
        if u <=? max_unique th
        then (true, r1 ++ [unique_values_le_max_unique u (max_unique th)])
        else
          match ur with
          | Some q =>
              if Float64.leb q (max_unique_ratio th)
              then (true, r1 ++ [unique_ratio_le_max_unique_ratio q (max_unique_ratio th)])
              else (c1, r1)
          | None => (c1, r1)
          end
    | _, _ => (c1, r1)
    end in
  (* 3) small int codes *)
  let '(c3, r3) :=
    if negb c2 && treat_small_int_as_categorical th then
      match uv with
      | Some u =>
          if (min_count th <=? counter_get String.eqb (types st) "int")
             && (u <=? small_int_max_unique th)
          then (true, r2 ++ [small_int_code (small_int_max_unique th)])
          else (c2, r2)
      | None => (c2, r2)
      end
    else (c2, r2) in
  (* 4) identifier names *)
  let '(c4, r4) :=
    if identifier_name path
    then (false, if c3 then r3 ++ [overridden_by_identifier_name] else r3)
    else (c3, r3) in
  mk_row path (docs_with_field st) non_null (types st) uv ur c4 r4.

(** [analyze_collection]: [docs] is what [scan_collection] yields; the rows
    are those of [rows_json] before the report rounds and prints them *)
Definition analyze_collection (docs : list value) (th : thresholds) : list row :=
  map (fun '(path, st) => decide th path st) (gather docs []).

End CategoricalAudit.

(* ------------------------------------------------------------------ *)
(** ** atlas_source_audit.py : numeric extraction and dotted lookups *)

Module SourceAudit.

(** [BOND_FIELDS_BY_COLLECTION.get(coll_name, [])] *)
Definition BOND_FIELDS_BY_COLLECTION : list (string * list string) :=
  [ ("galveston_events", ["total_bond"; "bonds.amount"]);
    ("jefferson_events", ["total_bond"; "bonds.amount"]);
    ("brazoria_inmates", ["bond_total"; "charges.bond/type"]);
    ("fortbend_inmates", ["charges.bail_amount_int"; "charges.bail_amount"]);
    ("harris_bond", ["bond_amount"]);
    ("harris_nafiling", ["bond_amount"]);
    ("harris_misfel", ["bond_amount"]);
    ("galveston_persons", []);
    ("persons", []) ].

(** [DATE_FIELDS_BY_COLLECTION] *)
Definition DATE_FIELDS_BY_COLLECTION : list (string * list string) :=
  [ ("galveston_events", ["booked_at"; "arrest_date"; "booking_date"]);
    ("jefferson_events", ["booked_at"; "arrest_date"; "booking_date"]);
    ("brazoria_inmates",
       ["booking_date_iso"; "booking_date"; "first_seen_at"; "detail_fetched_at"]);
    ("fortbend_inmates",
       ["booking_date_iso"; "booking_date"; "detail_fetched_at"; "first_seen_at"]);
    ("harris_bond", ["file_date"]);
    ("harris_nafiling", ["file_date"]);
    ("harris_misfel", ["file_date"]);
    ("galveston_persons", ["booked_at"; "booking_date"]);
    ("persons", ["booked_at"; "booking_date"]) ].

Definition fields_of (table : list (string * list string)) (coll_name : string)
  : list string :=
  match dict_get table coll_name with
  | Some fields => fields
  | None => []
  end.

(** [NUMBER_KEYS] is a Python set: the order in which [for k in NUMBER_KEYS]
    visits it is not fixed by the language.  The functions below take the
    visiting order [ks] as an argument; it is a permutation of this list. *)
Definition NUMBER_KEYS : list string :=
  ["$numberInt"; "$numberDouble"; "$numberLong"; "$numberDecimal"].

(** [is_number(x)] *)
Definition is_number (x : value) : bool :=
  match x with
  | VBool _ | VInt _ => true
  | VFloat f => negb (Float64.is_nan f)
  | _ => false
  end.

(** [float(x)]: [None] stands for the exception ([TypeError], [ValueError],
    [OverflowError]) *)
Definition py_float (x : value) : option float64 :=
  match x with
  | VBool b => Some (Float64.of_Z (if b then 1 else 0))
  | VInt n => Float64.of_int n
  | VFloat f => Some f
  | VStr s => float_of_chars (list_ascii_of_string s)
  | VBytes b => float_of_chars b
  | _ => None
  end.

(** the text matched by [[-+]?\d[\d,]*\.?\d*] at the head of [l] *)
Definition match_number_at (l : chars) : option chars :=
  let '(sign, l1) :=
    match l with
    | c :: r => if Ascii.eqb c "-" || Ascii.eqb c "+" then ([c], r) else ([], l)
    | [] => ([], l)
    end in
  match l1 with
  | d :: r =>
      if is_digit d then
        let '(body, r2) := span (fun c => is_digit c || Ascii.eqb c ",") r in
        let '(dot, r3) :=
          match r2 with
          | c :: r' => if Ascii.eqb c "." then ([c], r') else ([], r2)
          | [] => ([], r2)
          end in
        let '(frac, _) := span is_digit r3 in
        Some (sign ++ d :: body ++ dot ++ frac)%list
      else None
  | [] => None
  end.

(** [re.search(r"[-+]?\d[\d,]*\.?\d*", obj)]: the leftmost match *)
Fixpoint re_search_number (l : chars) : option chars :=
  match match_number_at l with
  | Some m => Some m
  | None =>
      match l with
      | [] => None
      | _ :: r => re_search_number r
      end
  end.

(** [m.group(0).replace(",", "")] *)
Definition remove_commas (l : chars) : chars :=
  filter (fun c => negb (Ascii.eqb c ",")) l.

Section ExtractNumeric.
(** visiting order of [NUMBER_KEYS] *)
Variable ks : list string.

(** the [for k in NUMBER_KEYS] loop on a dict: the first key that is present
    and whose value [float] accepts *)
Fixpoint number_wrapper (keys : list string) (obj : list (string * value))
  : option float64 :=
  match keys with
  | [] => None
  | k :: rest =>
      match dict_get obj k with
      | Some x =>
          match py_float x with
          | Some f => Some f
          | None => number_wrapper rest obj
          end
      | None => number_wrapper rest obj
      end
  end.

Fixpoint _extract_first_numeric (obj : value) : pyres float64 :=
  match obj with
  | VDict d => of_option (number_wrapper ks d)
  | VList l =>
      (fix each (l : list value) : pyres float64 :=
         match l with
         | [] => Null
         | it :: rest =>
             match _extract_first_numeric it with
             | Val v => Val v
             | Null => each rest
             | Raises => Raises
             end
         end) l
  | VBool _ | VInt _ | VFloat _ =>
      if is_number obj then
        match py_float obj with
        | Some f => Val f
        | None => Raises
        end
      else Null
  | VStr s =>
      match re_search_number (list_ascii_of_string s) with
      | Some m => of_option (float_of_chars (remove_commas m))
      | None => Null
      end
  | _ => Null
  end.
End ExtractNumeric.

(** [_walk(obj, idx)] of [_get_dotted], on the parts that remain from [idx] *)
Fixpoint _walk (obj : value) (parts : list string) {struct obj} : list value :=
  match obj with
  | VNone => []
  | _ =>
      match parts with
      | [] => [obj]
      | key :: rest =>
          match obj with
          | VList l =>
              (fix fan (l : list value) : list value :=
                 match l with
                 | [] => []
                 | item :: more => (_walk item parts ++ fan more)%list
                 end) l
          | VDict d =>
              (fix lookup (d : list (string * value)) : list value :=
                 match d with
                 | [] => []
                 | (k, v) :: more =>
                     if String.eqb k key then _walk v rest else lookup more
                 end) d
          | _ => []
          end
      end
  end.

(** [path.split(".")] *)
Definition split_path (path : string) : list string :=
  map string_of_list_ascii (split_on "." (list_ascii_of_string path)).

Definition _get_dotted (doc : value) (path : string) : list value :=
  _walk doc (split_path path).

Section DeriveBond.
Variable ks : list string.

(** the inner loop of [derive_bond_amount]: the list [numeric_vals] it
    builds; [None] when an extraction raises *)
Fixpoint numeric_vals (vals : list value) : option (list float64) :=
  match vals with
  | [] => Some []
  | v :: rest =>
      match _extract_first_numeric ks v with
      | Raises => None
      | Null => numeric_vals rest
      | Val n =>
          match numeric_vals rest with
          | Some ns => Some (n :: ns)
          | None => None
          end
      end
  end.

(** the loop [for k in fields] of [derive_bond_amount] *)
Fixpoint bond_over_fields (doc : value) (fields : list string) : pyres float64 :=
  match fields with
  | [] => Null
  | k :: rest =>
      match numeric_vals (_get_dotted doc k) with
      | None => Raises
      | Some [] => bond_over_fields doc rest
      | Some (n :: ns) => Val (Float64.sum (n :: ns))
      end
  end.

Definition derive_bond_amount (coll_name : string) (doc : value) : pyres float64 :=
  bond_over_fields doc (fields_of BOND_FIELDS_BY_COLLECTION coll_name).
End DeriveBond.

(** *** flatten_keys *)

(** [f"{prefix}.{k}" if prefix else k] *)
Definition dotted_key (prefix k : string) : string :=
  if String.eqb prefix "" then k else (prefix ++ "." ++ k)%string.

(** [out.update(sub)] *)
Definition dict_update (out sub : list (string * value)) : list (string * value) :=
  fold_left (fun d kv => dict_set d (fst kv) (snd kv)) sub out.

(** [flatten_keys(d, prefix)]: nested dicts become dotted keys, lists stay as
    they are.  [d] is a dict; the function is never called on anything else. *)
Fixpoint flatten_keys (d : value) (prefix : string) : list (string * value) :=
  match d with
  | VDict items =>
      (fix loop (items : list (string * value)) (out : list (string * value))
         : list (string * value) :=
         match items with
         | [] => out
         | (k, v) :: rest =>
             let key := dotted_key prefix k in
             match v with
             | VDict _ => loop rest (dict_update out (flatten_keys v key))
             | _ => loop rest (dict_set out key v)
             end
         end) items []
  | _ => []
  end.

(** [explode_seq(seq)]: one level of lists is opened *)
Definition explode_seq (seq : list value) : list value :=
  flat_map (fun v => match v with VList items => items | _ => [v] end) seq.

(** *** Temporal extraction *)

Import PyDatetime.

(** the formats tried by [_to_datetime], in order:
    ["%Y-%m-%d"], ["%m/%d/%Y"], ["%Y-%m-%dT%H:%M:%S"], ["%Y-%m-%dT%H:%M:%SZ"] *)
Definition fmt_ymd : list directive := [DY; DLit "-"; Dm; DLit "-"; Dd].
Definition fmt_mdy : list directive := [Dm; DLit "/"; Dd; DLit "/"; DY].
Definition fmt_iso : list directive :=
  [DY; DLit "-"; Dm; DLit "-"; Dd; DLit "T"; DH; DLit ":"; DM; DLit ":"; DS].
Definition fmt_isoz : list directive := (fmt_iso ++ [DLit "Z"])%list.
Definition common_formats : list (list directive) :=
  [fmt_ymd; fmt_mdy; fmt_iso; fmt_isoz].

(** [s.replace("Z", "+00:00")] *)
Fixpoint replace_Z (l : chars) : chars :=
  match l with
  | [] => []
  | c :: r =>
      if Ascii.eqb c "Z" then (list_ascii_of_string "+00:00" ++ replace_Z r)%list
      else c :: replace_Z r
  end.

(** [s.upper() in {"BLACK", "N/A", "NULL"}] *)
Definition is_sentinel (s : chars) : bool :=
  let u := map to_upper s in
  chars_eqb u (list_ascii_of_string "BLACK")
  || chars_eqb u (list_ascii_of_string "N/A")
  || chars_eqb u (list_ascii_of_string "NULL").

Section ToDatetime.
(** [datetime.fromisoformat]: the texts it accepts depend on the version of
    the interpreter; [None] is [ValueError] *)
Variable fromisoformat : string -> option datetime.
(** [str(x)] for a value that is not text (bytes, lists, dicts) *)
Variable py_repr : value -> string.

Definition py_str (x : value) : string :=
  match x with
  | VStr s => s
  | VObjectId hex => hex
  | _ => py_repr x
  end.

(** the loop over the common formats *)
Fixpoint try_formats (s : chars) (fmts : list (list directive)) : option datetime :=
  match fmts with
  | [] => None
  | fmt :: rest =>
      match strptime s fmt with
      | Some d => Some (replace_tzinfo d utc)
      | None => try_formats s rest
      end
  end.

(** the text branch of [_to_datetime] *)
Definition datetime_of_text (raw : string) : pyres datetime :=
  let s := strip (list_ascii_of_string raw) in
  match s with
  | [] => Null
  | _ =>
      if is_sentinel s then Null
      else
        match try_formats s common_formats with
        | Some d => Val d
        | None =>
            match fromisoformat (string_of_list_ascii (replace_Z s)) with
            | Some d => Val (ensure_aware d)
            | None => Null
            end
        end
  end.

Definition _to_datetime (x : value) : pyres datetime :=
  match x with
  | VNone => Null
  | VDatetime d => Val (ensure_aware d)
  | VBool b => of_option (fromtimestamp_int (if b then 1 else 0))
  | VInt n =>
      if 1000000000000 <? n then
        (* [x/1000.0] converts the int first *)
        match Float64.of_int n with
        | Some f =>
            of_option (fromtimestamp_float (Float64.div f (Float64.of_Z 1000)))
        | None => Raises
        end
      else of_option (fromtimestamp_int n)
  | VFloat f =>
      if Float64.ltb (Float64.of_Z 1000000000000) f
      then of_option (fromtimestamp_float (Float64.div f (Float64.of_Z 1000)))
      else of_option (fromtimestamp_float f)
  | _ => datetime_of_text (py_str x)
  end.

(** the inner loop of [derive_booking_datetime] *)
Fixpoint first_datetime (vals : list value) : pyres datetime :=
  match vals with
  | [] => Null
  | v :: rest =>
      match _to_datetime v with
      | Val d => Val d
      | Null => first_datetime rest
      | Raises => Raises
      end
  end.

(** the loop [for k in fields] *)
Fixpoint datetime_over_fields (doc : value) (fields : list string) : pyres datetime :=
  match fields with
  | [] => Null
  | k :: rest =>
      match first_datetime (_get_dotted doc k) with
      | Val d => Val d
      | Null => datetime_over_fields doc rest
      | Raises => Raises
      end
  end.

Definition derive_booking_datetime (coll_name : string) (doc : value)
  : pyres datetime :=
  datetime_over_fields doc (fields_of DATE_FIELDS_BY_COLLECTION coll_name).
End ToDatetime.

(** *** Window counting *)

Record bucket := mk_bucket { count : Z; sum : float64 }.
Record buckets := mk_buckets { b24 : bucket; b48 : bucket; b72 : bucket }.

Definition empty_bucket : bucket := mk_bucket 0 Float64.zero.
Definition empty_buckets : buckets :=
  mk_buckets empty_bucket empty_bucket empty_bucket.

Inductive window := W24 | W48 | W72.

(** [buckets[w]["count"] += 1; buckets[w]["sum"] += v] *)
Definition bump (w : window) (v : float64) (bs : buckets) : buckets :=
  let inc b := mk_bucket (count b + 1) (Float64.add (sum b) v) in
  match w with
  | W24 => mk_buckets (inc (b24 bs)) (b48 bs) (b72 bs)
  | W48 => mk_buckets (b24 bs) (inc (b48 bs)) (b72 bs)
  | W72 => mk_buckets (b24 bs) (b48 bs) (inc (b72 bs))
  end.

(** [b or 0.0] *)
Definition or_zero (b : option float64) : float64 :=
  match b with
  | Some (S754_zero _) => Float64.zero
  | Some f => f
  | None => Float64.zero
  end.

Section Windows.
(** the UTC offset, in seconds, that [astimezone] gives a naive datetime *)
Variable local_utcoffset : datetime -> Z.

(** the instant of [d.astimezone(dt.timezone.utc)], in microseconds *)
Definition astimezone_utc (d : datetime) : Z :=
  match instant d with
  | Some t => t
  | None => wall_us d - local_utcoffset d * us_per_second
  end.

(** the branch taken for one datetime: the tests of the loop body of
    [window_bucket_counts] against [now_utc] and the three cut-offs *)
Definition window_of (now_utc du : Z) : option window :=
  let w24 := now_utc - 24 * us_per_hour in
  let w48 := now_utc - 48 * us_per_hour in
  let w72 := now_utc - 72 * us_per_hour in
  if now_utc <? du then None
  else if w24 <=? du then Some W24
  else if w48 <=? du then Some W48
  else if w72 <=? du then Some W72
  else None.

Fixpoint count_windows (now_utc : Z)
         (dates_and_bonds : list (option datetime * option float64))
         (bs : buckets) : buckets :=
  match dates_and_bonds with
  | [] => bs
  | (None, _) :: rest => count_windows now_utc rest bs
  | (Some d, b) :: rest =>
      match window_of now_utc (astimezone_utc d) with
      | Some w => count_windows now_utc rest (bump w (or_zero b) bs)
      | None => count_windows now_utc rest bs
      end
  end.

(** [window_bucket_counts(dates_and_bonds, now)]: [now] is read once, by the
    caller or by the default argument, before the loop starts *)
Definition window_bucket_counts
           (dates_and_bonds : list (option datetime * option float64))
           (now : datetime) : buckets :=
  count_windows (astimezone_utc now) dates_and_bonds empty_buckets.
End Windows.

End SourceAudit.

(* ------------------------------------------------------------------ *)
(** ** eval_windows.py *)

Module EvalWindows.

Import PyDatetime.
Export SourceAudit (bucket, buckets, window, mk_bucket, mk_buckets, count, sum,
                    b24, b48, b72, W24, W48, W72, bump, empty_buckets).

Definition SIMPLE_COLL : list (string * string) :=
  [ ("brazoria", "simple_brazoria");
    ("fortbend", "simple_fortbend");
    ("galveston", "simple_galveston");
    ("harris", "simple_harris");
    ("jefferson", "simple_jefferson") ].

(** truth value of a Python object, for [if not x] *)
Definition truthy (x : value) : bool :=
  match x with
  | VNone => false
  | VBool b => b
  | VInt n => negb (n =? 0)
  | VFloat (S754_zero _) => false
  | VStr "" => false
  | VBytes [] => false
  | VList [] => false
  | VDict [] => false
  | _ => true
  end.

Section ParseDate.
Variable fromisoformat : string -> option datetime.
Variable py_repr : value -> string.

(** [y, m, d = map(int, s.split(sep))], [None] for any exception *)
Definition three_ints (sep : ascii) (s : chars) : option (Z * Z * Z) :=
  match split_on sep s with
  | [a; b; c] =>
      match int_of_chars a, int_of_chars b, int_of_chars c with
      | Some x, Some y, Some z => Some (x, y, z)
      | _, _, _ => None
      end
  | _ => None
  end.

Definition char_at (s : chars) (i : nat) (c : ascii) : bool :=
  match nth_error s i with
  | Some x => Ascii.eqb x c
  | None => false
  end.

Definition parse_date_any (x : value) : option datetime :=
  if negb (truthy x) then None
  else
    match x with
    | VDatetime d => Some (ensure_aware d)
    | _ =>
        let s := list_ascii_of_string (SourceAudit.py_str py_repr x) in
        if (List.length s =? 10)%nat && char_at s 4 "-" && char_at s 7 "-"
        then
          match three_ints "-" s with
          | Some (y, m, d) => make y m d 0 0 0 0 utc
          | None => None
          end
        else if (List.length s =? 10)%nat && char_at s 2 "/" && char_at s 5 "/"
        then
          match three_ints "/" s with
          | Some (m, d, y) => make y m d 0 0 0 0 utc
          | None => None
          end
        else fromisoformat (string_of_list_ascii (SourceAudit.replace_Z s))
    end.
End ParseDate.

(** [val not in (None, "", " ")] *)
Definition not_blank (val : value) : bool :=
  match val with
  | VNone => false
  | VStr s => negb (String.eqb s "" || String.eqb s " ")
  | _ => true
  end.

(** the loop [for p in parts] of [pick_first] *)
Fixpoint descend (val : value) (parts : list string) : value :=
  match parts with
  | [] => val
  | p :: rest =>
      match val with
      | VDict d =>
          match dict_get d p with
          | Some v => descend v rest
          | None => VNone
          end
      | _ => VNone
      end
  end.

(** ["." in k] *)
Definition has_dot (k : string) : bool :=
  existsb (Ascii.eqb ".") (list_ascii_of_string k).

(** [pick_first(doc, keys, default)]: the first key whose value is not blank;
    the value is returned as it is, unparsed *)
Fixpoint pick_first (doc : value) (keys : list string) (default : value) : value :=
  match keys with
  | [] => default
  | k :: rest =>
      let val :=
        if has_dot k then descend doc (SourceAudit.split_path k)
        else match doc with
             | VDict d => match dict_get d k with Some v => v | None => VNone end
             | _ => VNone
             end in
      if not_blank val then val else pick_first doc rest default
  end.

(** [td.total_seconds()] for a difference of [us] microseconds *)
Definition total_seconds (us : Z) : float64 :=
  match us with
  | Z0 => Float64.zero
  | Zpos p => Float64.of_ratio false p 1000000
  | Zneg p => Float64.of_ratio true p 1000000
  end.

(** [hours_ago(d)], given the reading [now] of the clock that its call to
    [now_utc()] returns; subtracting a naive datetime raises [TypeError] *)
Definition hours_ago (now : Z) (d : datetime) : option float64 :=
  match instant d with
  | Some t => Some (Float64.div (total_seconds (now - t)) (Float64.of_Z 3600))
  | None => None
  end.

(** the tests of [bucket_0_24_48_72] on the elapsed hours [h] *)
Definition bucket_of_hours (h : float64) : option window :=
  if Float64.ltb h (Float64.of_Z 0) then None
  else if Float64.leb h (Float64.of_Z 24) then Some W24
  else if Float64.leb h (Float64.of_Z 48) then Some W48
  else if Float64.leb h (Float64.of_Z 72) then Some W72
  else None.

(** [bucket_0_24_48_72(book_dt)] with the clock reading its [hours_ago] gets *)
Definition bucket_0_24_48_72 (now : Z) (book_dt : option datetime)
  : pyres window :=
  match book_dt with
  | None => Null
  | Some d =>
      match hours_ago now d with
      | Some h => of_option (bucket_of_hours h)
      | None => Raises
      end
  end.

(** The wall clock: [clock n] is what the [n]-th call of [now_utc()] in a run
    returns, in microseconds since the epoch.  A pass carries the number of
    calls made so far. *)
Definition clock := nat -> Z.

Section EvalSimple.
Variable fromisoformat : string -> option datetime.
Variable py_repr : value -> string.
Variable now_utc : clock.

(** [doc.get(key, default)] *)
Definition doc_get (doc : value) (key : string) (default : value) : value :=
  match doc with
  | VDict d =>
      match dict_get d key with
      | Some v => v
      | None => default
      end
  | _ => default
  end.

(** the amount [v] added for a document of [eval_simple] *)
Definition simple_bond (doc : value) : float64 :=
  let bond := doc_get doc "bond_amount" VNone in
  let bond := match bond with VNone => doc_get doc "bond" (VInt 0) | _ => bond end in
  match bond with
  | VNone | VStr "" => Float64.zero
  | _ =>
      match SourceAudit.py_float bond with
      | Some f => f
      | None => Float64.zero
      end
  end.

(** [results[county][bucket]["count"] += 1] and the like: the entry of the
    [defaultdict] is created on first use *)
Definition add_result (results : list (string * buckets)) (county : string)
           (w : window) (v : float64) : list (string * buckets) :=
  let before :=
    match dict_get results county with
    | Some bs => bs
    | None => empty_buckets
    end in
  dict_set results county (bump w v before).

(** the loop [for doc in cursor] of [eval_simple]: the number of clock
    readings made so far and the results are threaded; [None] when an
    exception leaves the loop *)
Fixpoint simple_docs (county : string) (docs : list value) (calls : nat)
         (results : list (string * buckets))
  : option (nat * list (string * buckets)) :=
  match docs with
  | [] => Some (calls, results)
  | doc :: rest =>
      match parse_date_any fromisoformat py_repr (doc_get doc "booking_date" VNone) with
      | None => simple_docs county rest calls results
      | Some d =>
          match bucket_0_24_48_72 (now_utc calls) (Some d) with
          | Raises => None
          | Null => simple_docs county rest (S calls) results
          | Val w =>
              simple_docs county rest (S calls)
                          (add_result results county w (simple_bond doc))
          end
      end
  end.

(** the loop [for county, coll_name in SIMPLE_COLL.items()]; [db] maps a
    collection name to the documents its cursor yields *)
Fixpoint simple_counties (db : list (string * list value))
         (colls : list (string * string)) (calls : nat)
         (results : list (string * buckets))
  : option (list (string * buckets)) :=
  match colls with
  | [] => Some results
  | (county, coll_name) :: rest =>
      let docs := match dict_get db coll_name with Some l => l | None => [] end in
      match simple_docs county docs calls results with
      | None => None
      | Some (calls', results') => simple_counties db rest calls' results'
      end
  end.

Definition eval_simple (db : list (string * list value))
  : option (list (string * buckets)) :=
  simple_counties db SIMPLE_COLL 0%nat [].
End EvalSimple.

(** [s.replace(c, "")] for a character [c] *)
Definition remove_char (c : ascii) (l : chars) : chars :=
  filter (fun x => negb (Ascii.eqb x c)) l.

(** the amount [v] that [eval_sources] adds for the value [bond_raw] that
    [pick_first(doc, m["bond"], 0)] returned: the [try] block with its
    [except Exception: v = 0.0] *)
Definition source_bond (bond_raw : value) : float64 :=
  let or_zero (o : option float64) :=
    match o with Some f => f | None => Float64.zero end in
  match bond_raw with
  | VStr raw =>
      let s := remove_char "," (remove_char "$" (strip (list_ascii_of_string raw))) in
      match s with
      | [] => Float64.zero
      | _ => or_zero (float_of_chars s)
      end
  | VDict d =>
      match dict_get d "$numberInt" with
      | Some x => or_zero (SourceAudit.py_float x)
      | None =>
          match dict_get d "$numberDouble" with
          | Some x => or_zero (SourceAudit.py_float x)
          | None => Float64.zero
          end
      end
  | VNone => Float64.zero
  | _ => or_zero (SourceAudit.py_float bond_raw)
  end.

End EvalWindows.

(* ------------------------------------------------------------------ *)
(** ** atlas_fieldmap_diff.py *)

Module FieldmapDiff.

(** [item.split(":", 1)] for an item that contains the separator: the text
    before its first occurrence and the text after it; [None] when the
    separator does not occur *)
Fixpoint split_once (sep : ascii) (l : chars) : option (chars * chars) :=
  match l with
  | [] => None
  | c :: r =>
      if Ascii.eqb c sep then Some ([], r)
      else
        match split_once sep r with
        | Some (a, b) => Some (c :: a, b)
        | None => None
        end
  end.

(** the loop [for item in pairs_str.split(",")] of [parse_pairs_arg];
    [None] stands for the [ValueError] it raises *)
Fixpoint pairs_loop (items : list chars) (pairs : list (string * string))
  : option (list (string * string)) :=
  match items with
  | [] => Some pairs
  | item :: rest =>
      match strip item with
      | [] => pairs_loop rest pairs
      | _ =>
          match split_once ":" item with
          | None => None
          | Some (src, dst) =>
              pairs_loop rest
                (pairs ++ [(string_of_list_ascii (strip src),
                            string_of_list_ascii (strip dst))])
          end
      end
  end.

Definition parse_pairs_arg (pairs_str : string) : option (list (string * string)) :=
  pairs_loop (split_on "," (list_ascii_of_string pairs_str)) [].

End FieldmapDiff.

(* ------------------------------------------------------------------ *)
(** ** Vocabulary of the statements *)


(** the two [items] loops of [flatten], named *)
Definition dict_loop (sep parent_key : string) :=
  fix items (d : list (string * value)) : list (string * value) :=
    match d with
    | [] => []
    | (k, v) :: rest =>
        CategoricalAudit.flatten_sep sep v
          (CategoricalAudit.new_key_dict parent_key sep k) ++ items rest
    end.

Definition list_loop (sep parent_key : string) :=
  fix items (i : nat) (l : list value) : list (string * value) :=
    match l with
    | [] => []
    | v :: rest =>
        CategoricalAudit.flatten_sep sep v
          (CategoricalAudit.new_key_list parent_key i) ++ items (S i) rest
    end.

(** [0.0 <= f] *)
Definition nonneg (f : float64) : bool := Float64.leb Float64.zero f.

(** the numerics extracted from the values a candidate field resolves to, in
    order: the list [numeric_vals] of [derive_bond_amount] when no extraction
    raises *)
Definition successes (ks : list string) (vals : list value) : list float64 :=
  flat_map (fun v => match SourceAudit._extract_first_numeric ks v with
                     | Val n => [n]
                     | _ => []
                     end) vals.

Definition no_raise (ks : list string) (vals : list value) : Prop :=
  Forall (fun v => SourceAudit._extract_first_numeric ks v <> Raises) vals.

(** a text without any digit *)
Definition no_digit (l : chars) : bool := forallb (fun c => negb (is_digit c)) l.

(** [digit_free x]: the input, as it is written, contains no digit: numbers
    and dates do, [None] and booleans do not, texts are inspected character by
    character, containers element by element, keys included *)
Fixpoint digit_free (x : value) : bool :=
  match x with
  | VNone | VBool _ => true
  | VInt _ | VFloat _ | VDatetime _ => false
  | VStr s | VObjectId s => no_digit (list_ascii_of_string s)
  | VBytes b => no_digit b
  | VList l => forallb digit_free l
  | VDict d =>
      forallb (fun kv => let '(k, v) := kv in
                         no_digit (list_ascii_of_string k) && digit_free v) d
  end.


(** the statistics [st] with another tracked value set *)
Definition with_values (st : CategoricalAudit.field_stat)
           (vs : list (value * Z)) : CategoricalAudit.field_stat :=
  CategoricalAudit.mk_stat (CategoricalAudit.types st)
                           (CategoricalAudit.non_null_count st)
                           (CategoricalAudit.docs_with_field st)
                           vs
                           (CategoricalAudit.too_many_uniques st).

(** [n] documents [{"k": 0}], [{"k": 1}], ... with pairwise distinct values *)
Definition distinct_docs (n : Z) : list value :=
  map (fun i => VDict [("k", VInt (Z.of_nat i))]) (seq 0 (Z.to_nat n)).

(** [capped_at path vs fs]: in the statistics [fs] the field [path] has its
    too-many-uniques flag set and tracks the value set [vs] *)
Definition capped_at (path : string) (vs : list (value * Z))
           (fs : CategoricalAudit.stats) : Prop :=
  exists st, dict_get fs path = Some st
             /\ CategoricalAudit.too_many_uniques st = true
             /\ CategoricalAudit.values st = vs.

(** in [fs] a set flag goes with an empty tracked set *)
Definition flags_sound (fs : CategoricalAudit.stats) : Prop :=
  forall path st, dict_get fs path = Some st ->
                  CategoricalAudit.too_many_uniques st = true ->
                  CategoricalAudit.values st = [].

(** a clock that advances by one microsecond at every reading *)
Definition ticking_from (t0 : Z) : EvalWindows.clock := fun n => t0 + Z.of_nat n.

(** the tracked value set after the documents [{"k": 0}] ... [{"k": n-1}] *)
Definition distinct_values (n : nat) : list (value * Z) :=
  map (fun i => (VInt (Z.of_nat i), 1)) (seq 0 n).

(** the statistics of field ["k"] after those [n] documents, below the cap *)
Definition distinct_stat (n : nat) : CategoricalAudit.field_stat :=
  CategoricalAudit.mk_stat [("int", Z.of_nat n)] (Z.of_nat n) (Z.of_nat n)
                           (distinct_values n) false.

(** a value that is neither a list nor a dict *)
Definition is_leaf (v : value) : bool :=
  match v with
  | VList _ | VDict _ => false
  | _ => true
  end.

(** the sum of the counts of a [Counter] *)
Definition counter_total {K} (c : list (K * Z)) : Z :=
  fold_right (fun kv acc => snd kv + acc) 0 c.

(** the counts of a field after [n] documents: it was seen in at least one
    and at most [n] of them, its non-null occurrences do not exceed its
    documents, and its kind histogram sums to its documents *)
Definition counts_ok (n : Z) (st : CategoricalAudit.field_stat) : Prop :=
  0 <= CategoricalAudit.non_null_count st <= CategoricalAudit.docs_with_field st
  /\ 1 <= CategoricalAudit.docs_with_field st <= n
  /\ counter_total (CategoricalAudit.types st) = CategoricalAudit.docs_with_field st.

(** the same while a document is being folded: a field already seen in it
    may have one more document *)
Definition counts_seen (n : Z) (seen : list string) (path : string)
           (st : CategoricalAudit.field_stat) : Prop :=
  0 <= CategoricalAudit.non_null_count st <= CategoricalAudit.docs_with_field st
  /\ 1 <= CategoricalAudit.docs_with_field st
  /\ counter_total (CategoricalAudit.types st) = CategoricalAudit.docs_with_field st
  /\ CategoricalAudit.docs_with_field st
     <= n + (if existsb (String.eqb path) seen then 1 else 0).

(** every int of [x] that numeric extraction may pass to [float] outside a
    wrapper dict is within the range of binary64 *)
Fixpoint ints_convertible (x : value) : bool :=
  match x with
  | VInt n => match Float64.of_int n with Some _ => true | None => false end
  | VList l => forallb ints_convertible l
  | _ => true
  end.

(** the window a pair of [dates_and_bonds] is counted in, if any *)
Definition item_window (local_utcoffset : datetime -> Z) (now_utc : Z)
           (item : option datetime * option float64) : option SourceAudit.window :=
  match fst item with
  | None => None
  | Some d =>
      SourceAudit.window_of now_utc (SourceAudit.astimezone_utc local_utcoffset d)
  end.

Definition window_eqb (a b : SourceAudit.window) : bool :=
  match a, b with
  | SourceAudit.W24, SourceAudit.W24
  | SourceAudit.W48, SourceAudit.W48
  | SourceAudit.W72, SourceAudit.W72 => true
  | _, _ => false
  end.

(** how many pairs fall in window [w] *)
Definition counted (local_utcoffset : datetime -> Z) (now_utc : Z)
           (w : SourceAudit.window)
           (items : list (option datetime * option float64)) : nat :=
  List.length
    (filter (fun item => match item_window local_utcoffset now_utc item with
                         | Some w' => window_eqb w w'
                         | None => false
                         end) items).

(** a value that is not a dict *)
Definition not_dict (v : value) : bool :=
  match v with VDict _ => false | _ => true end.

(** a value without any list in it *)
Fixpoint list_free (v : value) : bool :=
  match v with
  | VList _ => false
  | VDict d => forallb (fun kv => let '(_, x) := kv in list_free x) d
  | _ => true
  end.

(** the loop of [flatten_keys] over the items of a dict, named *)
Definition keys_loop (prefix : string) :=
  fix loop (items : list (string * value)) (out : list (string * value))
    : list (string * value) :=
    match items with
    | [] => out
    | (k, v) :: rest =>
        let key := SourceAudit.dotted_key prefix k in
        match v with
        | VDict _ =>
            loop rest (SourceAudit.dict_update out (SourceAudit.flatten_keys v key))
        | _ => loop rest (dict_set out key v)
        end
    end.

(** a document of a simple collection whose booking date [parse_date_any]
    reads as a datetime without a time zone *)
Definition naive_date (fromisoformat : string -> option datetime)
           (py_repr : value -> string) (doc : value) : Prop :=
  exists d, EvalWindows.parse_date_any fromisoformat py_repr
              (EvalWindows.doc_get doc "booking_date" VNone) = Some d
            /\ tzinfo d = None.

(** the characters of a plain amount: digits, thousands separators, the
    decimal point *)
Definition amount_body (c : ascii) : bool := is_digit c || Ascii.eqb c ",".

(** [sep.join(items)] *)
Fixpoint join (sep : ascii) (items : list chars) : chars :=
  match items with
  | [] => []
  | [x] => x
  | x :: rest => x ++ sep :: join sep rest
  end.

(** the text [src:dst,src:dst,...] of a list of pairs *)
Definition pairs_arg (pairs : list (string * string)) : string :=
  string_of_list_ascii
    (join "," (map (fun p => list_ascii_of_string (fst p) ++ ":"%char
                             :: list_ascii_of_string (snd p)) pairs)).

(** a collection name that survives the parsing: no comma, no white space at
    either end *)
Definition clean_name (colon_free : bool) (s : string) : bool :=
  let l := list_ascii_of_string s in
  negb (existsb (Ascii.eqb ",") l)
  && (if colon_free then negb (existsb (Ascii.eqb ":") l) else true)
  && match l with [] => true | c :: _ => negb (is_space c) end
  && match rev l with [] => true | c :: _ => negb (is_space c) end.

Definition clean_pair (p : string * string) : bool :=
  clean_name true (fst p) && clean_name false (snd p).

(** the number of documents counted in an entry of the results *)
Definition total_count (bs : SourceAudit.buckets) : Z :=
  SourceAudit.count (SourceAudit.b24 bs) + SourceAudit.count (SourceAudit.b48 bs)
  + SourceAudit.count (SourceAudit.b72 bs).

(** an entry that counts at least one document and has no negative count *)
Definition entry_ok (bs : SourceAudit.buckets) : Prop :=
  0 <= SourceAudit.count (SourceAudit.b24 bs)
  /\ 0 <= SourceAudit.count (SourceAudit.b48 bs)
  /\ 0 <= SourceAudit.count (SourceAudit.b72 bs)
  /\ 1 <= total_count bs.

(** the documents of a collection of [db]; a collection that does not exist
    has none *)
Definition docs_of (db : list (string * list value)) (coll : string) : list value :=
  match dict_get db coll with Some l => l | None => [] end.

(** the number of documents counted so far for a county *)
Definition county_total (results : list (string * SourceAudit.buckets))
           (county : string) : Z :=
  match dict_get results county with
  | Some bs => total_count bs
  | None => 0
  end.

(* ------------------------------------------------------------------ *)
(** * Properties *)

(** ** Dictionaries *)

Section PyDictFacts.
Context {V : Type}.
Implicit Types (d : list (string * V)) (k : string) (v : V).

Lemma dict_get_set_same d k v : dict_get (dict_set d k v) k = Some v.
Proof.
  induction d as [|[k' v'] d IH]; simpl.
  - now rewrite String.eqb_refl.
  - destruct (String.eqb k' k) eqn:E; simpl; rewrite E; auto.
Qed.

Lemma dict_get_set_other d k k' v :
  k <> k' -> dict_get (dict_set d k v) k' = dict_get d k'.
Proof.
  intros Hne. induction d as [|[k0 v0] d IH]; simpl.
  - apply String.eqb_neq in Hne. now rewrite Hne.
  - destruct (String.eqb k0 k) eqn:E; simpl.
    + apply String.eqb_eq in E. subst k0.
      apply String.eqb_neq in Hne. now rewrite Hne.
    + now rewrite IH.
Qed.







End PyDictFacts.

(* ------------------------------------------------------------------ *)
(** ** flatten *)

Section FlattenFacts.
Import CategoricalAudit.
Variable sep : string.

Lemma flatten_dict d p :
  flatten_sep sep (VDict d) p = dict_of_items (dict_loop sep p d).
Proof. reflexivity. Qed.

Lemma flatten_list l p :
  flatten_sep sep (VList l) p
  = dict_of_items (list_loop sep p 0%nat l ++ [((p ++ "[]")%string, VBool true)]).
Proof. reflexivity. Qed.





End FlattenFacts.




(* ------------------------------------------------------------------ *)
(** ** Order of binary64 values *)

Section FloatOrder.
Import Float64.





End FloatOrder.

(* ------------------------------------------------------------------ *)
(** ** Window classification *)

Section WindowFacts.
Import PyDatetime EvalWindows.



End WindowFacts.



(* ------------------------------------------------------------------ *)
(** ** Sign of binary64 sums *)

Section FloatSign.
Import Float64.

Lemma shr_1_nonneg mrs : 0 <= shr_m mrs -> 0 <= shr_m (shr_1 mrs).
Proof.
  destruct mrs as [m r s0]. simpl.
  destruct m as [|[p|p|]|[p|p|]]; simpl; lia.
Qed.

Lemma iter_shr_1_nonneg p : forall mrs,
  0 <= shr_m mrs -> 0 <= shr_m (iter_pos shr_1 p mrs).
Proof.
  induction p as [p IH|p IH|]; intros mrs H; simpl.
  - apply IH, IH. now apply shr_1_nonneg.
  - now apply IH, IH.
  - now apply shr_1_nonneg.
Qed.

Lemma shr_fexp_nonneg m e l :
  0 <= m -> 0 <= shr_m (fst (shr_fexp prec64 emax64 m e l)).
Proof.
  intros H. unfold shr_fexp, shr.
  assert (H0 : 0 <= shr_m (shr_record_of_loc m l)).
  { destruct l as [|[]]; simpl; assumption. }
  destruct (fexp prec64 emax64 (Zdigits2 m + e) - e) as [|p|p]; simpl; auto.
  now apply iter_shr_1_nonneg.
Qed.

Lemma round_nearest_even_nonneg m l : 0 <= m -> 0 <= round_nearest_even m l.
Proof.
  intros H. unfold round_nearest_even.
  destruct l as [|[]]; try assumption; try destruct (Z.even m); lia.
Qed.

Lemma binary_round_aux_nonneg m e l :
  0 <= m -> nonneg (binary_round_aux prec64 emax64 false m e l) = true.
Proof.
  intros H. unfold binary_round_aux.
  pose proof (shr_fexp_nonneg m e l H) as H1.
  destruct (shr_fexp prec64 emax64 m e l) as [mrs' e'] eqn:E1. simpl in H1.
  pose proof (round_nearest_even_nonneg (shr_m mrs') (loc_of_shr_record mrs') H1) as H2.
  pose proof (shr_fexp_nonneg _ e' loc_Exact H2) as H3.
  destruct (shr_fexp prec64 emax64 _ e' loc_Exact) as [mrs'' e''] eqn:E2.
  simpl in H3.
  destruct (shr_m mrs'') as [|p|p]; try reflexivity; [|lia].
  destruct (e'' <=? emax64 - prec64); reflexivity.
Qed.

Lemma add_nonneg x y :
  nonneg x = true -> nonneg y = true -> nonneg (Float64.add x y) = true.
Proof.
  unfold Float64.add.
  destruct x as [sx|sx| |sx mx ex], y as [sy|sy| |sy my ey];
    try discriminate; try (destruct sx; discriminate);
    try (destruct sy; discriminate);
    try (destruct sx, sy; (discriminate || reflexivity));
    intros Hx Hy; try assumption.
  destruct sx; [discriminate|]. destruct sy; [discriminate|].
  unfold SFadd, cond_Zopp, binary_normalize. cbv zeta.
  rewrite <- Pos2Z.inj_add. unfold binary_round.
  destruct (shl_align _ _ _) as [mz ez].
  apply binary_round_aux_nonneg. lia.
Qed.

Lemma sum_from_nonneg xs : forall acc,
  nonneg acc = true -> Forall (fun x => nonneg x = true) xs ->
  nonneg (fold_left Float64.add xs acc) = true.
Proof.
  induction xs as [|x xs IH]; intros acc Hacc Hxs; simpl; auto.
  inversion Hxs; subst. apply IH; auto. now apply add_nonneg.
Qed.

Lemma sum_nonneg xs :
  Forall (fun x => nonneg x = true) xs -> nonneg (Float64.sum xs) = true.
Proof. intros. now apply sum_from_nonneg. Qed.
End FloatSign.

(* ------------------------------------------------------------------ *)
(** ** Money derivation *)

Section BondFacts.
Import SourceAudit.
Variable ks : list string.

Lemma walk_list l key rest :
  _walk (VList l) (key :: rest) = flat_map (fun item => _walk item (key :: rest)) l.
Proof.
  simpl. induction l as [|x l IH]; simpl; [reflexivity|]. now rewrite IH.
Qed.

Lemma walk_dict d key rest :
  _walk (VDict d) (key :: rest)
  = match dict_get d key with Some v => _walk v rest | None => [] end.
Proof.
  simpl. induction d as [|[k v] d IH]; simpl; [reflexivity|].
  destruct (String.eqb k key); auto.
Qed.

Lemma numeric_vals_successes vals :
  no_raise ks vals -> numeric_vals ks vals = Some (successes ks vals).
Proof.
  unfold no_raise, successes.
  induction 1 as [|v vals Hv _ IH]; simpl; [reflexivity|].
  destruct (_extract_first_numeric ks v) eqn:E; simpl.
  - now rewrite IH.
  - exact IH.
  - contradiction.
Qed.

Lemma numeric_vals_In vals : forall ns n,
  numeric_vals ks vals = Some ns -> In n ns ->
  exists v, In v vals /\ _extract_first_numeric ks v = Val n.
Proof.
  induction vals as [|v vals IH]; simpl; intros ns n Hns Hin.
  - inversion Hns; subst. destruct Hin.
  - destruct (_extract_first_numeric ks v) as [x| |] eqn:E; try discriminate.
    + destruct (numeric_vals ks vals) as [ns'|]; try discriminate.
      inversion Hns; subst. destruct Hin as [->|Hin].
      * exists v. auto.
      * destruct (IH ns' n eq_refl Hin) as (w & Hw & Ew). exists w. auto.
    + destruct (IH ns n Hns Hin) as (w & Hw & Ew). exists w. auto.
Qed.

Lemma bond_over_fields_skip doc pre rest :
  (forall k, In k pre -> numeric_vals ks (_get_dotted doc k) = Some []) ->
  bond_over_fields ks doc (pre ++ rest) = bond_over_fields ks doc rest.
Proof.
  induction pre as [|k pre IH]; simpl; intros H; [reflexivity|].
  rewrite (H k) by now left. apply IH. intros k' Hk'. apply H. now right.
Qed.
End BondFacts.

(** C2: money derivation walks the candidate fields in their declared order.
    The dotted walk fans out through lists and descends through keys; the
    first field whose resolved values yield at least one numeric gives the
    sum of all numerics extracted for that field, whatever the later fields
    hold; when no field yields a numeric the result is null. *)
Theorem derive_bond_amount_first_yielding_field :
  forall ks coll doc,
    (forall l key rest,
        SourceAudit._walk (VList l) (key :: rest)
        = flat_map (fun item => SourceAudit._walk item (key :: rest)) l)
    /\ (forall d key rest,
           SourceAudit._walk (VDict d) (key :: rest)
           = match dict_get d key with
             | Some v => SourceAudit._walk v rest
             | None => []
             end)
    /\ (forall pre k post,
           SourceAudit.fields_of SourceAudit.BOND_FIELDS_BY_COLLECTION coll
           = pre ++ k :: post ->
           (forall k', In k' (pre ++ [k]) ->
                       no_raise ks (SourceAudit._get_dotted doc k')) ->
           (forall k', In k' pre ->
                       successes ks (SourceAudit._get_dotted doc k') = []) ->
           successes ks (SourceAudit._get_dotted doc k) <> [] ->
           SourceAudit.derive_bond_amount ks coll doc
           = Val (Float64.sum (successes ks (SourceAudit._get_dotted doc k))))
    /\ ((forall k,
            In k (SourceAudit.fields_of SourceAudit.BOND_FIELDS_BY_COLLECTION coll) ->
            no_raise ks (SourceAudit._get_dotted doc k)
            /\ successes ks (SourceAudit._get_dotted doc k) = []) ->
        SourceAudit.derive_bond_amount ks coll doc = Null).
Proof.
  intros ks coll doc. split; [|split; [|split]].
  - apply walk_list.
  - apply walk_dict.
  - intros pre k post Hf Hraise Hpre Hk.
    unfold SourceAudit.derive_bond_amount. rewrite Hf.
    rewrite bond_over_fields_skip.
    + simpl. rewrite numeric_vals_successes
        by (apply Hraise, in_or_app; right; now left).
      destruct (successes ks (SourceAudit._get_dotted doc k)); congruence.
    + intros k' Hk'. rewrite numeric_vals_successes
        by (apply Hraise, in_or_app; now left).
      now rewrite Hpre.
  - intros H. unfold SourceAudit.derive_bond_amount.
    rewrite <- (app_nil_r (SourceAudit.fields_of _ coll)).
    rewrite bond_over_fields_skip; [reflexivity|].
    intros k Hk. destruct (H k Hk) as [Hr Hs].
    now rewrite numeric_vals_successes, Hs.
Qed.

Lemma derive_bond_amount_first_yielding_field_witness :
  SourceAudit.derive_bond_amount SourceAudit.NUMBER_KEYS "galveston_events"
    (VDict [("total_bond", VStr "n/a");
            ("bonds", VList [VDict [("amount", VStr "$1,000")];
                             VDict [("amount", VInt 250)];
                             VDict [("amount", VNone)]])])
  = Val (Float64.of_Z 1250).
Proof.
  set (doc := VDict [("total_bond", VStr "n/a");
                     ("bonds", VList [VDict [("amount", VStr "$1,000")];
                                      VDict [("amount", VInt 250)];
                                      VDict [("amount", VNone)]])]).
  assert (E1 : SourceAudit._get_dotted doc "total_bond" = [VStr "n/a"])
    by (vm_compute; reflexivity).
  assert (E2 : SourceAudit._get_dotted doc "bonds.amount"
               = [VStr "$1,000"; VInt 250])
    by (vm_compute; reflexivity).
  destruct (derive_bond_amount_first_yielding_field
              SourceAudit.NUMBER_KEYS "galveston_events" doc)
    as (_ & _ & H & _).
  rewrite (H ["total_bond"] "bonds.amount" []).
  - rewrite E2. vm_compute. reflexivity.
  - reflexivity.
  - unfold no_raise.
    intros k' [<-|[<-|[]]]; [rewrite E1|rewrite E2];
      repeat (apply Forall_cons || apply Forall_nil);
      vm_compute; discriminate.
  - intros k' [<-|[]]. rewrite E1. vm_compute. reflexivity.
  - rewrite E2. vm_compute. discriminate.
Defined.

(** C8, as stated, fails: a negative number in the source field is carried
    into the derived amount, e.g. [{"bond_amount": -5}] in harris_bond gives
    [-5.0]. *)
Lemma derive_bond_amount_negative :
  ~ (forall ks coll doc f,
        SourceAudit.derive_bond_amount ks coll doc = Val f -> nonneg f = true).
Proof.
  intros H.
  specialize (H SourceAudit.NUMBER_KEYS "harris_bond"
                (VDict [("bond_amount", VInt (-5))])
                (SFopp (Float64.of_Z 5)) eq_refl).
  vm_compute in H. discriminate.
Qed.

(** C8 (amended): the derived money amount is null or a float, and that float
    is non-negative whenever every numeric extracted from the values of the
    candidate fields is non-negative. *)
Theorem derive_bond_amount_sign :
  forall ks coll doc f,
    (forall k v n,
        In k (SourceAudit.fields_of SourceAudit.BOND_FIELDS_BY_COLLECTION coll) ->
        In v (SourceAudit._get_dotted doc k) ->
        SourceAudit._extract_first_numeric ks v = Val n ->
        nonneg n = true) ->
    SourceAudit.derive_bond_amount ks coll doc = Val f ->
    nonneg f = true.
Proof.
  intros ks coll doc f. unfold SourceAudit.derive_bond_amount.
  induction (SourceAudit.fields_of SourceAudit.BOND_FIELDS_BY_COLLECTION coll)
    as [|k fields IH]; simpl; intros Hall Hval; [discriminate|].
  destruct (SourceAudit.numeric_vals ks (SourceAudit._get_dotted doc k))
    as [[|n ns]|] eqn:E; try discriminate.
  - apply IH; auto. intros k' v n' Hk'. apply Hall. now right.
  - inversion Hval; subst. apply sum_nonneg.
    apply Forall_forall. intros x Hx.
    destruct (numeric_vals_In ks _ _ x E Hx) as (v & Hv & Ev).
    apply (Hall k v x); auto.
Qed.

Lemma derive_bond_amount_sign_witness :
  nonneg (Float64.of_Z 1250) = true.
Proof.
  set (doc := VDict [("total_bond", VStr "n/a");
                     ("bonds", VList [VDict [("amount", VStr "$1,000")];
                                      VDict [("amount", VInt 250)];
                                      VDict [("amount", VNone)]])]).
  assert (E1 : SourceAudit._get_dotted doc "total_bond" = [VStr "n/a"])
    by (vm_compute; reflexivity).
  assert (E2 : SourceAudit._get_dotted doc "bonds.amount"
               = [VStr "$1,000"; VInt 250])
    by (vm_compute; reflexivity).
  apply (derive_bond_amount_sign SourceAudit.NUMBER_KEYS "galveston_events" doc).
  - intros k v n [<-|[<-|[]]]; [rewrite E1|rewrite E2].
    + intros [<-|[]] E. vm_compute in E. discriminate.
    + intros [<-|[<-|[]]] E; vm_compute in E; inversion E; reflexivity.
  - vm_compute. reflexivity.
Defined.

(* ------------------------------------------------------------------ *)
(** ** Timestamp derivation *)

Section DatetimeFacts.
Import SourceAudit.
Variable fromisoformat : string -> option datetime.
Variable py_repr : value -> string.



(** what [_to_datetime] returns is timezone-aware *)
Lemma ensure_aware_aware d : tzinfo (PyDatetime.ensure_aware d) <> None.
Proof.
  unfold PyDatetime.ensure_aware.
  destruct (tzinfo d) eqn:E; [now rewrite E|]. discriminate.
Qed.

Lemma of_epoch_us_aware us d :
  PyDatetime.of_epoch_us us = Some d -> tzinfo d <> None.
Proof.
  unfold PyDatetime.of_epoch_us, PyDatetime.make.
  destruct (PyDatetime.civil_from_days _) as [[y m] dd].
  destruct (PyDatetime.valid_civil _ _ _ _ _ _ _); [|discriminate].
  intros E. inversion E. discriminate.
Qed.

Lemma fromtimestamp_int_aware n d :
  PyDatetime.fromtimestamp_int n = Some d -> tzinfo d <> None.
Proof. unfold PyDatetime.fromtimestamp_int. apply of_epoch_us_aware. Qed.

Lemma fromtimestamp_float_aware f d :
  PyDatetime.fromtimestamp_float f = Some d -> tzinfo d <> None.
Proof.
  unfold PyDatetime.fromtimestamp_float.
  destruct (PyDatetime.timeval_of_float f); [apply of_epoch_us_aware|discriminate].
Qed.

Lemma try_formats_aware s fmts d :
  try_formats s fmts = Some d -> tzinfo d <> None.
Proof.
  induction fmts as [|fmt fmts IH]; [discriminate|].
  change (try_formats s (fmt :: fmts))
    with (match PyDatetime.strptime s fmt with
          | Some d0 => Some (PyDatetime.replace_tzinfo d0 PyDatetime.utc)
          | None => try_formats s fmts
          end).
  destruct (PyDatetime.strptime s fmt); auto.
  intros E. inversion E. discriminate.
Qed.

Lemma datetime_of_text_aware raw d :
  datetime_of_text fromisoformat raw = Val d -> tzinfo d <> None.
Proof.
  unfold datetime_of_text.
  destruct (strip (list_ascii_of_string raw)) as [|c s]; [discriminate|].
  destruct (is_sentinel (c :: s)); [discriminate|].
  destruct (try_formats (c :: s) common_formats) eqn:Et.
  - intros E. inversion E; subst. eapply try_formats_aware; eauto.
  - destruct (fromisoformat _); [|discriminate].
    intros E. inversion E. apply ensure_aware_aware.
Qed.

Lemma of_option_Val {A} (o : option A) (a : A) : of_option o = Val a -> o = Some a.
Proof. destruct o; simpl; congruence. Qed.

Lemma to_datetime_bool b :
  _to_datetime fromisoformat py_repr (VBool b)
  = of_option (PyDatetime.fromtimestamp_int (if b then 1 else 0)).
Proof. reflexivity. Qed.

Lemma to_datetime_int n :
  _to_datetime fromisoformat py_repr (VInt n)
  = if 1000000000000 <? n then
      match Float64.of_int n with
      | Some f =>
          of_option (PyDatetime.fromtimestamp_float
                       (Float64.div f (Float64.of_Z 1000)))
      | None => Raises
      end
    else of_option (PyDatetime.fromtimestamp_int n).
Proof. reflexivity. Qed.

Lemma to_datetime_float f :
  _to_datetime fromisoformat py_repr (VFloat f)
  = if Float64.ltb (Float64.of_Z 1000000000000) f
    then of_option (PyDatetime.fromtimestamp_float
                      (Float64.div f (Float64.of_Z 1000)))
    else of_option (PyDatetime.fromtimestamp_float f).
Proof. reflexivity. Qed.

Lemma to_datetime_aware x d :
  _to_datetime fromisoformat py_repr x = Val d -> tzinfo d <> None.
Proof.
  destruct x as [|b|n|f|s|d0|h|bs|l|dd].
  - discriminate.
  - rewrite to_datetime_bool. intros E. apply of_option_Val in E.
    revert E. apply fromtimestamp_int_aware.
  - rewrite to_datetime_int. destruct (1000000000000 <? n).
    + destruct (Float64.of_int n); [|discriminate].
      intros E. apply of_option_Val in E. eapply fromtimestamp_float_aware; exact E.
    + intros E. apply of_option_Val in E.
      revert E. apply fromtimestamp_int_aware.
  - rewrite to_datetime_float.
    destruct (Float64.ltb _ f); intros E; apply of_option_Val in E;
      eapply fromtimestamp_float_aware; exact E.
  - apply datetime_of_text_aware.
  - intros E. inversion E. apply ensure_aware_aware.
  - apply datetime_of_text_aware.
  - apply datetime_of_text_aware.
  - apply datetime_of_text_aware.
  - apply datetime_of_text_aware.
Qed.
End DatetimeFacts.




(* ------------------------------------------------------------------ *)
(** ** Numeric extraction *)

Section NumericFacts.
Import SourceAudit.





Lemma extract_list_cons ks x l :
  _extract_first_numeric ks (VList (x :: l))
  = match _extract_first_numeric ks x with
    | Val v => Val v
    | Null => _extract_first_numeric ks (VList l)
    | Raises => Raises
    end.
Proof. reflexivity. Qed.

Lemma extract_dict ks d :
  _extract_first_numeric ks (VDict d) = of_option (number_wrapper ks d).
Proof. reflexivity. Qed.

Lemma extract_str ks s :
  _extract_first_numeric ks (VStr s)
  = match re_search_number (list_ascii_of_string s) with
    | Some m => of_option (float_of_chars (remove_commas m))
    | None => Null
    end.
Proof. reflexivity. Qed.

End NumericFacts.


Lemma true_extracts_as_one :
  digit_free (VBool true) = true
  /\ SourceAudit._extract_first_numeric SourceAudit.NUMBER_KEYS (VBool true)
     = Val (Float64.of_Z 1).
Proof. split; vm_compute; reflexivity. Qed.



(* ------------------------------------------------------------------ *)
(** ** Field statistics and classification *)

Section StatsFacts.
Import CategoricalAudit.

Lemma track_value_capped st val :
  too_many_uniques st = true -> track_value st val = st.
Proof. unfold track_value. now intros ->. Qed.

Lemma observe_capped st first val :
  too_many_uniques st = true ->
  too_many_uniques (observe st first val) = true
  /\ values (observe st first val) = values st.
Proof.
  intros H. unfold observe. rewrite track_value_capped by exact H. now split.
Qed.

Lemma track_value_crossing st val :
  too_many_uniques st = false ->
  is_complex val = false ->
  UNIQUE_CAP < Z.of_nat (List.length (counter_incr key_eqb (values st) (norm_val val))) ->
  too_many_uniques (track_value st val) = true /\ values (track_value st val) = [].
Proof.
  intros Hf Hc Hlen. unfold track_value. rewrite Hf, Hc.
  apply Z.ltb_lt in Hlen. rewrite Hlen. now split.
Qed.

(** the flag is only ever set together with an empty value set *)
Lemma track_value_flag_empty st val :
  (too_many_uniques st = true -> values st = []) ->
  too_many_uniques (track_value st val) = true -> values (track_value st val) = [].
Proof.
  intros Hinv. unfold track_value.
  destruct (too_many_uniques st) eqn:Hf; [auto|].
  destruct (is_complex val); [intros H'; congruence|].
  destruct (UNIQUE_CAP <? _); simpl; [reflexivity|]. intros H'; congruence.
Qed.

Lemma observe_flag_empty st first val :
  (too_many_uniques st = true -> values st = []) ->
  too_many_uniques (observe st first val) = true -> values (observe st first val) = [].
Proof. intros Hinv. unfold observe. now apply track_value_flag_empty. Qed.

Lemma fold_items_capped path vs items : forall seen fs,
  capped_at path vs fs -> capped_at path vs (fold_items items seen fs).
Proof.
  induction items as [|[p val] items IH]; intros seen fs H; simpl; [exact H|].
  destruct (String.eqb p "") eqn:Ep; [now apply IH|].
  apply IH. destruct H as (st & Hget & Hflag & Hvals).
  destruct (String.eqb p path) eqn:E.
  - apply String.eqb_eq in E. subst p.
    unfold stat_of. rewrite Hget.
    destruct (observe_capped st (negb (existsb (String.eqb path) seen)) val Hflag)
      as [Hf Hv].
    eexists. rewrite dict_get_set_same. split; [reflexivity|]. split; congruence.
  - apply String.eqb_neq in E. exists st.
    rewrite dict_get_set_other by exact E. auto.
Qed.

Lemma fold_items_sound items : forall seen fs,
  flags_sound fs -> flags_sound (fold_items items seen fs).
Proof.
  induction items as [|[p val] items IH]; intros seen fs H; simpl; [exact H|].
  destruct (String.eqb p "") eqn:Ep; [now apply IH|].
  apply IH. intros path st.
  destruct (String.eqb p path) eqn:E.
  - apply String.eqb_eq in E. subst p. rewrite dict_get_set_same.
    intros Hst. inversion Hst; subst. apply observe_flag_empty.
    unfold stat_of. destruct (dict_get fs path) eqn:Hget.
    + apply (H path f Hget).
    + reflexivity.
  - apply String.eqb_neq in E. rewrite dict_get_set_other by exact E. apply H.
Qed.

Lemma gather_capped path vs docs : forall fs,
  capped_at path vs fs -> capped_at path vs (gather docs fs).
Proof.
  unfold gather. induction docs as [|doc docs IH]; intros fs H; simpl; [exact H|].
  apply IH. now apply fold_items_capped.
Qed.

Lemma gather_sound docs : forall fs, flags_sound fs -> flags_sound (gather docs fs).
Proof.
  unfold gather. induction docs as [|doc docs IH]; intros fs H; simpl; [exact H|].
  apply IH. now apply fold_items_sound.
Qed.

Lemma gather_app docs1 docs2 fs :
  gather (docs1 ++ docs2) fs = gather docs2 (gather docs1 fs).
Proof. unfold gather. apply fold_left_app. Qed.

Lemma dict_get_In {V} (d : list (string * V)) k v :
  dict_get d k = Some v -> In (k, v) d.
Proof.
  induction d as [|[k' v'] d IH]; simpl; [discriminate|].
  destruct (String.eqb k' k) eqn:E.
  - apply String.eqb_eq in E. intros H. inversion H. subst. now left.
  - intros H. right. now apply IH.
Qed.

Lemma decide_capped th path st :
  too_many_uniques st = true ->
  unique_values (decide th path st) = None
  /\ unique_ratio (decide th path st) = None
  /\ categorical (decide th path st)
     = (min_count th <=? counter_get String.eqb (types st) "bool")
       && negb (identifier_name path)
  /\ forall vs, decide th path (with_values st vs) = decide th path st.
Proof.
  intros H. unfold decide, with_values. simpl. rewrite H.
  destruct (min_count th <=? counter_get String.eqb (types st) "bool");
    destruct (treat_small_int_as_categorical th);
    destruct (identifier_name path); simpl; auto.
Qed.
End StatsFacts.

(** C9: when tracking a value brings the number of distinct normalized values
    of a field above 5000, the tracked set is cleared and the flag is set; the
    flag, once set during a run, is still set and the set still empty after
    any further documents; and the verdict of such a field has a null unique
    count and a null unique ratio, is decided by the boolean rule and the
    identifier override alone, and does not depend on the tracked values. *)
Theorem too_many_uniques_is_permanent :
  forall th,
    (forall st first val,
        CategoricalAudit.too_many_uniques st = false ->
        CategoricalAudit.is_complex val = false ->
        CategoricalAudit.UNIQUE_CAP
        < Z.of_nat (List.length
                      (CategoricalAudit.counter_incr CategoricalAudit.key_eqb
                         (CategoricalAudit.values st)
                         (CategoricalAudit.norm_val val))) ->
        CategoricalAudit.too_many_uniques (CategoricalAudit.observe st first val) = true
        /\ CategoricalAudit.values (CategoricalAudit.observe st first val) = [])
    /\ (forall docs1 docs2 path st,
           dict_get (CategoricalAudit.gather docs1 []) path = Some st ->
           CategoricalAudit.too_many_uniques st = true ->
           exists st',
             dict_get (CategoricalAudit.gather (docs1 ++ docs2) []) path = Some st'
             /\ CategoricalAudit.too_many_uniques st' = true
             /\ CategoricalAudit.values st' = [])
    /\ (forall docs path st,
           dict_get (CategoricalAudit.gather docs []) path = Some st ->
           CategoricalAudit.too_many_uniques st = true ->
           let r := CategoricalAudit.decide th path st in
           In r (CategoricalAudit.analyze_collection docs th)
           /\ CategoricalAudit.unique_values r = None
           /\ CategoricalAudit.unique_ratio r = None
           /\ CategoricalAudit.categorical r
              = (CategoricalAudit.min_count th
                 <=? CategoricalAudit.counter_get String.eqb
                       (CategoricalAudit.types st) "bool")
                && negb (CategoricalAudit.identifier_name path)
           /\ forall vs, CategoricalAudit.decide th path (with_values st vs) = r).
Proof.
  intros th. split; [|split].
  - intros st first val Hf Hc Hlen. unfold CategoricalAudit.observe.
    apply track_value_crossing; assumption.
  - intros docs1 docs2 path st Hget Hflag.
    assert (Hsound : flags_sound (CategoricalAudit.gather docs1 []))
      by (apply gather_sound; intros p s0; discriminate).
    rewrite gather_app.
    apply (gather_capped path [] docs2).
    exists st. repeat split; auto. exact (Hsound path st Hget Hflag).
  - intros docs path st Hget Hflag r. subst r.
    split; [|now apply decide_capped].
    unfold CategoricalAudit.analyze_collection.
    apply in_map_iff. exists (path, st). split; [reflexivity|].
    now apply dict_get_In.
Qed.


Section DistinctRun.
Import CategoricalAudit.

Lemma distinct_docs_succ n :
  0 <= n ->
  distinct_docs (n + 1) = distinct_docs n ++ [VDict [("k", VInt n)]].
Proof.
  intros Hn. unfold distinct_docs.
  replace (Z.to_nat (n + 1)) with (S (Z.to_nat n)) by lia.
  rewrite seq_S, map_app. simpl. now rewrite Z2Nat.id by exact Hn.
Qed.

Lemma distinct_values_fresh n : forall z,
  Z.of_nat n <= z ->
  PyDict.get key_eqb (distinct_values n) (VInt z) = None.
Proof.
  unfold distinct_values. intros z Hz.
  assert (H : forall start len, (start + len <= n)%nat ->
            PyDict.get key_eqb
              (map (fun i => (VInt (Z.of_nat i), 1)) (seq start len)) (VInt z) = None).
  { intros start len. revert start.
    induction len as [|len IH]; intros start Hle; simpl; [reflexivity|].
    replace (Z.of_nat start =? z) with false by (symmetry; apply Z.eqb_neq; lia).
    apply IH. lia. }
  apply (H 0%nat n). lia.
Qed.

Lemma dict_set_fresh {K V} (eqb : K -> K -> bool) (d : list (K * V)) k v :
  PyDict.get eqb d k = None -> PyDict.set eqb d k v = d ++ [(k, v)].
Proof.
  induction d as [|[k' v'] d IH]; simpl; [reflexivity|].
  destruct (eqb k' k); [discriminate|]. intros H. now rewrite IH.
Qed.

Lemma distinct_values_incr n :
  counter_incr key_eqb (distinct_values n) (VInt (Z.of_nat n))
  = distinct_values (S n).
Proof.
  unfold counter_incr.
  rewrite (distinct_values_fresh n (Z.of_nat n)) by lia.
  rewrite dict_set_fresh by (apply distinct_values_fresh; lia).
  unfold distinct_values. now rewrite seq_S, map_app.
Qed.

Lemma distinct_values_length n : List.length (distinct_values n) = n.
Proof. unfold distinct_values. now rewrite length_map, length_seq. Qed.

Lemma observe_distinct n :
  observe (distinct_stat n) true (VInt (Z.of_nat n))
  = if UNIQUE_CAP <? Z.of_nat (S n)
    then mk_stat [("int", Z.of_nat (S n))] (Z.of_nat (S n)) (Z.of_nat (S n)) [] true
    else distinct_stat (S n).
Proof.
  unfold observe, track_value, distinct_stat.
  cbn [too_many_uniques values is_complex norm_val types non_null_count
       docs_with_field type_name].
  rewrite distinct_values_incr, distinct_values_length.
  replace (counter_incr String.eqb [("int", Z.of_nat n)] "int")
    with [("int", Z.of_nat (S n))]
    by (unfold counter_incr; simpl; f_equal; f_equal; lia).
  replace (Z.of_nat n + 1) with (Z.of_nat (S n)) by lia.
  reflexivity.
Qed.

Lemma gather_one fs z :
  gather [VDict [("k", VInt z)]] fs
  = dict_set fs "k" (observe (stat_of fs "k") true (VInt z)).
Proof. reflexivity. Qed.

(** below the cap, [n] documents with distinct values leave [n] tracked
    values and the flag unset *)
Lemma gather_distinct_step m :
  Z.of_nat (S m) <= UNIQUE_CAP ->
  gather (distinct_docs (Z.of_nat m)) [] = [("k", distinct_stat m)] ->
  gather (distinct_docs (Z.of_nat (S m))) [] = [("k", distinct_stat (S m))].
Proof.
  intros Hcap IH.
  rewrite Nat2Z.inj_succ. unfold Z.succ.
  rewrite distinct_docs_succ, gather_app, gather_one, IH by lia.
  unfold stat_of.
  change (dict_get [("k", distinct_stat m)] "k") with (Some (distinct_stat m)).
  cbv beta iota.
  rewrite observe_distinct.
  replace (UNIQUE_CAP <? Z.of_nat (S m)) with false
    by (symmetry; apply Z.ltb_ge; lia).
  reflexivity.
Qed.

Lemma gather_distinct n :
  Z.of_nat (S n) <= UNIQUE_CAP ->
  gather (distinct_docs (Z.of_nat (S n))) [] = [("k", distinct_stat (S n))].
Proof.
  induction n as [|n IH]; intros Hcap.
  - reflexivity.
  - apply gather_distinct_step; [exact Hcap|]. apply IH. lia.
Qed.

(** the document after the 5000th distinct value sets the flag *)
Lemma gather_distinct_cap :
  gather (distinct_docs 5001) []
  = [("k", mk_stat [("int", 5001)] 5001 5001 [] true)].
Proof.
  change 5001 with (5000 + 1) at 1.
  rewrite distinct_docs_succ, gather_app, gather_one by lia.
  remember (Z.to_nat 4999) as m eqn:Hm.
  assert (Hz : Z.of_nat m = 4999) by lia.
  replace 5000 with (Z.of_nat (S m)) by lia.
  rewrite gather_distinct by (unfold UNIQUE_CAP; lia).
  unfold stat_of.
  change (dict_get [("k", distinct_stat (S m))] "k")
    with (Some (distinct_stat (S m))).
  cbv beta iota.
  rewrite observe_distinct.
  replace (UNIQUE_CAP <? Z.of_nat (S (S m))) with true
    by (symmetry; apply Z.ltb_lt; unfold UNIQUE_CAP; lia).
  replace (Z.of_nat (S (S m))) with 5001 by lia.
  reflexivity.
Qed.
End DistinctRun.

Lemma too_many_uniques_is_permanent_witness :
  (exists st',
      dict_get (CategoricalAudit.gather
                  (distinct_docs 5001 ++ [VDict [("k", VInt 7)]]) []) "k" = Some st'
      /\ CategoricalAudit.too_many_uniques st' = true
      /\ CategoricalAudit.values st' = [])
  /\ CategoricalAudit.unique_values
       (CategoricalAudit.decide CategoricalAudit.default_thresholds "k"
          (CategoricalAudit.mk_stat [("int", 5001)] 5001 5001 [] true)) = None
  /\ CategoricalAudit.too_many_uniques
       (CategoricalAudit.observe (distinct_stat (Z.to_nat 5000)) true (VInt 5000))
     = true.
Proof.
  destruct (too_many_uniques_is_permanent CategoricalAudit.default_thresholds)
    as (Hcross & Hkeep & Hrow).
  assert (Hget : dict_get (CategoricalAudit.gather (distinct_docs 5001) []) "k"
                 = Some (CategoricalAudit.mk_stat [("int", 5001)] 5001 5001 [] true))
    by (rewrite gather_distinct_cap; reflexivity).
  split; [|split].
  - apply (Hkeep (distinct_docs 5001) [VDict [("k", VInt 7)]] "k" _ Hget).
    reflexivity.
  - apply (Hrow (distinct_docs 5001) "k" _ Hget). reflexivity.
  - apply Hcross.
    + reflexivity.
    + reflexivity.
    + replace (VInt 5000) with (VInt (Z.of_nat (Z.to_nat 5000)))
        by (f_equal; lia).
      change (CategoricalAudit.norm_val (VInt (Z.of_nat (Z.to_nat 5000))))
        with (VInt (Z.of_nat (Z.to_nat 5000))).
      change (CategoricalAudit.values (distinct_stat (Z.to_nat 5000)))
        with (distinct_values (Z.to_nat 5000)).
      rewrite distinct_values_incr, distinct_values_length.
      unfold CategoricalAudit.UNIQUE_CAP. lia.
Defined.

(** C7 fails on the code: with the default thresholds ([min_count] 25) a field
    seen once, with one distinct value, is decided categorical by the absolute
    unique-count rule, which does not look at [min_count]. *)
Theorem low_count_field_is_categorical :
  CategoricalAudit.min_count CategoricalAudit.default_thresholds = 25
  /\ CategoricalAudit.analyze_collection
       [VDict [("status", VStr "open")]] CategoricalAudit.default_thresholds
     = [CategoricalAudit.mk_row "status" 1 1 [("str", 1)] (Some 1)
          (Some (Float64.of_Z 1)) true
          [CategoricalAudit.unique_values_le_max_unique 1 25]].
Proof. split; vm_compute; reflexivity. Qed.

(** C4 fails on eval_windows.py: [hours_ago] reads the clock at every call, so
    two documents of one pass with the same booking date, 24 hours old when
    the first is classified, land in different buckets as soon as the clock
    has advanced by a microsecond in between. *)
Theorem eval_simple_reads_clock_per_document :
  forall fromisoformat py_repr,
    let doc := VDict [("booking_date", VStr "2024-01-05")] in
    EvalWindows.parse_date_any fromisoformat py_repr (VStr "2024-01-05")
    = Some (mk_datetime 2024 1 5 0 0 0 0 PyDatetime.utc)
    /\ EvalWindows.eval_simple fromisoformat py_repr
         (ticking_from (1704412800000000 + 24 * PyDatetime.us_per_hour))
         [("simple_harris", [doc; doc])]
       = Some [("harris",
                SourceAudit.mk_buckets
                  (SourceAudit.mk_bucket 1 Float64.zero)
                  (SourceAudit.mk_bucket 1 Float64.zero)
                  (SourceAudit.mk_bucket 0 Float64.zero))].
Proof. intros. split; vm_compute; reflexivity. Qed.

(** in atlas_source_audit.py the reference instant is read once: every
    datetime of a pass is classified by [window_of] against the same [now],
    so the buckets of a pass do not depend on the order of its documents *)
Lemma count_windows_app local now xs ys bs :
  SourceAudit.count_windows local now (xs ++ ys) bs
  = SourceAudit.count_windows local now ys (SourceAudit.count_windows local now xs bs).
Proof.
  revert bs. induction xs as [|[[d|] b] xs IH]; intros bs; simpl; auto.
  destruct (SourceAudit.window_of now _); apply IH.
Qed.

Lemma window_bucket_counts_same_instant local now d b1 b2 :
  let one b := SourceAudit.window_bucket_counts local [(Some d, b)] now in
  SourceAudit.count (SourceAudit.b24 (one b1)) = SourceAudit.count (SourceAudit.b24 (one b2))
  /\ SourceAudit.count (SourceAudit.b48 (one b1)) = SourceAudit.count (SourceAudit.b48 (one b2))
  /\ SourceAudit.count (SourceAudit.b72 (one b1)) = SourceAudit.count (SourceAudit.b72 (one b2)).
Proof.
  unfold SourceAudit.window_bucket_counts. simpl.
  destruct (SourceAudit.window_of _ _) as [[]|]; simpl; auto.
Qed.

(** The date selection of [eval_sources] in eval_windows.py is not the
    derivation of C3: [pick_first] returns the first value that is not blank
    and the caller parses that one value, so a first field that holds text
    which does not parse hides a later field that would. *)
Lemma pick_first_does_not_retry :
  let doc := VDict [("booked_at", VStr "unknown"); ("arrest_date", VStr "2024-01-05")] in
  let reject := fun _ : string => @None datetime in
  EvalWindows.parse_date_any reject (fun _ => "")
    (EvalWindows.pick_first doc ["booked_at"; "arrest_date"] VNone) = None
  /\ SourceAudit.derive_booking_datetime reject (fun _ => "") "galveston_events" doc
     = Val (mk_datetime 2024 1 5 0 0 0 0 PyDatetime.utc).
Proof. split; vm_compute; reflexivity. Qed.

(* ------------------------------------------------------------------ *)
(** ** More on dictionaries *)

Section PyDictMore.
Context {V : Type}.
Implicit Types (d : list (string * V)) (k : string) (v : V).

Lemma dict_set_In d k v x :
  In x (dict_set d k v) -> x = (k, v) \/ In x d.
Proof.
  induction d as [|[k' v'] d IH]; simpl.
  - intros [<-|[]]. now left.
  - destruct (String.eqb k' k) eqn:E; simpl.
    + apply String.eqb_eq in E. subst k'. intros [<-|H]; auto.
    + intros [<-|H]; auto. destruct (IH H); auto.
Qed.

Lemma dict_of_items_In (items : list (string * V)) x :
  In x (dict_of_items items) -> In x items.
Proof.
  unfold PyDict.of_items.
  assert (H : forall acc, In x (fold_left (fun d kv => dict_set d (fst kv) (snd kv))
                                          items acc) -> In x acc \/ In x items).
  { induction items as [|[k v] items IH]; intros acc; simpl; auto.
    intros Hx. destruct (IH _ Hx) as [Hacc|Hit]; auto.
    apply dict_set_In in Hacc as [->|Hacc]; auto. }
  intros Hx. destruct (H [] Hx) as [[]|Hit]. exact Hit.
Qed.

Lemma dict_get_None_notin d k :
  dict_get d k = None <-> ~ In k (map fst d).
Proof.
  induction d as [|[k' v'] d IH]; simpl.
  - split; auto.
  - destruct (String.eqb k' k) eqn:E.
    + apply String.eqb_eq in E. split; [discriminate|]. intros H. exfalso. auto.
    + apply String.eqb_neq in E. rewrite IH. split.
      * intros H [H1|H1]; auto.
      * intros H H1. apply H. now right.
Qed.

Lemma dict_set_keys d k v :
  map fst (dict_set d k v)
  = if dict_mem d k then map fst d else map fst d ++ [k].
Proof.
  unfold PyDict.mem. induction d as [|[k' v'] d IH]; simpl; [reflexivity|].
  destruct (String.eqb k' k) eqn:E; simpl; [reflexivity|].
  rewrite IH. destruct (dict_get d k); reflexivity.
Qed.

Lemma dict_set_NoDup d k v :
  NoDup (map fst d) -> NoDup (map fst (dict_set d k v)).
Proof.
  intros H. rewrite dict_set_keys. unfold PyDict.mem.
  destruct (dict_get d k) eqn:E; [exact H|].
  apply dict_get_None_notin in E.
  apply NoDup_app; [exact H|repeat constructor; auto|].
  intros x Hx [<-|[]]. contradiction.
Qed.

Lemma dict_of_items_NoDup (items : list (string * V)) :
  NoDup (map fst (dict_of_items items)).
Proof.
  unfold PyDict.of_items.
  assert (H : forall acc, NoDup (map fst acc) ->
            NoDup (map fst (fold_left (fun d kv => dict_set d (fst kv) (snd kv))
                                      items acc))).
  { induction items as [|[k v] items IH]; intros acc Hacc; simpl; auto.
    apply IH. now apply dict_set_NoDup. }
  apply H. constructor.
Qed.

Lemma dict_set_new d k v :
  dict_get d k = None -> dict_set d k v = d ++ [(k, v)].
Proof.
  induction d as [|[k' v'] d IH]; simpl; [reflexivity|].
  destruct (String.eqb k' k); [discriminate|]. intros H. now rewrite IH.
Qed.

Lemma fold_set_distinct (items : list (string * V)) : forall acc,
  NoDup (map fst (acc ++ items)) ->
  fold_left (fun d kv => dict_set d (fst kv) (snd kv)) items acc = acc ++ items.
Proof.
  induction items as [|[k v] items IH]; intros acc H; simpl.
  - now rewrite app_nil_r.
  - rewrite dict_set_new.
    + rewrite IH; rewrite <- app_assoc; [reflexivity|exact H].
    + apply dict_get_None_notin. rewrite map_app in H. simpl in H.
      apply NoDup_remove_2 in H. intros Hin. apply H.
      apply in_or_app. now left.
Qed.

(** building a dict from items with pairwise distinct keys keeps them all,
    in order *)
Lemma dict_of_items_distinct (items : list (string * V)) :
  NoDup (map fst items) -> dict_of_items items = items.
Proof. intros H. unfold PyDict.of_items. now rewrite fold_set_distinct. Qed.
End PyDictMore.

(* ------------------------------------------------------------------ *)
(** ** More on flatten *)

Section FlattenMore.
Import CategoricalAudit.
Variable sep : string.

Lemma dict_loop_inv p d kv :
  In kv (dict_loop sep p d) ->
  exists k v, In (k, v) d /\ In kv (flatten_sep sep v (new_key_dict p sep k)).
Proof.
  induction d as [|[k0 v0] d IH]; simpl; [easy|].
  intros H. apply in_app_or in H as [H|H].
  - exists k0, v0. auto.
  - destruct (IH H) as (k & v & Hin & Hkv). exists k, v. auto.
Qed.

Lemma list_loop_inv p l : forall i0 kv,
  In kv (list_loop sep p i0 l) ->
  exists i v, nth_error l i = Some v
              /\ In kv (flatten_sep sep v (new_key_list p (i0 + i))).
Proof.
  induction l as [|x l IH]; intros i0 kv; simpl; [easy|].
  intros H. apply in_app_or in H as [H|H].
  - exists 0%nat, x. rewrite Nat.add_0_r. auto.
  - destruct (IH _ _ H) as (i & v & Hnth & Hkv).
    exists (S i), v. rewrite <- Nat.add_succ_comm. auto.
Qed.

Lemma flatten_leaf v p :
  is_leaf v = true -> flatten_sep sep v p = [(p, v)].
Proof. destruct v; try discriminate; reflexivity. Qed.

Lemma flatten_values_are_leaves doc : forall p k v,
  In (k, v) (flatten_sep sep doc p) -> is_leaf v = true.
Proof.
  induction doc as [|b|n|f|s|d|h|bs|l IH|d IH] using value_ind; intros p k v;
    try (rewrite flatten_leaf by reflexivity; intros [E|[]]; now inversion E).
  - rewrite flatten_list. intros H. apply dict_of_items_In in H.
    apply in_app_or in H as [H|[E|[]]]; [|now inversion E].
    apply list_loop_inv in H as (i & x & Hnth & Hkv).
    rewrite Forall_forall in IH. eapply IH; [|exact Hkv].
    eapply nth_error_In; eauto.
  - rewrite flatten_dict. intros H. apply dict_of_items_In in H.
    apply dict_loop_inv in H as (k0 & v0 & Hin & Hkv).
    rewrite Forall_forall in IH. apply (IH (k0, v0) Hin _ _ _ Hkv).
Qed.

Lemma prefix_refl_app (p s : string) : String.prefix p (p ++ s)%string = true.
Proof.
  induction p as [|c p IH]; simpl; [now destruct s|].
  destruct (ascii_dec c c); [exact IH|contradiction].
Qed.

Lemma prefix_refl (p : string) : String.prefix p p = true.
Proof.
  induction p as [|c p IH]; simpl; [reflexivity|].
  destruct (ascii_dec c c); [exact IH|contradiction].
Qed.

Lemma prefix_trans (a b c : string) :
  String.prefix a b = true -> String.prefix b c = true -> String.prefix a c = true.
Proof.
  revert b c. induction a as [|x a IH]; intros b c; [now destruct c|].
  destruct b as [|y b]; simpl; [discriminate|].
  destruct c as [|z c]; simpl; [now destruct (ascii_dec x y)|].
  destruct (ascii_dec x y) as [->|]; [|discriminate].
  destruct (ascii_dec y z) as [->|]; [|discriminate].
  apply IH.
Qed.

Lemma prefix_new_key_dict p k : String.prefix p (new_key_dict p sep k) = true.
Proof.
  unfold new_key_dict. destruct (String.eqb p "") eqn:E.
  - apply String.eqb_eq in E. subst. now destruct k.
  - apply prefix_refl_app.
Qed.

Lemma flatten_keys_extend_parent doc : forall p k v,
  In (k, v) (flatten_sep sep doc p) -> String.prefix p k = true.
Proof.
  induction doc as [|b|n|f|s|d|h|bs|l IH|d IH] using value_ind; intros p k v;
    try (rewrite flatten_leaf by reflexivity; intros [E|[]]; inversion E;
         apply prefix_refl).
  - rewrite flatten_list. intros H. apply dict_of_items_In in H.
    apply in_app_or in H as [H|[E|[]]]; [|inversion E; apply prefix_refl_app].
    apply list_loop_inv in H as (i & x & Hnth & Hkv).
    rewrite Forall_forall in IH.
    eapply prefix_trans; [|eapply IH; [eapply nth_error_In; eauto|exact Hkv]].
    apply prefix_refl_app.
  - rewrite flatten_dict. intros H. apply dict_of_items_In in H.
    apply dict_loop_inv in H as (k0 & v0 & Hin & Hkv).
    rewrite Forall_forall in IH.
    eapply prefix_trans; [|apply (IH (k0, v0) Hin _ _ _ Hkv)].
    apply prefix_new_key_dict.
Qed.

Lemma dict_loop_flat d :
  Forall (fun kv => is_leaf (snd kv) = true) d -> dict_loop sep "" d = d.
Proof.
  induction 1 as [|[k v] d Hv _ IH]; simpl; [reflexivity|].
  simpl in Hv. rewrite flatten_leaf by exact Hv. simpl. now rewrite IH.
Qed.
End FlattenMore.

(** X1: whatever the document, flatten returns a mapping with pairwise
    distinct keys, each of which starts with the parent key, and whose values
    are never lists or dicts. *)
Theorem flatten_shape :
  forall sep doc p,
    NoDup (map fst (CategoricalAudit.flatten_sep sep doc p))
    /\ Forall (fun kv => String.prefix p (fst kv) = true
                         /\ is_leaf (snd kv) = true)
              (CategoricalAudit.flatten_sep sep doc p).
Proof.
  intros sep doc p. split.
  - destruct doc; apply dict_of_items_NoDup.
  - apply Forall_forall. intros [k v] H. simpl. split.
    + eapply flatten_keys_extend_parent; eauto.
    + eapply flatten_values_are_leaves; eauto.
Qed.

(** X2: a document without nesting, given with pairwise distinct keys,
    flattens to itself. *)
Theorem flatten_flat_document :
  forall sep d,
    NoDup (map fst d) ->
    Forall (fun kv => is_leaf (snd kv) = true) d ->
    CategoricalAudit.flatten_sep sep (VDict d) "" = d.
Proof.
  intros sep d Hnd Hleaf.
  rewrite flatten_dict, dict_loop_flat by exact Hleaf.
  now apply dict_of_items_distinct.
Qed.

Lemma flatten_flat_document_witness :
  CategoricalAudit.flatten (VDict [("name", VStr "A"); ("age", VInt 3); ("x", VNone)]) ""
  = [("name", VStr "A"); ("age", VInt 3); ("x", VNone)].
Proof.
  apply flatten_flat_document.
  - repeat constructor; simpl; intuition discriminate.
  - repeat constructor.
Defined.

(* ------------------------------------------------------------------ *)
(** ** Invariants of the field statistics *)

Section StatsInvariants.
Import CategoricalAudit.

Lemma counter_total_set {K} (eqb : K -> K -> bool) (c : list (K * Z)) k n :
  counter_total (PyDict.set eqb c k n)
  = counter_total c - counter_get eqb c k + n.
Proof.
  unfold counter_get. induction c as [|[k' n'] c IH]; simpl; [lia|].
  destruct (eqb k' k); simpl; [lia|]. rewrite IH. lia.
Qed.

Lemma counter_total_incr {K} (eqb : K -> K -> bool) (c : list (K * Z)) k :
  counter_total (counter_incr eqb c k) = counter_total c + 1.
Proof.
  unfold counter_incr. rewrite counter_total_set. unfold counter_get.
  destruct (PyDict.get eqb c k); lia.
Qed.

Lemma counter_incr_length {K} (eqb : K -> K -> bool) (c : list (K * Z)) k :
  (List.length (counter_incr eqb c k) <= S (List.length c))%nat.
Proof.
  unfold counter_incr. generalize (match PyDict.get eqb c k with
                                   | Some n => n + 1 | None => 1 end).
  intros n. induction c as [|[k' n'] c IH]; simpl; [lia|].
  destruct (eqb k' k); simpl; lia.
Qed.

Lemma track_value_counts st val :
  types (track_value st val) = types st
  /\ non_null_count (track_value st val) = non_null_count st
  /\ docs_with_field (track_value st val) = docs_with_field st.
Proof.
  unfold track_value.
  destruct (too_many_uniques st); [auto|].
  destruct (is_complex val); [auto|].
  destruct (UNIQUE_CAP <? _); auto.
Qed.

Lemma track_value_bounded st val :
  Z.of_nat (List.length (values st)) <= UNIQUE_CAP ->
  Z.of_nat (List.length (values (track_value st val))) <= UNIQUE_CAP.
Proof.
  intros H. unfold track_value.
  destruct (too_many_uniques st); [exact H|].
  destruct (is_complex val); [exact H|].
  destruct (Z.ltb_spec UNIQUE_CAP
              (Z.of_nat (List.length (counter_incr key_eqb (values st) (norm_val val)))));
    simpl; [unfold UNIQUE_CAP; lia|lia].
Qed.

Lemma fold_items_bounded items : forall seen fs,
  (forall path st, dict_get fs path = Some st ->
                   Z.of_nat (List.length (values st)) <= UNIQUE_CAP) ->
  forall path st, dict_get (fold_items items seen fs) path = Some st ->
                  Z.of_nat (List.length (values st)) <= UNIQUE_CAP.
Proof.
  induction items as [|[p val] items IH]; intros seen fs H; simpl; [exact H|].
  destruct (String.eqb p ""); [now apply IH|].
  apply IH. intros path st.
  destruct (String.eqb p path) eqn:E.
  - apply String.eqb_eq in E. subst p. rewrite dict_get_set_same.
    intros Hst. inversion Hst; subst. unfold observe.
    apply track_value_bounded. simpl. unfold stat_of.
    destruct (dict_get fs path) eqn:Hg; [eapply H; eauto|].
    unfold UNIQUE_CAP. simpl. lia.
  - apply String.eqb_neq in E. rewrite dict_get_set_other by exact E. apply H.
Qed.

Lemma observe_counts st first val :
  non_null_count st <= non_null_count (observe st first val) <= non_null_count st + 1
  /\ docs_with_field (observe st first val)
     = (if first then docs_with_field st + 1 else docs_with_field st)
  /\ counter_total (types (observe st first val)) = counter_total (types st) + 1.
Proof.
  unfold observe.
  destruct (track_value_counts
              (mk_stat (counter_incr String.eqb (types st) (type_name val))
                       (match val with
                        | VNone => non_null_count st
                        | _ => non_null_count st + 1
                        end)
                       (if first then docs_with_field st + 1 else docs_with_field st)
                       (values st) (too_many_uniques st)) val) as (-> & -> & ->).
  simpl. rewrite counter_total_incr. destruct val; lia.
Qed.

Lemma fold_items_counts n items : forall seen fs,
  0 <= n ->
  NoDup (map fst items) ->
  (forall k, In k (map fst items) -> existsb (String.eqb k) seen = false) ->
  (forall path st, dict_get fs path = Some st -> counts_seen n seen path st) ->
  forall path st, dict_get (fold_items items seen fs) path = Some st ->
                  counts_ok (n + 1) st.
Proof.
  induction items as [|[p val] items IH]; intros seen fs Hn0 Hnd Hfresh Hinv; simpl.
  - intros path st Hget. destruct (Hinv path st Hget) as (H1 & H2 & H3 & H4).
    unfold counts_ok. destruct (existsb (String.eqb path) seen); lia.
  - simpl in Hnd. inversion Hnd as [|? ? Hnotin Hnd']; subst.
    destruct (String.eqb p "") eqn:Ep.
    + apply IH; auto. intros k Hk. apply Hfresh. now right.
    + assert (Hp : existsb (String.eqb p) seen = false) by (apply Hfresh; now left).
      rewrite Hp. simpl.
      apply IH; auto.
      * intros k Hk. simpl.
        destruct (String.eqb k p) eqn:E.
        -- apply String.eqb_eq in E. subst. contradiction.
        -- apply Hfresh. now right.
      * intros path st. unfold counts_seen. simpl.
        destruct (String.eqb p path) eqn:E.
        -- apply String.eqb_eq in E. subst p. rewrite dict_get_set_same.
           rewrite String.eqb_refl. simpl.
           intros Hst. inversion Hst; subst. clear Hst.
           destruct (observe_counts (stat_of fs path) true val) as (Hn & -> & ->).
           unfold stat_of in *.
           destruct (dict_get fs path) as [st0|] eqn:Hg.
           ++ destruct (Hinv path st0 Hg) as (H1 & H2 & H3 & H4).
              rewrite Hp in H4. lia.
           ++ unfold new_stat in *. simpl in *. lia.
        -- apply String.eqb_neq in E. rewrite dict_get_set_other by exact E.
           replace (String.eqb path p) with false
             by (symmetry; apply String.eqb_neq; congruence).
           simpl. apply Hinv.
Qed.

Lemma gather_counts docs : forall fs n,
  0 <= n ->
  (forall path st, dict_get fs path = Some st -> counts_ok n st) ->
  forall path st, dict_get (gather docs fs) path = Some st ->
                  counts_ok (n + Z.of_nat (List.length docs)) st.
Proof.
  unfold gather. induction docs as [|doc docs IH]; intros fs n Hn Hinv; simpl.
  - intros path st Hg. rewrite Z.add_0_r. eauto.
  - intros path st Hg.
    replace (n + Z.pos (Pos.of_succ_nat (List.length docs)))
      with ((n + 1) + Z.of_nat (List.length docs)) by lia.
    eapply IH; [| |exact Hg]; [lia|].
    apply fold_items_counts.
    + exact Hn.
    + apply flatten_shape.
    + reflexivity.
    + intros p s Hs. destruct (Hinv p s Hs) as (H1 & H2 & H3).
      unfold counts_seen. simpl. lia.
Qed.
End StatsInvariants.

(** X3: after any run, every field of the statistics has been seen in at
    least one and at most all of the documents, its non-null count does not
    exceed its document count, its kind histogram sums to its document count
    (a field occurs once per flattened document), and it tracks at most 5000
    distinct values. *)
Theorem field_statistics_invariants :
  forall docs path st,
    dict_get (CategoricalAudit.gather docs []) path = Some st ->
    counts_ok (Z.of_nat (List.length docs)) st
    /\ Z.of_nat (List.length (CategoricalAudit.values st)) <= CategoricalAudit.UNIQUE_CAP.
Proof.
  intros docs path st H. split.
  - apply (gather_counts docs [] 0) in H; [exact H|lia|discriminate].
  - revert path st H. unfold CategoricalAudit.gather.
    assert (G : forall fs,
               (forall path st, dict_get fs path = Some st ->
                  Z.of_nat (List.length (CategoricalAudit.values st))
                  <= CategoricalAudit.UNIQUE_CAP) ->
               forall path st,
                 dict_get (fold_left (fun fs doc =>
                             CategoricalAudit.fold_items
                               (CategoricalAudit.flatten doc "") [] fs) docs fs) path
                 = Some st ->
                 Z.of_nat (List.length (CategoricalAudit.values st))
                 <= CategoricalAudit.UNIQUE_CAP).
    { induction docs as [|doc docs IH]; intros fs Hfs; simpl; [exact Hfs|].
      apply IH. now apply fold_items_bounded. }
    apply G. discriminate.
Qed.

Lemma field_statistics_invariants_witness :
  counts_ok 2 (CategoricalAudit.mk_stat [("str", 1); ("null", 1)] 1 2
                 [(VStr "a", 1); (VNone, 1)] false).
Proof.
  apply (field_statistics_invariants
           [VDict [("f", VStr "a")]; VDict [("f", VNone); ("g", VList [])]] "f").
  reflexivity.
Defined.

(* ------------------------------------------------------------------ *)
(** ** The decision of the classifier *)

(** X4: the categorical flag is the disjunction of the rules, cut by the
    identifier override: a field is categorical exactly when its path names
    no identifier and the boolean rule, the absolute rule, the ratio rule or
    (when enabled) the small-int rule holds; the unique-count rules need the
    count to be known.  The order of the rules decides the reasons only. *)
Theorem decide_categorical :
  forall th path st,
    let bools := CategoricalAudit.counter_get String.eqb (CategoricalAudit.types st) "bool" in
    let ints := CategoricalAudit.counter_get String.eqb (CategoricalAudit.types st) "int" in
    let u := Z.of_nat (List.length (CategoricalAudit.values st)) in
    let nn := CategoricalAudit.non_null_count st in
    CategoricalAudit.categorical (CategoricalAudit.decide th path st)
    = negb (CategoricalAudit.identifier_name path)
      && ((CategoricalAudit.min_count th <=? bools)
          || negb (CategoricalAudit.too_many_uniques st)
             && ((u <=? CategoricalAudit.max_unique th)
                 || (0 <? nn)
                    && Float64.leb (CategoricalAudit.true_div u (Z.max 1 nn))
                                   (CategoricalAudit.max_unique_ratio th)
                 || CategoricalAudit.treat_small_int_as_categorical th
                    && (CategoricalAudit.min_count th <=? ints)
                    && (u <=? CategoricalAudit.small_int_max_unique th))).
Proof.
  intros th path st. cbv zeta. unfold CategoricalAudit.decide.
  destruct (CategoricalAudit.too_many_uniques st);
    destruct (CategoricalAudit.min_count th
              <=? CategoricalAudit.counter_get String.eqb (CategoricalAudit.types st) "bool");
    destruct (CategoricalAudit.identifier_name path);
    destruct (CategoricalAudit.treat_small_int_as_categorical th);
    cbn [negb andb orb CategoricalAudit.categorical]; try reflexivity;
    destruct (Z.of_nat (List.length (CategoricalAudit.values st))
              <=? CategoricalAudit.max_unique th);
    cbn [negb andb orb CategoricalAudit.categorical]; try reflexivity;
    destruct (0 <? CategoricalAudit.non_null_count st);
    cbn [negb andb orb CategoricalAudit.categorical]; try reflexivity;
    try destruct (Float64.leb _ (CategoricalAudit.max_unique_ratio th));
    cbn [negb andb orb CategoricalAudit.categorical]; try reflexivity;
    destruct (CategoricalAudit.min_count th
              <=? CategoricalAudit.counter_get String.eqb (CategoricalAudit.types st) "int");
    destruct (Z.of_nat (List.length (CategoricalAudit.values st))
              <=? CategoricalAudit.small_int_max_unique th);
    reflexivity.
Qed.

(* ------------------------------------------------------------------ *)
(** ** More on the dotted lookup *)

Section WalkMore.
Import SourceAudit.

Lemma walk_nil obj : _walk obj [] = match obj with VNone => [] | _ => [obj] end.
Proof. destruct obj; reflexivity. Qed.

Lemma walk_never_none obj : forall parts,
  Forall (fun v => v <> VNone) (_walk obj parts).
Proof.
  induction obj as [|b|n|f|s|d|h|bs|l IH|d IH] using value_ind; intros parts;
    try (destruct parts; simpl; repeat constructor; discriminate).
  - destruct parts as [|key rest]; [repeat constructor; discriminate|].
    rewrite walk_list. induction IH as [|x l Hx _ IHl]; simpl; [constructor|].
    apply Forall_app. split; [apply Hx|exact IHl].
  - destruct parts as [|key rest]; [repeat constructor; discriminate|].
    rewrite walk_dict. destruct (dict_get d key) as [v|] eqn:E; [|constructor].
    apply dict_get_In in E. rewrite Forall_forall in IH.
    apply (IH (key, v) E).
Qed.

Lemma split_on_no_sep sep l :
  existsb (Ascii.eqb sep) l = false -> split_on sep l = [l].
Proof.
  induction l as [|c l IH]; simpl; [reflexivity|].
  rewrite (Ascii.eqb_sym c sep).
  destruct (Ascii.eqb sep c); simpl; [discriminate|].
  intros H. now rewrite IH.
Qed.

Lemma split_path_plain k :
  EvalWindows.has_dot k = false -> split_path k = [k].
Proof.
  unfold EvalWindows.has_dot, split_path. intros H.
  rewrite split_on_no_sep by exact H. simpl.
  now rewrite string_of_list_ascii_of_string.
Qed.
End WalkMore.

(** X5: the dotted lookup never returns None, so a field holding None is
    the same as an absent field; and for a key without a dot on a dict it
    returns the value under that key as one element, a list included (it is
    not fanned out when the path ends at it). *)
Theorem get_dotted_plain_key :
  (forall doc path,
      Forall (fun v => v <> VNone) (SourceAudit._get_dotted doc path))
  /\ (forall d k,
         EvalWindows.has_dot k = false ->
         SourceAudit._get_dotted (VDict d) k
         = match dict_get d k with
           | Some VNone | None => []
           | Some v => [v]
           end).
Proof.
  split.
  - intros doc path. apply walk_never_none.
  - intros d k Hk. unfold SourceAudit._get_dotted.
    rewrite split_path_plain by exact Hk. rewrite walk_dict.
    destruct (dict_get d k) as [v|]; [|reflexivity].
    rewrite walk_nil. now destruct v.
Qed.

Lemma get_dotted_plain_key_witness :
  SourceAudit._get_dotted
    (VDict [("total_bond", VList [VInt 1; VInt 2]); ("x", VNone)]) "total_bond"
  = [VList [VInt 1; VInt 2]].
Proof.
  destruct get_dotted_plain_key as [_ H].
  rewrite H; reflexivity.
Defined.

(* ------------------------------------------------------------------ *)
(** ** When numeric extraction raises *)

Section RaiseFacts.
Import SourceAudit.
Variable ks : list string.

Lemma extract_convertible x :
  ints_convertible x = true -> _extract_first_numeric ks x <> Raises.
Proof.
  induction x as [|b|n|f|s|d|h|bs|l IH|d _] using value_ind; intros H;
    try discriminate.
  - simpl in *. destruct (Float64.of_int n); discriminate.
  - simpl. destruct (negb (Float64.is_nan f)); discriminate.
  - rewrite extract_str. destruct (re_search_number _); [|discriminate].
    destruct (float_of_chars _); discriminate.
  - induction IH as [|x l Hx _ IHl]; [discriminate|].
    simpl in H. apply andb_prop in H as [H1 H2].
    rewrite extract_list_cons.
    destruct (_extract_first_numeric ks x) eqn:E; try discriminate.
    + now apply IHl.
    + now apply Hx in H1.
  - rewrite extract_dict. destruct (number_wrapper ks d); discriminate.
Qed.

Lemma numeric_vals_convertible vals :
  forallb ints_convertible vals = true -> numeric_vals ks vals <> None.
Proof.
  induction vals as [|v vals IH]; simpl; [discriminate|].
  intros H. apply andb_prop in H as [H1 H2].
  pose proof (extract_convertible v H1) as Hv.
  destruct (_extract_first_numeric ks v); try contradiction; auto.
  destruct (numeric_vals ks vals); [discriminate|]. now apply IH.
Qed.
End RaiseFacts.

(** X6: numeric extraction raises only through [float] of an int that is not
    inside a wrapper dict: an input whose ints, at top level and inside lists,
    are within the binary64 range never raises (strings, floats, booleans and
    dicts never do), a bare int raises exactly when it is out of range, and
    money derivation does not raise when the values its fields resolve to are
    such inputs. *)
Theorem extraction_raises_only_on_huge_ints :
  forall ks,
    (forall x, ints_convertible x = true ->
               SourceAudit._extract_first_numeric ks x <> Raises)
    /\ (forall n, SourceAudit._extract_first_numeric ks (VInt n) = Raises
                  <-> Float64.of_int n = None)
    /\ (forall coll doc,
           (forall k,
               In k (SourceAudit.fields_of SourceAudit.BOND_FIELDS_BY_COLLECTION coll) ->
               forallb ints_convertible (SourceAudit._get_dotted doc k) = true) ->
           SourceAudit.derive_bond_amount ks coll doc <> Raises).
Proof.
  intros ks. split; [|split].
  - apply extract_convertible.
  - intros n. simpl. destruct (Float64.of_int n); split; congruence.
  - intros coll doc. unfold SourceAudit.derive_bond_amount.
    induction (SourceAudit.fields_of SourceAudit.BOND_FIELDS_BY_COLLECTION coll)
      as [|k fields IH]; intros H; simpl; [discriminate|].
    pose proof (numeric_vals_convertible ks _ (H k (or_introl eq_refl))) as Hk.
    destruct (SourceAudit.numeric_vals ks (SourceAudit._get_dotted doc k))
      as [[|n ns]|]; try discriminate; try contradiction.
    apply IH. intros k' Hk'. apply H. now right.
Qed.

Lemma extraction_raises_only_on_huge_ints_witness :
  SourceAudit._extract_first_numeric SourceAudit.NUMBER_KEYS
    (VList [VStr "x"; VInt 9223372036854775807]) <> Raises
  /\ SourceAudit._extract_first_numeric SourceAudit.NUMBER_KEYS (VInt (2 ^ 1024)) = Raises.
Proof.
  destruct (extraction_raises_only_on_huge_ints SourceAudit.NUMBER_KEYS)
    as (H1 & H2 & _).
  split.
  - apply H1. vm_compute. reflexivity.
  - apply H2. vm_compute. reflexivity.
Defined.

(** X7: a derived booking timestamp is always timezone-aware. *)
Theorem derive_booking_datetime_aware :
  forall fromisoformat py_repr coll doc d,
    SourceAudit.derive_booking_datetime fromisoformat py_repr coll doc = Val d ->
    tzinfo d <> None.
Proof.
  intros fromisoformat py_repr coll doc d.
  unfold SourceAudit.derive_booking_datetime.
  induction (SourceAudit.fields_of SourceAudit.DATE_FIELDS_BY_COLLECTION coll)
    as [|k fields IH]; simpl; [discriminate|].
  assert (H : forall vals,
             SourceAudit.first_datetime fromisoformat py_repr vals = Val d ->
             tzinfo d <> None).
  { induction vals as [|v vals IHv]; simpl; [discriminate|].
    destruct (SourceAudit._to_datetime fromisoformat py_repr v) eqn:E;
      try discriminate; auto.
    intros E'. inversion E'; subst. eapply to_datetime_aware; eauto. }
  destruct (SourceAudit.first_datetime fromisoformat py_repr
              (SourceAudit._get_dotted doc k)) eqn:E; try discriminate; auto.
  intros E'. rewrite <- E' in *. apply (H _ E).
Qed.

Lemma derive_booking_datetime_aware_witness :
  tzinfo (mk_datetime 2024 1 5 10 0 0 0 PyDatetime.utc) <> None.
Proof.
  apply (derive_booking_datetime_aware
           (fun _ => None) (fun _ => "") "harris_bond"
           (VDict [("file_date", VDatetime (mk_datetime 2024 1 5 10 0 0 0 None))])).
  reflexivity.
Defined.

(* ------------------------------------------------------------------ *)
(** ** Epoch numbers and instants *)

Section EpochFacts.
Import PyDatetime.

Lemma days_roundtrip z :
  let '(y, m, d) := civil_from_days z in days_from_civil y m d = z.
Proof.
  unfold civil_from_days, days_from_civil. cbv zeta.
  repeat match goal with |- context [if ?c then _ else _] => destruct c eqn:? end;
    Z.to_euclidean_division_equations; lia.
Qed.

Lemma days_from_civil_bounds y m d :
  1 <= y <= 9999 -> 1 <= m <= 12 -> 1 <= d <= 31 ->
  -719162 <= days_from_civil y m d <= 2932896.
Proof.
  unfold days_from_civil. cbv zeta. intros Hy Hm Hd.
  repeat match goal with |- context [if ?c then _ else _] => destruct c eqn:? end;
    Z.to_euclidean_division_equations; lia.
Qed.

Lemma days_in_month_le y m : days_in_month y m <= 31.
Proof.
  unfold days_in_month.
  repeat match goal with |- context [if ?c then _ else _] => destruct c end; lia.
Qed.

Lemma of_epoch_us_instant us d :
  of_epoch_us us = Some d ->
  instant d = Some us
  /\ tzinfo d = utc
  /\ -62135596800 * us_per_second <= us < 253402300800 * us_per_second.
Proof.
  unfold of_epoch_us, make.
  pose proof (days_roundtrip (us / us_per_second / 86400)) as Hrt.
  destruct (civil_from_days (us / us_per_second / 86400)) as [[y m] dd].
  destruct (valid_civil _ _ _ _ _ _ _) eqn:Hv; [|discriminate].
  intros E. inversion E; subst d; clear E.
  unfold instant, wall_us. cbn [tzinfo year month day hour minute second microsecond].
  unfold utc. rewrite Hrt.
  unfold valid_civil in Hv.
  repeat (apply andb_prop in Hv; destruct Hv as [Hv ?]).
  pose proof (days_in_month_le y m).
  assert (Hb : -719162 <= us / us_per_second / 86400 <= 2932896).
  { rewrite <- Hrt. apply days_from_civil_bounds; lia. }
  unfold us_per_second in *.
  split; [f_equal|split; [reflexivity|]];
    Z.to_euclidean_division_equations; lia.
Qed.
End EpochFacts.

(** X8: an int epoch value not above 10^12 is read as seconds: when temporal
    extraction returns a datetime for it, that datetime is in UTC and denotes
    exactly that many seconds after the epoch, and the value lies between
    year 1 and year 9999 (-62135596800 .. 253402300799). *)
Theorem epoch_seconds_denote_their_instant :
  forall fromisoformat py_repr n d,
    n <= 1000000000000 ->
    SourceAudit._to_datetime fromisoformat py_repr (VInt n) = Val d ->
    PyDatetime.instant d = Some (n * PyDatetime.us_per_second)
    /\ tzinfo d = PyDatetime.utc
    /\ -62135596800 <= n <= 253402300799.
Proof.
  intros fromisoformat py_repr n d Hn.
  rewrite to_datetime_int.
  replace (1000000000000 <? n) with false by (symmetry; apply Z.ltb_ge; lia).
  intros E. apply of_option_Val in E. unfold PyDatetime.fromtimestamp_int in E.
  apply of_epoch_us_instant in E as (Hi & Hu & Hr).
  unfold PyDatetime.us_per_second in *. repeat split; auto; lia.
Qed.

Lemma epoch_seconds_denote_their_instant_witness :
  PyDatetime.instant (mk_datetime 2024 1 5 0 0 0 0 PyDatetime.utc)
  = Some (1704412800 * PyDatetime.us_per_second).
Proof.
  apply (epoch_seconds_denote_their_instant (fun _ => None) (fun _ => "")
           1704412800 (mk_datetime 2024 1 5 0 0 0 0 PyDatetime.utc)).
  - lia.
  - vm_compute. reflexivity.
Defined.

(* ------------------------------------------------------------------ *)
(** ** What the window counts count *)

Section CountFacts.
Import SourceAudit.
Variable local_utcoffset : datetime -> Z.

Lemma count_windows_counts now items : forall bs,
  let out := count_windows local_utcoffset now items bs in
  count (b24 out) = count (b24 bs) + Z.of_nat (counted local_utcoffset now W24 items)
  /\ count (b48 out) = count (b48 bs) + Z.of_nat (counted local_utcoffset now W48 items)
  /\ count (b72 out) = count (b72 bs) + Z.of_nat (counted local_utcoffset now W72 items).
Proof.
  unfold counted, item_window.
  induction items as [|[[d|] b] items IH]; intros bs; cbn [count_windows].
  - simpl. lia.
  - cbn [filter fst].
    destruct (window_of now (astimezone_utc local_utcoffset d)) as [[]|];
      cbn [window_eqb List.length];
      match goal with
      | |- context [count_windows _ _ _ ?bs'] => specialize (IH bs')
      end;
      cbv zeta in IH; destruct IH as (H1 & H2 & H3);
      rewrite H1, H2, H3; unfold bump; simpl; lia.
  - cbn [filter fst]. apply IH.
Qed.

Lemma counted_perm now w items items' :
  Permutation items items' ->
  counted local_utcoffset now w items = counted local_utcoffset now w items'.
Proof.
  unfold counted. induction 1 as [|x l l' _ IH|x y l|l l' l'' _ IH1 _ IH2]; simpl.
  - reflexivity.
  - destruct (match item_window _ _ x with Some _ => _ | None => _ end); simpl; lia.
  - destruct (match item_window _ _ x with Some _ => _ | None => _ end),
             (match item_window _ _ y with Some _ => _ | None => _ end); simpl; lia.
  - lia.
Qed.
End CountFacts.

(** X9: each count returned by window_bucket_counts is the number of pairs
    whose datetime falls in that window (pairs with no datetime, with a
    datetime ahead of now or older than 72 hours count nowhere), so the
    counts do not depend on the order of the pairs. *)
Theorem window_counts_count_items :
  forall local_utcoffset items now,
    let now_utc := SourceAudit.astimezone_utc local_utcoffset now in
    let out := SourceAudit.window_bucket_counts local_utcoffset items now in
    (SourceAudit.count (SourceAudit.b24 out)
     = Z.of_nat (counted local_utcoffset now_utc SourceAudit.W24 items)
     /\ SourceAudit.count (SourceAudit.b48 out)
        = Z.of_nat (counted local_utcoffset now_utc SourceAudit.W48 items)
     /\ SourceAudit.count (SourceAudit.b72 out)
        = Z.of_nat (counted local_utcoffset now_utc SourceAudit.W72 items))
    /\ forall items',
        Permutation items items' ->
        let out' := SourceAudit.window_bucket_counts local_utcoffset items' now in
        SourceAudit.count (SourceAudit.b24 out) = SourceAudit.count (SourceAudit.b24 out')
        /\ SourceAudit.count (SourceAudit.b48 out) = SourceAudit.count (SourceAudit.b48 out')
        /\ SourceAudit.count (SourceAudit.b72 out) = SourceAudit.count (SourceAudit.b72 out').
Proof.
  intros local items now now_utc out.
  assert (H : forall l,
             let o := SourceAudit.window_bucket_counts local l now in
             SourceAudit.count (SourceAudit.b24 o)
             = Z.of_nat (counted local now_utc SourceAudit.W24 l)
             /\ SourceAudit.count (SourceAudit.b48 o)
                = Z.of_nat (counted local now_utc SourceAudit.W48 l)
             /\ SourceAudit.count (SourceAudit.b72 o)
                = Z.of_nat (counted local now_utc SourceAudit.W72 l)).
  { intros l o. subst o. unfold SourceAudit.window_bucket_counts.
    destruct (count_windows_counts local now_utc l SourceAudit.empty_buckets)
      as (H1 & H2 & H3).
    subst now_utc. rewrite H1, H2, H3. simpl. auto. }
  split; [apply H|].
  intros items' Hp out'.
  destruct (H items) as (H1 & H2 & H3). destruct (H items') as (H1' & H2' & H3').
  subst out out'. rewrite H1, H2, H3, H1', H2', H3'.
  repeat split; f_equal; apply counted_perm; assumption.
Qed.

Lemma window_counts_count_items_witness :
  let t := mk_datetime 2024 1 5 0 0 0 0 PyDatetime.utc in
  let now := mk_datetime 2024 1 6 12 0 0 0 PyDatetime.utc in
  SourceAudit.count
    (SourceAudit.b48 (SourceAudit.window_bucket_counts (fun _ => 0)
                        [(None, None); (Some t, Some Float64.zero)] now))
  = SourceAudit.count
      (SourceAudit.b48 (SourceAudit.window_bucket_counts (fun _ => 0)
                          [(Some t, Some Float64.zero); (None, None)] now)).
Proof.
  intros t now.
  destruct (window_counts_count_items (fun _ => 0)
              [(None, None); (Some t, Some Float64.zero)] now) as [_ H].
  apply (H [(Some t, Some Float64.zero); (None, None)]).
  apply perm_swap.
Defined.

(* ------------------------------------------------------------------ *)
(** ** pick_first *)

(** X10: pick_first returns either the default or a value found in the
    document that is not None, not the empty string and not a single space;
    when the first key holds such a value, that value is returned whatever
    the later keys hold. *)
Theorem pick_first_skips_blanks :
  forall doc keys default,
    (EvalWindows.pick_first doc keys default = default
     \/ EvalWindows.not_blank (EvalWindows.pick_first doc keys default) = true)
    /\ (forall d k v rest,
           doc = VDict d -> EvalWindows.has_dot k = false ->
           dict_get d k = Some v -> EvalWindows.not_blank v = true ->
           EvalWindows.pick_first doc (k :: rest) default = v).
Proof.
  intros doc keys default. split.
  - induction keys as [|k keys IH]; simpl; [now left|].
    match goal with
    | |- context [if EvalWindows.not_blank ?val then _ else _] =>
        destruct (EvalWindows.not_blank val) eqn:E; [now right|exact IH]
    end.
  - intros d k v rest -> Hk Hget Hv. simpl. rewrite Hk, Hget, Hv. reflexivity.
Qed.

Lemma pick_first_skips_blanks_witness :
  EvalWindows.pick_first (VDict [("a", VStr " "); ("b", VInt 0)]) ["b"; "a"] VNone
  = VInt 0.
Proof.
  destruct (pick_first_skips_blanks (VDict [("a", VStr " "); ("b", VInt 0)])
              ["b"; "a"] VNone) as [_ H].
  apply (H [("a", VStr " "); ("b", VInt 0)] "b" (VInt 0) ["a"]); reflexivity.
Defined.

(* ------------------------------------------------------------------ *)
(** ** Numbers inside strings *)

Section StringNumberFacts.
Import SourceAudit.





Lemma re_search_number_unfold l :
  re_search_number l
  = match match_number_at l with
    | Some m => Some m
    | None => match l with [] => None | _ :: r => re_search_number r end
    end.
Proof. destruct l; reflexivity. Qed.



Lemma digit_not_cspace c : is_digit c = true -> is_cspace c = false.
Proof.
  unfold is_digit, is_cspace. cbv zeta. intros H.
  apply andb_prop in H as [H1 H2].
  apply N.leb_le in H1, H2.
  apply orb_false_intro.
  - apply andb_false_intro2. apply N.leb_gt. lia.
  - apply N.eqb_neq. lia.
Qed.

Lemma digit_lower c : is_digit c = true -> to_lower c = c.
Proof.
  unfold is_digit, to_lower. cbv zeta. intros H.
  apply andb_prop in H as [H1 H2]. apply N.leb_le in H1, H2.
  replace ((65 <=? N_of_ascii c)%N) with false
    by (symmetry; apply N.leb_gt; lia).
  reflexivity.
Qed.

Lemma drop_while_head p c r : p c = false -> drop_while p (c :: r) = c :: r.
Proof. intros H. simpl. now rewrite H. Qed.

Lemma strip_with_id p l :
  Forall (fun c => p c = false) l -> strip_with p l = l.
Proof.
  intros H. unfold strip_with.
  assert (D : forall x, Forall (fun c => p c = false) x -> drop_while p x = x).
  { intros x Hx. destruct Hx; [reflexivity|]. now apply drop_while_head. }
  rewrite (D l H), D by (now apply Forall_rev). apply rev_involutive.
Qed.

Lemma digits_tail_digits ds : forall acc cnt rest,
  Forall (fun c => is_digit c = true) ds ->
  match rest with
  | [] => True
  | c :: _ => is_digit c = false /\ Ascii.eqb c "_" = false
  end ->
  exists acc', digits_tail acc cnt (ds ++ rest) = (acc', (cnt + List.length ds)%nat, rest).
Proof.
  induction ds as [|d ds IH]; intros acc cnt rest Hds Hrest.
  - simpl. rewrite Nat.add_0_r. destruct rest as [|c r]; [simpl; eauto|].
    simpl in Hrest. destruct Hrest as [H1 H2]. simpl. rewrite H1, H2. eauto.
  - inversion Hds as [|? ? Hd Hds']; subst.
    cbn [app digits_tail List.length]. rewrite Hd.
    destruct (IH (10 * acc + digit_val d)%N (S cnt) rest Hds' Hrest) as [a Ha].
    exists a. rewrite Ha. f_equal. f_equal. lia.
Qed.

(** a sign, digits and possibly a point and more digits always read as a
    float *)
Lemma float_number_plain neg d body frac (dotted : bool) :
  is_digit d = true ->
  Forall (fun c => is_digit c = true) body ->
  Forall (fun c => is_digit c = true) frac ->
  float_number neg (d :: body ++ (if dotted then "."%char :: frac else [])) <> None.
Proof.
  intros Hd Hbody Hfrac. unfold float_number, digitpart. rewrite Hd.
  destruct dotted.
  - destruct (digits_tail_digits body (digit_val d) 1 ("."%char :: frac) Hbody)
      as [m1 E1]; [split; reflexivity|].
    rewrite E1. cbn [Ascii.eqb Bool.eqb]. 
    replace (Ascii.eqb "." ".") with true by reflexivity.
    destruct frac as [|f0 fr].
    + simpl. discriminate.
    + inversion Hfrac as [|? ? Hf0 Hfr]; subst. rewrite Hf0.
      destruct (digits_tail_digits fr (digit_val f0) 1 [] Hfr I) as [m2 E2].
      rewrite app_nil_r in E2. rewrite E2.
      destruct (digits_tail m1 0 (f0 :: fr)) as [[m ?] ?].
      simpl. discriminate.
  - destruct (digits_tail_digits body (digit_val d) 1 [] Hbody I) as [m1 E1].
    rewrite E1. discriminate.
Qed.

Lemma remove_commas_body body :
  Forall (fun c => (is_digit c || Ascii.eqb c ",") = true) body ->
  Forall (fun c => is_digit c = true) (remove_commas body).
Proof.
  unfold remove_commas. induction 1 as [|c body Hc _ IH]; simpl; [constructor|].
  destruct (Ascii.eqb c ",") eqn:E; simpl; [exact IH|].
  constructor; [|exact IH]. now rewrite orb_false_r in Hc.
Qed.

Lemma remove_commas_digits l :
  Forall (fun c => is_digit c = true) l -> remove_commas l = l.
Proof.
  unfold remove_commas. induction 1 as [|c l Hc _ IH]; simpl; [reflexivity|].
  replace (Ascii.eqb c ",") with false; [simpl; now rewrite IH|].
  symmetry. destruct (Ascii.eqb c ",") eqn:E; [|reflexivity].
  apply Ascii.eqb_eq in E. subst. discriminate.
Qed.

Lemma float_of_chars_plain sg d body frac (dotted : bool) :
  (sg = [] \/ sg = ["-"%char] \/ sg = ["+"%char]) ->
  is_digit d = true ->
  Forall (fun c => is_digit c = true) body ->
  Forall (fun c => is_digit c = true) frac ->
  float_of_chars (sg ++ d :: body ++ (if dotted then "."%char :: frac else [])) <> None.
Proof.
  intros Hsg Hd Hbody Hfrac. unfold float_of_chars.
  set (tail := d :: body ++ (if dotted then "."%char :: frac else [])).
  assert (Hns : Forall (fun c => is_cspace c = false) (sg ++ tail)).
  { apply Forall_app. split.
    - destruct Hsg as [ -> | [ -> | -> ] ]; repeat constructor.
    - subst tail. constructor; [now apply digit_not_cspace|].
      apply Forall_app. split.
      + eapply Forall_impl; [|exact Hbody]. intros c. apply digit_not_cspace.
      + destruct dotted; [|constructor]. constructor; [reflexivity|].
        eapply Forall_impl; [|exact Hfrac]. intros c. apply digit_not_cspace. }
  rewrite strip_with_id by exact Hns.
  assert (Hts : exists neg, take_sign (sg ++ tail) = (neg, tail)).
  { destruct Hsg as [ -> | [ -> | -> ] ]; [|exists true; reflexivity|exists false; reflexivity].
    exists false. subst tail. simpl.
    destruct (Ascii.eqb d "-") eqn:E1;
      [apply Ascii.eqb_eq in E1; subst; discriminate|].
    destruct (Ascii.eqb d "+") eqn:E2;
      [apply Ascii.eqb_eq in E2; subst; discriminate|]. reflexivity. }
  destruct Hts as [neg ->].
  assert (Hword : forall w, (w = "inf" \/ w = "infinity" \/ w = "nan")%string ->
            chars_eqb (map to_lower tail) (list_ascii_of_string w) = false).
  { intros w Hw. subst tail. unfold chars_eqb. cbn [map string_of_list_ascii].
    rewrite (digit_lower d Hd).
    destruct Hw as [ -> | [ -> | -> ] ]; cbn [list_ascii_of_string string_of_list_ascii String.eqb];
      (destruct (Ascii.eqb d _) eqn:E;
       [apply Ascii.eqb_eq in E; subst; discriminate|reflexivity]). }
  rewrite !Hword by auto. cbn [orb].
  subst tail. now apply float_number_plain.
Qed.

End StringNumberFacts.



(* ------------------------------------------------------------------ *)
(** ** flatten_keys *)

Section FlattenKeysFacts.
Import SourceAudit.

Lemma flatten_keys_dict items prefix :
  flatten_keys (VDict items) prefix = keys_loop prefix items [].
Proof. reflexivity. Qed.

Lemma dict_update_NoDup out sub :
  NoDup (map fst out) -> NoDup (map fst (dict_update out sub)).
Proof.
  unfold dict_update. revert out.
  induction sub as [|[k v] sub IH]; intros out H; simpl; [exact H|].
  apply IH. now apply dict_set_NoDup.
Qed.

Lemma dict_update_values (P : value -> Prop) out sub :
  Forall (fun kv => P (snd kv)) out -> Forall (fun kv => P (snd kv)) sub ->
  Forall (fun kv => P (snd kv)) (dict_update out sub).
Proof.
  unfold dict_update. revert out.
  induction sub as [|[k v] sub IH]; intros out Ho Hs; simpl; [exact Ho|].
  inversion Hs; subst. apply IH; auto.
  apply Forall_forall. intros x Hx. apply dict_set_In in Hx as [->|Hx]; auto.
  rewrite Forall_forall in Ho. auto.
Qed.

Lemma flatten_keys_shape d : forall prefix,
  NoDup (map fst (flatten_keys d prefix))
  /\ Forall (fun kv => not_dict (snd kv) = true) (flatten_keys d prefix).
Proof.
  induction d as [|b|n|f|s|dt|h|bs|l _|items IH] using value_ind; intros prefix;
    try (split; constructor).
  rewrite flatten_keys_dict.
  assert (G : forall out,
             NoDup (map fst out) ->
             Forall (fun kv => not_dict (snd kv) = true) out ->
             NoDup (map fst (keys_loop prefix items out))
             /\ Forall (fun kv => not_dict (snd kv) = true)
                       (keys_loop prefix items out)).
  { induction IH as [|[k v] items Hv _ IHitems]; intros out Hnd Hval; [now split|].
    simpl in Hv.
    destruct v; cbn [keys_loop]; fold (keys_loop prefix);
      try (apply IHitems;
           [now apply dict_set_NoDup
           |apply Forall_forall; intros x Hx;
            apply dict_set_In in Hx as [->|Hx]; [reflexivity|];
            rewrite Forall_forall in Hval; auto]).
    destruct (Hv (dotted_key prefix k)) as [H1 H2].
    apply IHitems.
    - now apply dict_update_NoDup.
    - now apply (dict_update_values (fun v => not_dict v = true)). }
  apply G; constructor.
Qed.

Lemma keys_loop_flat items : forall out,
  Forall (fun kv => not_dict (snd kv) = true) items ->
  keys_loop "" items out
  = fold_left (fun d kv => dict_set d (fst kv) (snd kv)) items out.
Proof.
  induction items as [|[k v] items IH]; intros out H; [reflexivity|].
  inversion H as [|? ? Hv Hrest]; subst. simpl in Hv.
  destruct v; try discriminate; cbn [keys_loop]; fold (keys_loop "");
    rewrite IH by exact Hrest; reflexivity.
Qed.

Lemma fold_set_app {V} (a b : list (string * V)) acc :
  fold_left (fun d kv => dict_set d (fst kv) (snd kv)) (a ++ b) acc
  = fold_left (fun d kv => dict_set d (fst kv) (snd kv)) b
      (fold_left (fun d kv => dict_set d (fst kv) (snd kv)) a acc).
Proof. apply fold_left_app. Qed.

Lemma flatten_keys_agrees d : forall prefix,
  list_free d = true -> not_dict d = false ->
  flatten_keys d prefix = CategoricalAudit.flatten_sep "." d prefix.
Proof.
  induction d as [|b|n|f|s|dt|h|bs|l _|items IH] using value_ind; intros prefix Hlf Hd;
    try discriminate.
  rewrite flatten_keys_dict, flatten_dict. unfold PyDict.of_items.
  generalize (@nil (string * value)) as out.
  simpl in Hlf. clear Hd.
  induction IH as [|[k v] items Hv _ IHitems]; intros out; [reflexivity|].
  simpl in Hlf. apply andb_prop in Hlf as [Hlv Hlrest].
  cbn [dict_loop]. rewrite fold_set_app.
  simpl in Hv.
  destruct v; try discriminate; cbn [keys_loop]; fold (keys_loop prefix);
    rewrite IHitems by exact Hlrest;
    try reflexivity.
  rewrite (Hv (dotted_key prefix k) Hlv eq_refl). reflexivity.
Qed.
End FlattenKeysFacts.

(** X12: flatten_keys returns a mapping with pairwise distinct keys and no
    dict among its values, and flattening its result again changes
    nothing. *)
Theorem flatten_keys_idempotent :
  forall items prefix,
    let flat := SourceAudit.flatten_keys (VDict items) prefix in
    NoDup (map fst flat)
    /\ Forall (fun kv => not_dict (snd kv) = true) flat
    /\ SourceAudit.flatten_keys (VDict flat) "" = flat.
Proof.
  intros items prefix flat.
  destruct (flatten_keys_shape (VDict items) prefix) as [Hnd Hval].
  fold flat in Hnd, Hval. repeat split; auto.
  rewrite flatten_keys_dict, keys_loop_flat by exact Hval.
  now apply dict_of_items_distinct.
Qed.

(** X13: on a dict that holds no list at any depth, flatten_keys of
    atlas_source_audit.py and flatten of atlas_categorical_field_audit.py
    return the same mapping, in the same order. *)
Theorem flatten_keys_agrees_with_flatten :
  forall items prefix,
    list_free (VDict items) = true ->
    SourceAudit.flatten_keys (VDict items) prefix
    = CategoricalAudit.flatten (VDict items) prefix.
Proof.
  intros items prefix H. unfold CategoricalAudit.flatten.
  now apply flatten_keys_agrees.
Qed.

Lemma flatten_keys_agrees_with_flatten_witness :
  SourceAudit.flatten_keys
    (VDict [("a", VDict [("b", VInt 1); ("c", VDict [])]); ("a.b", VInt 2)]) ""
  = CategoricalAudit.flatten
      (VDict [("a", VDict [("b", VInt 1); ("c", VDict [])]); ("a.b", VInt 2)]) "".
Proof. apply flatten_keys_agrees_with_flatten. reflexivity. Defined.

(* ------------------------------------------------------------------ *)
(** ** Rows of the categorical report *)

Section RowFacts.
Import CategoricalAudit.

Lemma dict_set_key_in {A} (d : list (string * A)) k v x :
  In x (map fst (dict_set d k v)) <-> In x (map fst d) \/ x = k.
Proof.
  rewrite dict_set_keys. unfold PyDict.mem.
  destruct (dict_get d k) eqn:E.
  - split; [auto|]. intros [H| ->]; [exact H|].
    destruct (in_dec string_dec k (map fst d)) as [Hin|Hin]; [exact Hin|].
    apply dict_get_None_notin in Hin. congruence.
  - rewrite in_app_iff. simpl. intuition.
Qed.

Lemma fold_items_keys items : forall seen fs,
  NoDup (map fst fs) ->
  NoDup (map fst (fold_items items seen fs))
  /\ forall x, In x (map fst (fold_items items seen fs))
               <-> In x (map fst fs) \/ (x <> ""%string /\ In x (map fst items)).
Proof.
  induction items as [|[p val] items IH]; intros seen fs Hnd; cbn [fold_items].
  - split; [exact Hnd|]. simpl. intuition.
  - destruct (String.eqb p "") eqn:Ep.
    + destruct (IH seen fs Hnd) as [H1 H2]. split; [exact H1|].
      intros x. rewrite H2. apply String.eqb_eq in Ep. subst p. simpl.
      intuition. subst. congruence.
    + apply String.eqb_neq in Ep.
      match goal with
      | |- context [fold_items items ?s ?f] =>
          destruct (IH s f (dict_set_NoDup _ _ _ Hnd)) as [H1 H2]
      end.
      split; [exact H1|].
      intros x. rewrite H2, dict_set_key_in. simpl.
      intuition (subst; auto).
Qed.

Lemma gather_keys docs : forall fs,
  NoDup (map fst fs) ->
  NoDup (map fst (gather docs fs))
  /\ forall x, In x (map fst (gather docs fs))
               <-> In x (map fst fs)
                   \/ (x <> ""%string
                       /\ exists doc, In doc docs /\ In x (map fst (flatten doc ""))).
Proof.
  unfold gather. induction docs as [|doc docs IH]; intros fs Hnd; simpl.
  - split; [exact Hnd|]. intros x. split; [auto|].
    intros [H|(_ & d & [] & _)]. exact H.
  - destruct (fold_items_keys (flatten doc "") [] fs Hnd) as [H1 H2].
    destruct (IH _ H1) as [H3 H4]. split; [exact H3|].
    intros x. rewrite H4, H2. split.
    + intros [[H|(Hx & H)]|(Hx & d & Hd & H)]; eauto 6.
    + intros [H|(Hx & d & [<-|Hd] & H)]; eauto 6.
Qed.

Lemma analyze_fields docs th :
  map field (analyze_collection docs th) = map fst (gather docs []).
Proof.
  unfold analyze_collection. rewrite map_map. apply map_ext.
  intros [path st]. unfold decide.
  repeat match goal with
         | |- context [let '(_, _) := ?x in _] => destruct x
         end.
  reflexivity.
Qed.
End RowFacts.

(** X14: the report has exactly one row per field that occurs: the field
    names of the rows are pairwise distinct, and a name has a row if and only
    if it is a non-empty path of the flattening of one of the documents. *)
Theorem report_rows_are_the_fields :
  forall docs th,
    let fields := map CategoricalAudit.field
                      (CategoricalAudit.analyze_collection docs th) in
    NoDup fields
    /\ forall p, In p fields
                 <-> p <> ""%string
                     /\ exists doc, In doc docs
                                    /\ In p (map fst (CategoricalAudit.flatten doc "")).
Proof.
  intros docs th fields. subst fields. rewrite analyze_fields.
  destruct (gather_keys docs [] (NoDup_nil _)) as [Hnd Hin].
  split; [exact Hnd|].
  intros p. rewrite Hin. simpl. intuition.
Qed.

(* ------------------------------------------------------------------ *)
(** ** Numeric extraction through nested lists *)

Section ExplodeFacts.
Import SourceAudit.
Variable ks : list string.

Lemma extract_list_app l1 l2 :
  _extract_first_numeric ks (VList (l1 ++ l2))
  = match _extract_first_numeric ks (VList l1) with
    | Val v => Val v
    | Null => _extract_first_numeric ks (VList l2)
    | Raises => Raises
    end.
Proof.
  induction l1 as [|x l1 IH]; [reflexivity|].
  rewrite <- app_comm_cons, !extract_list_cons, IH.
  destruct (_extract_first_numeric ks x); reflexivity.
Qed.

Lemma explode_seq_cons v l :
  explode_seq (v :: l)
  = (match v with VList items => items | _ => [v] end) ++ explode_seq l.
Proof. reflexivity. Qed.
End ExplodeFacts.

(** X15: numeric extraction from a list looks through one level of nesting:
    on the list of the items that [explode_seq] yields for a list it gives
    the same outcome (number, null or error) as on the list itself. *)
Theorem extraction_sees_through_nesting :
  forall ks l,
    SourceAudit._extract_first_numeric ks (VList (SourceAudit.explode_seq l))
    = SourceAudit._extract_first_numeric ks (VList l).
Proof.
  intros ks l. induction l as [|v l IH]; [reflexivity|].
  rewrite explode_seq_cons, extract_list_app, IH, extract_list_cons.
  destruct v; try reflexivity;
    rewrite extract_list_cons;
    match goal with
    | |- context [match ?e with Val _ => _ | Null => _ | Raises => _ end] =>
        destruct e; reflexivity
    end.
Qed.

(* ------------------------------------------------------------------ *)
(** ** Errors of eval_simple *)

Section EvalSimpleErrors.
Import EvalWindows.
Variable fromisoformat : string -> option datetime.
Variable py_repr : value -> string.
Variable now_utc : clock.

Lemma make_aware y m d hh mi ss us tz r :
  PyDatetime.make y m d hh mi ss us (Some tz) = Some r -> tzinfo r <> None.
Proof.
  unfold PyDatetime.make. destruct (PyDatetime.valid_civil _ _ _ _ _ _ _);
    [|discriminate].
  intros E. inversion E. discriminate.
Qed.

Lemma date_text_naive (s : chars) d :
  (if (List.length s =? 10)%nat && char_at s 4 "-" && char_at s 7 "-"
   then
     match three_ints "-" s with
     | Some (y, m, d) => PyDatetime.make y m d 0 0 0 0 PyDatetime.utc
     | None => None
     end
   else if (List.length s =? 10)%nat && char_at s 2 "/" && char_at s 5 "/"
   then
     match three_ints "/" s with
     | Some (m, d, y) => PyDatetime.make y m d 0 0 0 0 PyDatetime.utc
     | None => None
     end
   else fromisoformat (string_of_list_ascii (SourceAudit.replace_Z s))) = Some d ->
  tzinfo d = None ->
  fromisoformat (string_of_list_ascii (SourceAudit.replace_Z s)) = Some d.
Proof.
  destruct (_ && _ && _).
  - destruct (three_ints "-" s) as [[[y m] dd]|]; [|discriminate].
    intros E Hd. exfalso. exact (make_aware _ _ _ _ _ _ _ _ _ E Hd).
  - destruct (_ && _ && _); [|auto].
    destruct (three_ints "/" s) as [[[m dd] y]|]; [|discriminate].
    intros E Hd. exfalso. exact (make_aware _ _ _ _ _ _ _ _ _ E Hd).
Qed.

Lemma parse_date_any_naive x d :
  parse_date_any fromisoformat py_repr x = Some d ->
  tzinfo d = None ->
  fromisoformat (string_of_list_ascii
                   (SourceAudit.replace_Z
                      (list_ascii_of_string (SourceAudit.py_str py_repr x))))
  = Some d.
Proof.
  unfold parse_date_any. destruct (negb (truthy x)); [discriminate|].
  destruct x; try apply date_text_naive.
  intros E Hd. inversion E; subst. exfalso.
  exact (ensure_aware_aware _ Hd).
Qed.

Lemma bucket_raises now d :
  bucket_0_24_48_72 now (Some d) = Raises <-> tzinfo d = None.
Proof.
  unfold bucket_0_24_48_72, hours_ago, PyDatetime.instant.
  destruct (tzinfo d); split; try discriminate; try reflexivity.
  destruct (bucket_of_hours _); discriminate.
Qed.

Lemma simple_docs_raises county docs : forall calls results,
  simple_docs fromisoformat py_repr now_utc county docs calls results = None
  <-> exists doc, In doc docs /\ naive_date fromisoformat py_repr doc.
Proof.
  induction docs as [|doc docs IH]; intros calls results; cbn [simple_docs].
  - split; [discriminate|]. intros (doc & [] & _).
  - destruct (parse_date_any fromisoformat py_repr
                (doc_get doc "booking_date" VNone)) as [d|] eqn:Ep.
    + destruct (bucket_0_24_48_72 (now_utc calls) (Some d)) eqn:Eb.
      * rewrite IH. split.
        -- intros (x & Hx & Hn). exists x. split; [now right|exact Hn].
        -- intros (x & [<-|Hx] & Hn); [|eauto].
           destruct Hn as (d' & Hd' & Ht). rewrite Ep in Hd'. inversion Hd'; subst.
           apply (bucket_raises (now_utc calls)) in Ht. congruence.
      * rewrite IH. split.
        -- intros (x & Hx & Hn). exists x. split; [now right|exact Hn].
        -- intros (x & [<-|Hx] & Hn); [|eauto].
           destruct Hn as (d' & Hd' & Ht). rewrite Ep in Hd'. inversion Hd'; subst.
           apply (bucket_raises (now_utc calls)) in Ht. congruence.
      * split; [|reflexivity]. intros _. exists doc. split; [now left|].
        exists d. split; [exact Ep|]. now apply (bucket_raises (now_utc calls)).
    + rewrite IH. split.
      * intros (x & Hx & Hn). exists x. split; [now right|exact Hn].
      * intros (x & [<-|Hx] & Hn); [|eauto].
        destruct Hn as (d' & Hd' & _). congruence.
Qed.

Lemma simple_counties_raises db colls : forall calls results,
  simple_counties fromisoformat py_repr now_utc db colls calls results = None
  <-> exists county coll docs doc,
        In (county, coll) colls /\ dict_get db coll = Some docs
        /\ In doc docs /\ naive_date fromisoformat py_repr doc.
Proof.
  induction colls as [|[county coll] colls IH]; intros calls results;
    cbn [simple_counties].
  - split; [discriminate|]. intros (? & ? & ? & ? & [] & _).
  - destruct (simple_docs fromisoformat py_repr now_utc county
                (match dict_get db coll with Some l => l | None => [] end)
                calls results) as [[calls' results']|] eqn:Es.
    + rewrite IH. split.
      * intros (c & n & docs & doc & Hc & Hrest).
        exists c, n, docs, doc. split; [now right|exact Hrest].
      * intros (c & n & docs & doc & [E|Hc] & Hg & Hd & Hn).
        -- inversion E; subst. exfalso.
           assert (R : simple_docs fromisoformat py_repr now_utc c
                         (match dict_get db n with Some l => l | None => [] end)
                         calls results = None).
           { apply simple_docs_raises. rewrite Hg. eauto. }
           congruence.
        -- exists c, n, docs, doc. auto.
    + split; [|reflexivity]. intros _.
      apply simple_docs_raises in Es. destruct Es as (doc & Hd & Hn).
      destruct (dict_get db coll) as [docs|] eqn:Eg; [|destruct Hd].
      exists county, coll, docs, doc. repeat split; auto. now left.
Qed.
End EvalSimpleErrors.

(** X16: [eval_simple] fails (the [TypeError] of subtracting a naive
    datetime from an aware one escapes [hours_ago]) exactly when the booking
    date of some document of one of the simple collections is read as a
    datetime without a time zone; and [parse_date_any] returns such a
    datetime only from its ISO fallback, never for a datetime object or a
    ten-character date. *)
Theorem eval_simple_fails_iff_naive_date :
  forall fromisoformat py_repr now_utc db,
    (EvalWindows.eval_simple fromisoformat py_repr now_utc db = None
     <-> exists county coll docs doc d,
           In (county, coll) EvalWindows.SIMPLE_COLL
           /\ dict_get db coll = Some docs
           /\ In doc docs
           /\ EvalWindows.parse_date_any fromisoformat py_repr
                (EvalWindows.doc_get doc "booking_date" VNone) = Some d
           /\ tzinfo d = None)
    /\ (forall x d,
           EvalWindows.parse_date_any fromisoformat py_repr x = Some d ->
           tzinfo d = None ->
           fromisoformat (string_of_list_ascii
                            (SourceAudit.replace_Z
                               (list_ascii_of_string (SourceAudit.py_str py_repr x))))
           = Some d).
Proof.
  intros fromisoformat py_repr now_utc db. split.
  - unfold EvalWindows.eval_simple. rewrite simple_counties_raises.
    unfold naive_date. split.
    + intros (c & n & docs & doc & Hc & Hg & Hd & d & Hp & Ht).
      exists c, n, docs, doc, d. auto.
    + intros (c & n & docs & doc & d & Hc & Hg & Hd & Hp & Ht).
      exists c, n, docs, doc. eauto 6.
  - apply parse_date_any_naive.
Qed.

Lemma eval_simple_fails_iff_naive_date_witness :
  let naive := mk_datetime 2024 1 5 10 0 0 0 None in
  let iso := fun s : string =>
               if String.eqb s "2024-01-05T10:00:00" then Some naive else None in
  EvalWindows.eval_simple iso (fun _ => "") (fun _ => 0)
    [("simple_harris", [VDict [("booking_date", VStr "2024-01-05T10:00:00")]])]
  = None.
Proof.
  intros naive iso.
  apply (proj1 (eval_simple_fails_iff_naive_date iso (fun _ => "") (fun _ => 0)
                  [("simple_harris",
                    [VDict [("booking_date", VStr "2024-01-05T10:00:00")]])])).
  exists "harris"%string, "simple_harris"%string,
    [VDict [("booking_date", VStr "2024-01-05T10:00:00")]],
    (VDict [("booking_date", VStr "2024-01-05T10:00:00")]), naive.
  repeat split.
  - simpl. auto 10.
  - now left.
Defined.

(* ------------------------------------------------------------------ *)
(** ** The amounts of eval_sources *)

Section SourceBondFacts.
Import SourceAudit EvalWindows.

Lemma span_app p a b :
  Forall (fun c => p c = true) a ->
  match b with [] => True | c :: _ => p c = false end ->
  span p (a ++ b) = (a, b).
Proof.
  intros Ha Hb. induction Ha as [|c a Hc _ IH]; simpl.
  - destruct b as [|c r]; simpl; [reflexivity|]. now rewrite Hb.
  - now rewrite Hc, IH.
Qed.

Lemma digit_not_sign d :
  is_digit d = true -> (Ascii.eqb d "-" || Ascii.eqb d "+") = false.
Proof.
  intros Hd. apply orb_false_intro.
  - destruct (Ascii.eqb d "-") eqn:E; [|reflexivity].
    apply Ascii.eqb_eq in E. subst. discriminate.
  - destruct (Ascii.eqb d "+") eqn:E; [|reflexivity].
    apply Ascii.eqb_eq in E. subst. discriminate.
Qed.

(** the pattern matches the whole of a plain amount *)
Lemma match_number_at_whole sg d body frac (dotted : bool) :
  (sg = [] \/ sg = ["-"%char] \/ sg = ["+"%char]) ->
  is_digit d = true ->
  Forall (fun c => amount_body c = true) body ->
  Forall (fun c => is_digit c = true) frac ->
  let m := sg ++ d :: body ++ (if dotted then "."%char :: frac else []) in
  match_number_at m = Some m.
Proof.
  intros Hsg Hd Hbody Hfrac m. subst m.
  set (tail := if dotted then "."%char :: frac else []).
  assert (Htail : match tail with
                  | [] => True
                  | c :: _ => (is_digit c || Ascii.eqb c ",") = false
                  end)
    by (subst tail; destruct dotted; [reflexivity|exact I]).
  assert (Hrest : forall sign,
             (if is_digit d
              then
                let '(body0, r2) :=
                  span (fun c => is_digit c || Ascii.eqb c ",") (body ++ tail) in
                let '(dot, r3) :=
                  match r2 with
                  | c :: r' => if Ascii.eqb c "." then ([c], r') else ([], r2)
                  | [] => ([], r2)
                  end in
                let '(frac0, _) := span is_digit r3 in
                Some (sign ++ d :: body0 ++ dot ++ frac0)
              else None) = Some (sign ++ d :: body ++ tail)).
  { intros sign. rewrite Hd.
    rewrite (span_app (fun c => is_digit c || Ascii.eqb c ",") body tail Hbody Htail).
    subst tail. destruct dotted.
    - replace (Ascii.eqb "." ".") with true by reflexivity.
      rewrite <- (app_nil_r frac) at 1.
      rewrite (span_app is_digit frac [] Hfrac I). reflexivity.
    - simpl. now rewrite app_nil_r. }
  destruct Hsg as [ -> | [ -> | -> ] ]; unfold match_number_at; cbn [app].
  - rewrite (digit_not_sign d Hd). apply (Hrest []).
  - apply (Hrest ["-"%char]).
  - apply (Hrest ["+"%char]).
Qed.

Lemma remove_commas_amount sg d body frac (dotted : bool) :
  (sg = [] \/ sg = ["-"%char] \/ sg = ["+"%char]) ->
  is_digit d = true ->
  Forall (fun c => is_digit c = true) frac ->
  remove_commas (sg ++ d :: body ++ (if dotted then "."%char :: frac else []))
  = sg ++ d :: remove_commas body ++ (if dotted then "."%char :: frac else []).
Proof.
  intros Hsg Hd Hfrac.
  assert (Hsgc : remove_commas sg = sg)
    by (destruct Hsg as [ -> | [ -> | -> ] ]; reflexivity).
  assert (Hdc : remove_commas [d] = [d])
    by (apply remove_commas_digits; auto).
  change (d :: body ++ (if dotted then "."%char :: frac else []))
    with ([d] ++ body ++ (if dotted then "."%char :: frac else [])).
  unfold remove_commas in *. rewrite !filter_app, Hsgc, Hdc.
  destruct dotted; [|reflexivity].
  change ("."%char :: frac) with (["."%char] ++ frac).
  rewrite filter_app. fold (remove_commas frac).
  rewrite (remove_commas_digits frac Hfrac). reflexivity.
Qed.

Lemma digit_plain c :
  is_digit c = true -> is_space c = false /\ Ascii.eqb c "$" = false.
Proof.
  unfold is_digit, is_space. cbv zeta. intros H.
  apply andb_prop in H as [H1 H2]. apply N.leb_le in H1, H2. split.
  - apply orb_false_intro; apply andb_false_intro2 || apply andb_false_intro1;
      apply N.leb_gt; lia.
  - destruct (Ascii.eqb c "$") eqn:E; [|reflexivity].
    apply Ascii.eqb_eq in E. subst. simpl in H1. lia.
Qed.

Lemma amount_chars_plain sg d body frac (dotted : bool) :
  (sg = [] \/ sg = ["-"%char] \/ sg = ["+"%char]) ->
  is_digit d = true ->
  Forall (fun c => amount_body c = true) body ->
  Forall (fun c => is_digit c = true) frac ->
  Forall (fun c => is_space c = false /\ Ascii.eqb c "$" = false)
         (sg ++ d :: body ++ (if dotted then "."%char :: frac else [])).
Proof.
  intros Hsg Hd Hbody Hfrac. apply Forall_app. split.
  - destruct Hsg as [ -> | [ -> | -> ] ]; repeat constructor.
  - constructor; [now apply digit_plain|]. apply Forall_app. split.
    + eapply Forall_impl; [|exact Hbody]. intros c Hc. unfold amount_body in Hc.
      apply orb_prop in Hc as [Hc|Hc]; [now apply digit_plain|].
      apply Ascii.eqb_eq in Hc. subst. split; reflexivity.
    + destruct dotted; [|constructor]. constructor; [split; reflexivity|].
      eapply Forall_impl; [|exact Hfrac]. intros c. apply digit_plain.
Qed.

Lemma remove_char_none c l :
  Forall (fun x => Ascii.eqb x c = false) l -> remove_char c l = l.
Proof.
  unfold remove_char. induction 1 as [|x l Hx _ IH]; simpl; [reflexivity|].
  now rewrite Hx, IH.
Qed.
End SourceBondFacts.

(** X17: on a plain amount (an optional dollar sign, an optional sign, a
    digit, digits and thousands separators, possibly a decimal point and
    digits) the coercion of [eval_sources] and the numeric extraction of the
    source audit give the same number. *)
Theorem source_bond_agrees_with_extraction :
  forall ks dollar sg d body frac (dotted : bool),
    (dollar = [] \/ dollar = ["$"%char]) ->
    (sg = [] \/ sg = ["-"%char] \/ sg = ["+"%char]) ->
    is_digit d = true ->
    Forall (fun c => amount_body c = true) body ->
    Forall (fun c => is_digit c = true) frac ->
    let s := string_of_list_ascii
               (dollar ++ sg ++ d :: body
                ++ (if dotted then "."%char :: frac else [])) in
    SourceAudit._extract_first_numeric ks (VStr s)
    = Val (EvalWindows.source_bond (VStr s)).
Proof.
  intros ks dollar sg d body frac dotted Hdollar Hsg Hd Hbody Hfrac s.
  set (m := sg ++ d :: body ++ (if dotted then "."%char :: frac else [])) in *.
  pose proof (match_number_at_whole sg d body frac dotted Hsg Hd Hbody Hfrac) as Hm.
  pose proof (amount_chars_plain sg d body frac dotted Hsg Hd Hbody Hfrac) as Hplain.
  pose proof (remove_commas_amount sg d body frac dotted Hsg Hd Hfrac) as Hrc.
  pose proof (float_of_chars_plain sg d (SourceAudit.remove_commas body) frac dotted
                Hsg Hd (remove_commas_body body Hbody) Hfrac) as Hf.
  cbv zeta in Hm. fold m in Hm, Hplain, Hrc. rewrite <- Hrc in Hf.
  destruct (float_of_chars (SourceAudit.remove_commas m)) as [f|] eqn:Ef;
    [clear Hf|contradiction].
  assert (Hsearch : SourceAudit.re_search_number (dollar ++ m) = Some m).
  { destruct Hdollar as [ -> | -> ].
    - simpl. rewrite re_search_number_unfold. now rewrite Hm.
    - rewrite re_search_number_unfold.
      change (SourceAudit.match_number_at (["$"%char] ++ m)) with (@None chars).
      simpl. rewrite re_search_number_unfold. now rewrite Hm. }
  assert (Hstrip : strip (dollar ++ m) = dollar ++ m).
  { apply strip_with_id. apply Forall_app. split.
    - destruct Hdollar as [ -> | -> ]; repeat constructor.
    - eapply Forall_impl; [|exact Hplain]. intros c [H _]. exact H. }
  assert (Hrd : EvalWindows.remove_char "$" (dollar ++ m) = m).
  { unfold EvalWindows.remove_char. rewrite filter_app.
    fold (EvalWindows.remove_char "$" m).
    rewrite (remove_char_none "$" m)
      by (eapply Forall_impl; [|exact Hplain]; intros c [_ H]; exact H).
    destruct Hdollar as [ -> | -> ]; reflexivity. }
  subst s. rewrite extract_str.
  unfold EvalWindows.source_bond.
  rewrite list_ascii_of_string_of_list_ascii, Hsearch, Hstrip, Hrd.
  change (EvalWindows.remove_char "," m) with (SourceAudit.remove_commas m).
  rewrite Ef. simpl.
  destruct (SourceAudit.remove_commas m) eqn:E; [|reflexivity].
  exfalso. rewrite Hrc in E. destruct sg; discriminate.
Qed.

Lemma source_bond_agrees_with_extraction_witness :
  SourceAudit._extract_first_numeric SourceAudit.NUMBER_KEYS (VStr "$-2,500.50")
  = Val (EvalWindows.source_bond (VStr "$-2,500.50")).
Proof.
  apply (source_bond_agrees_with_extraction SourceAudit.NUMBER_KEYS
           ["$"%char] ["-"%char] "2"%char
           [","%char; "5"%char; "0"%char; "0"%char] ["5"%char; "0"%char] true);
    auto; repeat constructor.
Defined.

(* ------------------------------------------------------------------ *)
(** ** The [--pairs] argument of atlas_fieldmap_diff.py *)

Section PairsFacts.
Import FieldmapDiff.

Lemma split_on_app_sep sep x r :
  existsb (Ascii.eqb sep) x = false ->
  split_on sep (x ++ sep :: r) = x :: split_on sep r.
Proof.
  induction x as [|c x IH]; simpl.
  - now rewrite Ascii.eqb_refl.
  - rewrite (Ascii.eqb_sym c sep).
    destruct (Ascii.eqb sep c); simpl; [discriminate|].
    intros H. now rewrite IH.
Qed.

Lemma split_on_join sep items :
  items <> [] ->
  Forall (fun x => existsb (Ascii.eqb sep) x = false) items ->
  split_on sep (join sep items) = items.
Proof.
  intros Hne H. induction H as [|x items Hx Hitems IH]; [contradiction|].
  destruct items as [|y items].
  - simpl. now apply split_on_no_sep.
  - change (join sep (x :: y :: items)) with (x ++ sep :: join sep (y :: items)).
    rewrite split_on_app_sep by exact Hx.
    rewrite IH by discriminate. reflexivity.
Qed.

Lemma split_once_app sep a b :
  existsb (Ascii.eqb sep) a = false ->
  split_once sep (a ++ sep :: b) = Some (a, b).
Proof.
  induction a as [|c a IH]; simpl.
  - now rewrite Ascii.eqb_refl.
  - rewrite (Ascii.eqb_sym c sep).
    destruct (Ascii.eqb sep c); simpl; [discriminate|].
    intros H. now rewrite IH.
Qed.

Lemma split_once_none sep l :
  split_once sep l = None <-> existsb (Ascii.eqb sep) l = false.
Proof.
  induction l as [|c l IH]; simpl; [tauto|].
  rewrite (Ascii.eqb_sym c sep).
  destruct (Ascii.eqb sep c); simpl; [split; discriminate|].
  rewrite <- IH. destruct (split_once sep l) as [[a b]|]; split;
    congruence.
Qed.

Lemma drop_while_nil p l : drop_while p l = [] -> Forall (fun c => p c = true) l.
Proof.
  induction l as [|c l IH]; simpl; [constructor|].
  destruct (p c) eqn:E; [|discriminate]. auto.
Qed.

Lemma drop_while_stuck p l :
  match l with [] => True | c :: _ => p c = false end -> drop_while p l = l.
Proof. destruct l as [|c l]; simpl; [reflexivity|]. now intros ->. Qed.

Lemma drop_while_head_stuck p l :
  match drop_while p l with [] => True | c :: _ => p c = false end.
Proof.
  induction l as [|c l IH]; simpl; [exact I|].
  destruct (p c) eqn:E; [exact IH|exact E].
Qed.

Lemma strip_with_nil p l :
  strip_with p l = [] -> Forall (fun c => p c = true) l.
Proof.
  unfold strip_with. intros H.
  apply (f_equal (@rev ascii)) in H. rewrite rev_involutive in H. simpl in H.
  apply drop_while_nil in H. apply Forall_rev in H. rewrite rev_involutive in H.
  pose proof (drop_while_head_stuck p l) as Hh.
  destruct (drop_while p l) as [|c r] eqn:E.
  - now apply drop_while_nil.
  - inversion H; subst. congruence.
Qed.

Lemma strip_with_clean p l :
  match l with [] => True | c :: _ => p c = false end ->
  match rev l with [] => True | c :: _ => p c = false end ->
  strip_with p l = l.
Proof.
  intros H1 H2. unfold strip_with.
  rewrite (drop_while_stuck p l H1), (drop_while_stuck p (rev l) H2).
  apply rev_involutive.
Qed.

Lemma clean_name_strip cf s :
  clean_name cf s = true ->
  strip (list_ascii_of_string s) = list_ascii_of_string s
  /\ existsb (Ascii.eqb ",") (list_ascii_of_string s) = false
  /\ (cf = true -> existsb (Ascii.eqb ":") (list_ascii_of_string s) = false).
Proof.
  unfold clean_name. cbv zeta. intros H.
  apply andb_prop in H as [H H4]. apply andb_prop in H as [H H3].
  apply andb_prop in H as [H1 H2].
  split; [|split].
  - apply strip_with_clean.
    + destruct (list_ascii_of_string s); [exact I|].
      now apply negb_true_iff in H3.
    + destruct (rev (list_ascii_of_string s)); [exact I|].
      now apply negb_true_iff in H4.
  - now apply negb_true_iff in H1.
  - intros ->. now apply negb_true_iff in H2.
Qed.

Lemma pairs_loop_clean pairs : forall acc,
  forallb clean_pair pairs = true ->
  pairs_loop (map (fun p => list_ascii_of_string (fst p) ++ ":"%char
                            :: list_ascii_of_string (snd p)) pairs) acc
  = Some (acc ++ pairs).
Proof.
  induction pairs as [|[a b] pairs IH]; intros acc H.
  - simpl. now rewrite app_nil_r.
  - simpl in H. apply andb_prop in H as [Hp H].
    unfold clean_pair in Hp. apply andb_prop in Hp as [Ha Hb]. simpl in Ha, Hb.
    destruct (clean_name_strip _ _ Ha) as (Sa & Ca & Ka).
    destruct (clean_name_strip _ _ Hb) as (Sb & Cb & _).
    cbn [map pairs_loop fst snd].
    destruct (strip (list_ascii_of_string a ++ ":"%char :: list_ascii_of_string b))
      as [|c r] eqn:E.
    + exfalso. apply strip_with_nil in E. apply Forall_app in E as [_ E].
      inversion E; subst. discriminate.
    + rewrite (split_once_app ":" _ _ (Ka eq_refl)), Sa, Sb.
      rewrite !string_of_list_ascii_of_string.
      rewrite IH by exact H. now rewrite <- app_assoc.
Qed.

Lemma pairs_loop_raises items : forall acc,
  pairs_loop items acc = None
  <-> exists item, In item items /\ strip item <> []
                   /\ existsb (Ascii.eqb ":") item = false.
Proof.
  induction items as [|item items IH]; intros acc; cbn [pairs_loop].
  - split; [discriminate|]. intros (? & [] & _).
  - destruct (strip item) as [|c r] eqn:Es.
    + rewrite IH. split.
      * intros (x & Hx & Hrest). exists x. split; [now right|exact Hrest].
      * intros (x & [<-|Hx] & Hb & Hc); [congruence|eauto].
    + destruct (split_once ":" item) as [[src dst]|] eqn:Eo.
      * rewrite IH. split.
        -- intros (x & Hx & Hrest). exists x. split; [now right|exact Hrest].
        -- intros (x & [<-|Hx] & Hb & Hc); [|eauto].
           apply split_once_none in Hc. congruence.
      * split; [|reflexivity]. intros _. exists item.
        split; [now left|]. split; [now rewrite Es|].
        now apply split_once_none.
Qed.
End PairsFacts.

(** X18: [parse_pairs_arg] reads back the pairs written as
    [src:dst,src:dst,...], in order, when no name contains a comma or starts
    or ends with white space and no source name contains a colon; and it
    raises exactly when some item between commas is not blank and contains
    no colon. *)
Theorem parse_pairs_arg_round_trip :
  (forall pairs,
      forallb clean_pair pairs = true ->
      FieldmapDiff.parse_pairs_arg (pairs_arg pairs) = Some pairs)
  /\ (forall s,
         FieldmapDiff.parse_pairs_arg s = None
         <-> exists item,
               In item (split_on "," (list_ascii_of_string s))
               /\ strip item <> []
               /\ existsb (Ascii.eqb ":") item = false).
Proof.
  split.
  - intros pairs H. unfold FieldmapDiff.parse_pairs_arg, pairs_arg.
    rewrite list_ascii_of_string_of_list_ascii.
    destruct pairs as [|p pairs]; [reflexivity|].
    rewrite split_on_join.
    + now rewrite pairs_loop_clean.
    + discriminate.
    + apply Forall_forall. intros x Hx.
      apply in_map_iff in Hx as ([a b] & <- & Hin).
      apply (proj1 (forallb_forall _ _) H) in Hin.
      unfold clean_pair in Hin. apply andb_prop in Hin as [Ha Hb].
      destruct (clean_name_strip _ _ Ha) as (_ & Ca & _).
      destruct (clean_name_strip _ _ Hb) as (_ & Cb & _).
      simpl in *. rewrite existsb_app. simpl. now rewrite Ca, Cb.
  - intros s. apply pairs_loop_raises.
Qed.

Lemma parse_pairs_arg_round_trip_witness :
  FieldmapDiff.parse_pairs_arg "harris_bond:simple_harris,b:c:d"
  = Some [("harris_bond", "simple_harris"); ("b", "c:d")].
Proof.
  apply (proj1 parse_pairs_arg_round_trip
           [("harris_bond", "simple_harris"); ("b", "c:d")]).
  reflexivity.
Defined.

(* ------------------------------------------------------------------ *)
(** ** The counts of eval_simple *)

Section EvalSimpleCounts.
Import EvalWindows.
Variable fromisoformat : string -> option datetime.
Variable py_repr : value -> string.
Variable now_utc : clock.

Lemma bump_total w v bs : total_count (bump w v bs) = total_count bs + 1.
Proof. unfold total_count. destruct w; simpl; lia. Qed.

Lemma bump_ok w v bs :
  0 <= SourceAudit.count (b24 bs) -> 0 <= SourceAudit.count (b48 bs) ->
  0 <= SourceAudit.count (b72 bs) ->
  entry_ok (bump w v bs).
Proof.
  intros H1 H2 H3. unfold entry_ok. rewrite bump_total. unfold total_count.
  destruct w; simpl; lia.
Qed.

Lemma add_result_inv results county w v :
  (forall c bs, dict_get results c = Some bs -> entry_ok bs) ->
  (forall c, c <> county ->
             dict_get (add_result results county w v) c = dict_get results c)
  /\ (forall c bs, dict_get (add_result results county w v) c = Some bs ->
                   entry_ok bs)
  /\ county_total (add_result results county w v) county
     = county_total results county + 1.
Proof.
  intros Hok. unfold add_result. split; [|split].
  - intros c Hc. apply dict_get_set_other. congruence.
  - intros c bs. destruct (String.eqb county c) eqn:E.
    + apply String.eqb_eq in E. subst c. rewrite dict_get_set_same.
      intros H. inversion H; subst.
      destruct (dict_get results county) as [b0|] eqn:Eg.
      * destruct (Hok _ _ Eg) as (H1 & H2 & H3 & _). now apply bump_ok.
      * apply bump_ok; simpl; lia.
    + apply String.eqb_neq in E. rewrite dict_get_set_other by exact E.
      apply Hok.
  - unfold county_total. rewrite dict_get_set_same, bump_total.
    destruct (dict_get results county); reflexivity.
Qed.

Lemma simple_docs_counts county docs : forall calls results calls' results',
  simple_docs fromisoformat py_repr now_utc county docs calls results
  = Some (calls', results') ->
  (forall c bs, dict_get results c = Some bs -> entry_ok bs) ->
  (forall c, c <> county -> dict_get results' c = dict_get results c)
  /\ (forall c bs, dict_get results' c = Some bs -> entry_ok bs)
  /\ county_total results county <= county_total results' county
     <= county_total results county + Z.of_nat (List.length docs).
Proof.
  induction docs as [|doc docs IH]; intros calls results calls' results' H Hok.
  - simpl in H. inversion H; subst. split; [auto|split; [exact Hok|simpl; lia]].
  - cbn [simple_docs] in H.
    assert (Hlen : Z.of_nat (List.length (doc :: docs))
                   = Z.of_nat (List.length docs) + 1)
      by (cbn [List.length]; lia).
    rewrite Hlen.
    destruct (parse_date_any fromisoformat py_repr
                (doc_get doc "booking_date" VNone)) as [d|].
    + destruct (bucket_0_24_48_72 (now_utc calls) (Some d)) as [w| |].
      * destruct (add_result_inv results county w (simple_bond doc) Hok)
          as (A1 & A2 & A3).
        destruct (IH _ _ _ _ H A2) as (B1 & B2 & B3).
        split; [|split].
        -- intros c Hc. rewrite B1, A1; auto.
        -- exact B2.
        -- lia.
      * destruct (IH _ _ _ _ H Hok) as (B1 & B2 & B3).
        split; [exact B1|split; [exact B2|lia]].
      * discriminate.
    + destruct (IH _ _ _ _ H Hok) as (B1 & B2 & B3).
      split; [exact B1|split; [exact B2|lia]].
Qed.

Lemma simple_counties_counts db colls : forall calls results results',
  simple_counties fromisoformat py_repr now_utc db colls calls results
  = Some results' ->
  NoDup (map fst colls) ->
  (forall c, In c (map fst colls) -> dict_get results c = None) ->
  (forall c bs, dict_get results c = Some bs -> entry_ok bs) ->
  forall c bs,
    dict_get results' c = Some bs ->
    entry_ok bs
    /\ (dict_get results c = Some bs
        \/ exists coll, In (c, coll) colls
                        /\ total_count bs <= Z.of_nat (List.length (docs_of db coll))).
Proof.
  induction colls as [|[county coll] colls IH];
    intros calls results results' H Hnd Hfresh Hok c bs Hc.
  - simpl in H. inversion H; subst. split; [eapply Hok; eauto|now left].
  - cbn [simple_counties] in H. fold (docs_of db coll) in H.
    destruct (simple_docs fromisoformat py_repr now_utc county (docs_of db coll)
                calls results) as [[calls1 results1]|] eqn:Es; [|discriminate].
    destruct (simple_docs_counts _ _ _ _ _ _ Es Hok) as (A1 & A2 & A3).
    simpl in Hnd. inversion Hnd as [|? ? Hnotin Hnd']; subst.
    assert (Hfresh1 : forall c0, In c0 (map fst colls) -> dict_get results1 c0 = None).
    { intros c0 Hc0. rewrite A1.
      - apply Hfresh. now right.
      - intros ->. contradiction. }
    destruct (IH _ _ _ H Hnd' Hfresh1 A2 c bs Hc) as [Hbs [Hold|(coll' & Hin & Hle)]].
    + split; [exact Hbs|].
      destruct (string_dec c county) as [->|Hne].
      * right. exists coll. split; [now left|].
        unfold county_total in A3. rewrite Hold in A3.
        rewrite (Hfresh county) in A3 by now left. lia.
      * left. now rewrite <- A1.
    + split; [exact Hbs|]. right. exists coll'. split; [now right|exact Hle].
Qed.
End EvalSimpleCounts.

(** X19: when [eval_simple] returns, every entry of its results belongs to a
    county of [SIMPLE_COLL], none of its three counts is negative, and
    together they count at least one and at most as many documents as the
    collection of that county holds: a county with no document inside the
    windows has no entry, and no document is counted twice. *)
Theorem eval_simple_counts_documents :
  forall fromisoformat py_repr now_utc db results county bs,
    EvalWindows.eval_simple fromisoformat py_repr now_utc db = Some results ->
    dict_get results county = Some bs ->
    entry_ok bs
    /\ exists coll,
         In (county, coll) EvalWindows.SIMPLE_COLL
         /\ total_count bs <= Z.of_nat (List.length (docs_of db coll)).
Proof.
  intros fromisoformat py_repr now_utc db results county bs H Hc.
  unfold EvalWindows.eval_simple in H.
  destruct (simple_counties_counts fromisoformat py_repr now_utc db
              EvalWindows.SIMPLE_COLL 0%nat [] results H) with (c := county) (bs := bs)
    as [Hok [Hold|Hnew]]; auto.
  - repeat constructor; simpl; intuition discriminate.
  - discriminate.
  - discriminate.
Qed.

Lemma eval_simple_counts_documents_witness :
  let doc := VDict [("booking_date", VStr "2024-01-05"); ("bond_amount", VInt 500)] in
  let bs := SourceAudit.mk_buckets
              (SourceAudit.mk_bucket 2 (Float64.of_Z 1000))
              (SourceAudit.mk_bucket 0 Float64.zero)
              (SourceAudit.mk_bucket 0 Float64.zero) in
  entry_ok bs
  /\ exists coll,
       In ("harris"%string, coll) EvalWindows.SIMPLE_COLL
       /\ total_count bs
          <= Z.of_nat (List.length (docs_of [("simple_harris", [doc; doc; VDict []])] coll)).
Proof.
  intros doc bs.
  apply (eval_simple_counts_documents (fun _ => None) (fun _ => "")
           (fun _ => 1704412800000000 + PyDatetime.us_per_hour)
           [("simple_harris", [doc; doc; VDict []])] [("harris", bs)] "harris").
  - vm_compute. reflexivity.
  - reflexivity.
Defined.
